(** * farm-telegram-bot: the booking worker, embedded and verified

    The repository ships two revisions of [worker.js]:
    - the _baseline_ worker (excursion flow only, with validated people and
      contact steps), modelled in [Module Baseline];
    - the _winter_ worker (excursion flow plus the New-Year events flow with a
      per-event seat counter), modelled in [Module Winter].

    Both are shallowly embedded over one store/effect monad.  A delivery is a
    function from the key-value store to the ordered log of effects it
    performs; the store after a delivery is the replay of that log. *)

From Stdlib Require Import ZArith NArith Ascii String Lia DecimalString.
From stdpp Require Import gmap list sorting.

Local Open Scope Z_scope.

(** ** JavaScript strings

    A JS string is modelled by its sequence of Unicode code points.  All the
    string operations the worker uses ([===], [startsWith], [split] on an
    ASCII separator, [trim], the ASCII character classes and [\s] of its
    regular expressions) agree on code points and on UTF-16 code units. *)

Abbreviation jstr := (list N).

Fixpoint utf8_bytes (s : string) : list N :=
  match s with
  | EmptyString => []
  | String a r => N_of_ascii a :: utf8_bytes r
  end.

(** UTF-8 decoding of a source literal: [acc] is the code point under
    construction and [k] the number of continuation bytes still expected. *)
Fixpoint utf8_points (bs : list N) (acc : N) (k : nat) : jstr :=
  match bs with
  | [] => []
  | b :: r =>
      match k with
      | S k' =>
          let acc' := (acc * 64 + b mod 64)%N in
          match k' with
          | O => acc' :: utf8_points r 0%N O
          | S _ => utf8_points r acc' k'
          end
      | O =>
          if (b <? 128)%N then b :: utf8_points r 0%N O
          else if (b <? 224)%N then utf8_points r (b mod 32)%N 1%nat
          else if (b <? 240)%N then utf8_points r (b mod 16)%N 2%nat
          else utf8_points r (b mod 8)%N 3%nat
      end
  end.

(** [J "..."] is the JS string written by the literal. *)
Definition J (s : string) : jstr := utf8_points (utf8_bytes s) 0%N O.
Global Arguments J : simpl never.

(** [String(n)] for an integer-valued number below 10^21 in magnitude (JS
    switches to exponent notation from there on). *)
Definition String_of_Z (n : Z) : jstr :=
  J (NilZero.string_of_int (Z.to_int n)).

(** [${v}] of a value that may be [undefined]. *)
Definition tpl (o : option jstr) : jstr := default (J "undefined") o.

(** A property read in a boolean position: [undefined] and the empty string
    are falsy. *)
Definition truthy (o : option jstr) : bool :=
  match o with
  | Some (_ :: _) => true
  | _ => false
  end.

(** [o || d] on strings. *)
Definition or_else (o : option jstr) (d : jstr) : jstr :=
  match o with
  | Some (c :: r) => c :: r
  | _ => d
  end.

(** [s.startsWith(p)] *)
Fixpoint startsWith (p s : jstr) : bool :=
  match p, s with
  | [], _ => true
  | a :: p', b :: s' => (a =? b)%N && startsWith p' s'
  | _ :: _, [] => false
  end.

(** [s.split(sep)] for a one-character separator: never the empty array. *)
Fixpoint split (sep : N) (s : jstr) : list jstr :=
  match s with
  | [] => [[]]
  | c :: r =>
      if (c =? sep)%N then [] :: split sep r
      else match split sep r with
           | h :: t => (c :: h) :: t
           | [] => [[c]]
           end
  end.

(** The characters matched by [\s], which are also the ones [trim] and
    [parseInt] skip: WhiteSpace and LineTerminator of ECMAScript. *)
Definition is_space (c : N) : bool :=
  ((9 <=? c) && (c <=? 13) || (c =? 32) || (c =? 160) || (c =? 5760)
   || (8192 <=? c) && (c <=? 8202) || (c =? 8232) || (c =? 8233)
   || (c =? 8239) || (c =? 8287) || (c =? 12288) || (c =? 65279))%N.

(** [[0-9]], the complement of [\D]. *)
Definition is_digit (c : N) : bool := ((48 <=? c) && (c <=? 57))%N.

(** [[a-zA-Z0-9_]] *)
Definition is_word (c : N) : bool :=
  ((97 <=? c) && (c <=? 122) || (65 <=? c) && (c <=? 90) || is_digit c
   || (c =? 95))%N.

Fixpoint drop_spaces (s : jstr) : jstr :=
  match s with
  | c :: r => if is_space c then drop_spaces r else s
  | [] => []
  end.

(** [s.trim()] *)
Definition trim (s : jstr) : jstr :=
  rev (drop_spaces (rev (drop_spaces s))).

Fixpoint take_digits (s : jstr) : jstr :=
  match s with
  | c :: r => if is_digit c then c :: take_digits r else []
  | [] => []
  end.

Definition digits_value (ds : jstr) : Z :=
  fold_left (fun acc c => acc * 10 + (Z.of_N c - 48)) ds 0.

(** ** JavaScript numbers

    Every number of the worker is an integer-valued double or an infinity:
    the counters and parties it reads from stored JSON, the parties it
    parses from typed digits, the sums it forms.  A finite one is modelled
    by the integer it is; an integer that is no double is not a number of
    the worker.  [fl] is the rounding of the exact result of an operation:
    to the nearest double, ties to the even significand.  It is the identity
    below 2^53. *)

Definition fl (n : Z) : Z :=
  let a := Z.abs n in
  if a <? 2 ^ 53 then n
  else
    let e := Z.log2 a - 52 in
    let q := a / 2 ^ e in
    let r := a mod 2 ^ e in
    let half := 2 ^ (e - 1) in
    let q' := if r <? half then q
              else if half <? r then q + 1
              else if Z.even q then q else q + 1 in
    Z.sgn n * (q' * 2 ^ e).

Inductive Num := Fin (n : Z) | Inf (negative : bool).

(** The double nearest to the integer [n]: an infinity from
    2^1024 - 2^970 on, where the rounding leaves the finite doubles. *)
Definition double (n : Z) : Num :=
  let r := fl n in
  if 2 ^ 1024 <=? Z.abs r then Inf (r <? 0) else Fin r.

(** [parseInt(s, 10)]: [None] is NaN.  The digits denote an integer, which
    is rounded to a double. *)
Definition parseInt (s : jstr) : option Num :=
  let s1 := drop_spaces s in
  let '(neg, s2) :=
    match s1 with
    | 45%N :: r => (true, r)
    | 43%N :: r => (false, r)
    | _ => (false, s1)
    end in
  match take_digits s2 with
  | [] => None
  | ds => Some (double (if neg : bool then - digits_value ds else digits_value ds))
  end.

(** [parseInt(x, 10) || 0] *)
Definition parseInt_or0 (s : jstr) : Num := default (Fin 0) (parseInt s).

(** What [JSON.stringify] writes for a number, as the readers of the record
    take it: an infinity is written as [null], which the only reads of a
    stored party, [booking.people || "0"] and [b.people || "0"], take as
    they take [0]. *)
Definition toJSON (n : Num) : Z :=
  match n with
  | Fin z => z
  | Inf _ => 0
  end.

(** *** [String(n)]

    An integer below 2^53 is printed with its digits.  From there on a
    number is printed with the least number of digits that still denote the
    same double (between two such decimals, the one nearer to the number),
    followed by zeros below 10^21 and in exponent form from 10^21 on. *)

Fixpoint decimal_length (fuel : nat) (a : Z) : Z :=
  match fuel with
  | O => 1
  | S f => if a <? 10 then 1 else 1 + decimal_length f (a / 10)
  end.

(** The multiple of [p] next to [a], below or above, that rounds to [a]. *)
Definition nearest (a p : Z) : option Z :=
  let lo := a / p * p in
  let hi := lo + p in
  let okLo := fl lo =? a in
  let okHi := fl hi =? a in
  if okLo && okHi then
    Some (if a - lo <? hi - a then lo
          else if hi - a <? a - lo then hi
          else if Z.even (lo / p) then lo else hi)
  else if okLo then Some lo
  else if okHi then Some hi
  else None.

(** The decimal of [k], [k + 1], ... digits for the double [a] of [D]
    digits, with the power of ten of its last digit; seventeen digits
    always do. *)
Fixpoint shortest (fuel : nat) (a D k : Z) : Z * Z :=
  let p := 10 ^ (D - k) in
  match fuel with
  | O => (a / p * p, p)
  | S f =>
      match nearest a p with
      | Some c => (c, p)
      | None => shortest f a D (k + 1)
      end
  end.

Definition exponent_form (a : Z) : jstr :=
  let D := decimal_length (Z.to_nat (Z.log2 a)) a in
  let '(c, p) := shortest 17 a D 1 in
  let '(s, e) := if c =? 10 ^ D then (1, D) else (c / p, D - 1) in
  match String_of_Z s with
  | d :: ((_ :: _) as ds) => d :: 46%N :: ds
  | ds => ds
  end ++ J "e+" ++ String_of_Z e.

Definition plain_form (a : Z) : jstr :=
  let D := decimal_length (Z.to_nat (Z.log2 a)) a in
  String_of_Z (fst (shortest 17 a D 1)).

Definition String_of_num (n : Z) : jstr :=
  if Z.abs n <? 2 ^ 53 then String_of_Z n
  else (if n <? 0 then J "-" else [])
       ++ (if Z.abs n <? 10 ^ 21 then plain_form (Z.abs n) else exponent_form (Z.abs n)).

(** [parseInt(n || "0", 10) || 0] of a stored number [n]: the number is
    printed and the print parsed, so that of a number in exponent form only
    the first digit is read.  The digits of a print are at most 21, which
    no parse takes to an infinity. *)
Definition parseInt_num (n : Z) : Z :=
  match parseInt (if n =? 0 then J "0" else String_of_num n) with
  | Some (Fin z) => z
  | _ => 0
  end.

(** ** The clock

    A clock reading is a time value: an integer of milliseconds of
    magnitude at most 8.64 * 10^15, far below 2^53, so that
    [Date.now() + 600000] is exact and [String] prints its digits.

    [new Date().toISOString().slice(0, 10)]: the UTC calendar day of a
    time value, by the usual days-to-civil conversion.  A year from 0000 to
    9999 is printed with four digits; any other year with its sign and six
    digits, of which the first ten characters keep the year and the month. *)

Definition pad (w : nat) (n : Z) : jstr :=
  let d := String_of_Z n in
  replicate (w - length d) 48%N ++ d.

Definition isoDay (ms : Z) : jstr :=
  let z := ms / 86400000 + 719468 in
  let era := z / 146097 in
  let doe := z - era * 146097 in
  let yoe := (doe - doe / 1460 + doe / 36524 - doe / 146096) / 365 in
  let doy := doe - (365 * yoe + yoe / 4 - yoe / 100) in
  let mp := (5 * doy + 2) / 153 in
  let d := doy - (153 * mp + 2) / 5 + 1 in
  let m := if mp <? 10 then mp + 3 else mp - 9 in
  let y := yoe + era * 400 + (if m <=? 2 then 1 else 0) in
  if (0 <=? y) && (y <=? 9999) then
    pad 4 y ++ J "-" ++ pad 2 m ++ J "-" ++ pad 2 d
  else
    take 10 ((if y <? 0 then J "-" else J "+") ++ pad 6 (Z.abs y)
             ++ J "-" ++ pad 2 m ++ J "-" ++ pad 2 d).

(** The clock readings of one delivery, in the order the worker takes them. *)
Record Clock := {
  t_now : Z;      (* [const now = Date.now()] before the session is read *)
  t_set : Z;      (* [Date.now()] inside [setState] *)
  t_day : Z;      (* [new Date()] inside [generateBookingId] *)
  t_id : Z;       (* [Date.now()] inside [generateBookingId] *)
  t_created : Z;  (* [Date.now()] for [createdAt] *)
}.


(** ** Records of the key-value store *)

(** The per-event seat counter, [{ capacity, booked }]. *)
Record EventState := { capacity : Z; booked : Z }.

(** The conversation session: a JS object whose properties may be absent. *)
Record Session := {
  s_step : option jstr;
  s_name : option jstr;
  s_date : option jstr;
  s_time : option jstr;
  s_people : option jstr;
  s_contact : option jstr;
  s_nyEventId : option jstr;
  s_nyEventTitle : option jstr;
  s_nyEventDate : option jstr;
  s_expiresAt : option Z;
}.

(** [session = {}] *)
Definition emptySession : Session :=
  Build_Session None None None None None None None None None None.

Definition with_step (v : jstr) (s : Session) : Session :=
  Build_Session (Some v) (s_name s) (s_date s) (s_time s) (s_people s)
    (s_contact s) (s_nyEventId s) (s_nyEventTitle s) (s_nyEventDate s)
    (s_expiresAt s).
Definition with_name (v : jstr) (s : Session) : Session :=
  Build_Session (s_step s) (Some v) (s_date s) (s_time s) (s_people s)
    (s_contact s) (s_nyEventId s) (s_nyEventTitle s) (s_nyEventDate s)
    (s_expiresAt s).
Definition with_date (v : jstr) (s : Session) : Session :=
  Build_Session (s_step s) (s_name s) (Some v) (s_time s) (s_people s)
    (s_contact s) (s_nyEventId s) (s_nyEventTitle s) (s_nyEventDate s)
    (s_expiresAt s).
Definition with_time (v : jstr) (s : Session) : Session :=
  Build_Session (s_step s) (s_name s) (s_date s) (Some v) (s_people s)
    (s_contact s) (s_nyEventId s) (s_nyEventTitle s) (s_nyEventDate s)
    (s_expiresAt s).
Definition with_people (v : jstr) (s : Session) : Session :=
  Build_Session (s_step s) (s_name s) (s_date s) (s_time s) (Some v)
    (s_contact s) (s_nyEventId s) (s_nyEventTitle s) (s_nyEventDate s)
    (s_expiresAt s).
Definition with_contact (v : jstr) (s : Session) : Session :=
  Build_Session (s_step s) (s_name s) (s_date s) (s_time s) (s_people s)
    (Some v) (s_nyEventId s) (s_nyEventTitle s) (s_nyEventDate s)
    (s_expiresAt s).
Definition with_nyEvent (id title date : jstr) (s : Session) : Session :=
  Build_Session (s_step s) (s_name s) (s_date s) (s_time s) (s_people s)
    (s_contact s) (Some id) (Some title) (Some date) (s_expiresAt s).
Definition with_expiresAt (v : Z) (s : Session) : Session :=
  Build_Session (s_step s) (s_name s) (s_date s) (s_time s) (s_people s)
    (s_contact s) (s_nyEventId s) (s_nyEventTitle s) (s_nyEventDate s)
    (Some v).

(** [booking.data], the captured answers. *)
Record BookingData := {
  d_name : option jstr;
  d_date : option jstr;
  d_time : option jstr;
  d_people : option jstr;
  d_contact : option jstr;
  d_nyEventTitle : option jstr;
  d_username : option jstr;
}.

Record Booking := {
  b_id : jstr;
  b_type : jstr;
  b_chatId : Z;
  b_status : jstr;
  b_nyEventId : option jstr;
  b_createdAt : Z;
  b_people : Z;                  (* the finite number stored; [0] also for [null] *)
  b_data : BookingData;
}.

Definition with_status (v : jstr) (b : Booking) : Booking :=
  Build_Booking (b_id b) (b_type b) (b_chatId b) v (b_nyEventId b)
    (b_createdAt b) (b_people b) (b_data b).

Definition with_booked (v : Z) (e : EventState) : EventState :=
  {| capacity := capacity e; booked := v |}.

(** The [bookingData] object handed to [createBooking]. *)
Record BookingRequest := {
  r_type : jstr;
  r_chatId : Z;
  r_nyEventId : option jstr;
  r_people : Num;
  r_data : BookingData;
}.

Global Instance EventState_eq_dec : EqDecision EventState.
Proof. solve_decision. Defined.
Global Instance Session_eq_dec : EqDecision Session.
Proof. solve_decision. Defined.
Global Instance BookingData_eq_dec : EqDecision BookingData.
Proof. solve_decision. Defined.
Global Instance Booking_eq_dec : EqDecision Booking.
Proof. solve_decision. Defined.

(** The three KV namespaces bound to the worker. *)
Record Store := {
  STATE : gmap jstr Session;
  BOOKINGS : gmap jstr Booking;
  EVENTS : gmap jstr EventState;
}.

(** ** Effects *)

Inductive Keyboard :=
| Kb_null                                 (* no [reply_markup] *)
| Kb_main                                 (* baseline [buildMainKeyboard()] *)
| Kb_main_winter (isAdminUser : bool)     (* winter [buildMainKeyboard(isAdminUser)] *)
| Kb_flow                                 (* [buildFlowKeyboard()] *)
| Kb_exPeople                             (* [buildExPeopleKeyboard()] *)
| Kb_remove                               (* [{ remove_keyboard: true }] *)
| Kb_winter                               (* the event labels of [startNyMenu] *)
| Kb_adminBooking (bookingId : jstr)      (* [buildAdminBookingKeyboard(id)] *)
| Kb_adminEvents.                         (* [buildAdminEventsMenuKeyboard()] *)

(** [chat_id] is a number taken from the update, or the string of
    [env.ADMIN_CHAT_ID]. *)
Inductive ChatRef :=
| Chat (id : Z)
| ChatEnv (id : jstr).

Inductive Effect :=
| StatePut (key : jstr) (s : Session)
| StateDelete (key : jstr)
| BookingsPut (key : jstr) (b : Booking)
| EventsPut (key : jstr) (e : EventState)
| SendMessage (chat : ChatRef) (text : jstr) (keyboard : Keyboard)
| EditMessageText (chat : Z) (messageId : Z) (text : jstr)
| AnswerCallbackQuery (callbackQueryId : jstr) (text : jstr)
| Uncaught.                               (* an exception leaves [fetch] *)

Definition apply (st : Store) (e : Effect) : Store :=
  match e with
  | StatePut k s =>
      {| STATE := <[k := s]> (STATE st); BOOKINGS := BOOKINGS st; EVENTS := EVENTS st |}
  | StateDelete k =>
      {| STATE := delete k (STATE st); BOOKINGS := BOOKINGS st; EVENTS := EVENTS st |}
  | BookingsPut k b =>
      {| STATE := STATE st; BOOKINGS := <[k := b]> (BOOKINGS st); EVENTS := EVENTS st |}
  | EventsPut k e =>
      {| STATE := STATE st; BOOKINGS := BOOKINGS st; EVENTS := <[k := e]> (EVENTS st) |}
  | _ => st
  end.

(** The store after the effects of [log], performed in order on [st]. *)
Definition replay (log : list Effect) (st : Store) : Store :=
  fold_left apply log st.

(** ** The delivery monad

    A computation reads the store it is started in and returns its result
    with the log of its effects; what follows it runs in the replayed
    store.  The external adapters (KV and the Telegram API) are taken to
    succeed. *)

Definition M (A : Type) : Type := Store -> A * list Effect.

Global Instance M_ret : MRet M := fun A a _ => (a, []).

Global Instance M_bind : MBind M := fun A B f m st =>
  let '(a, l1) := m st in
  let '(b, l2) := f a (replay l1 st) in
  (b, l1 ++ l2).

Definition ret {A} (a : A) : M A := mret a.
Definition emit (e : Effect) : M unit := fun _ => (tt, [e]).
Definition read {A} (f : Store -> A) : M A := fun st => (f st, []).

(** The log of a computation started in [st], and the store it leaves. *)
Definition trace {A} (m : M A) (st : Store) : list Effect := snd (m st).
Definition exec {A} (m : M A) (st : Store) : Store := replay (trace m st) st.

(** *** Telegram helpers *)

Definition sendMessage (chatId : Z) (text : jstr) (keyboard : Keyboard) : M unit :=
  emit (SendMessage (Chat chatId) text keyboard).
Definition editMessageText (chatId messageId : Z) (text : jstr) : M unit :=
  emit (EditMessageText chatId messageId text).
Definition answerCallbackQuery (callbackQueryId text : jstr) : M unit :=
  emit (AnswerCallbackQuery callbackQueryId text).

(** *** Environment and updates *)

Record Env := {
  ADMIN_USER_ID : option jstr;
  ADMIN_CHAT_ID : option jstr;
}.

Record CallbackQuery := {
  cq_id : jstr;
  cq_from : option Z;            (* [callbackQuery.from.id] *)
  cq_data : option jstr;
  cq_message : option (Z * Z);   (* [message.chat.id], [message.message_id] *)
}.

Record Message := {
  m_chat : Z;                    (* [message.chat.id] *)
  m_from : option Z;             (* [message.from.id] *)
  m_username : option jstr;      (* [message.from.username] *)
  m_text : option jstr;
}.

Record Update := {
  callback_query : option CallbackQuery;
  message : option Message;
}.

Definition isAdminUserId (env : Env) (userId : option Z) : bool :=
  if truthy (ADMIN_USER_ID env) then
    bool_decide (tpl (String_of_Z <$> userId) = or_else (ADMIN_USER_ID env) [])
  else false.

(** *** KV helpers shared by the two workers *)

Definition getBooking (bookingId : option jstr) : M (option Booking) :=
  read (fun st => BOOKINGS st !! (J "booking:" ++ tpl bookingId)).

Definition saveBooking (booking : Booking) : M unit :=
  match b_id booking with
  | [] => ret tt
  | _ :: _ => emit (BookingsPut (J "booking:" ++ b_id booking) booking)
  end.

Definition userKey (chatId : Z) : jstr := J "user:" ++ String_of_Z chatId.

(** The session read at the start of a message delivery, with the lazy
    expiry: a session past [expiresAt] is deleted and replaced by [{}]. *)
Definition loadSession (clk : Clock) (chatId : Z) : M Session :=
  sessionRaw ← read (fun st => STATE st !! userKey chatId);
  let session := default emptySession sessionRaw in
  match s_expiresAt session with
  | Some e =>
      if negb (e =? 0) && (t_now clk >? e) then
        emit (StateDelete (userKey chatId));; ret emptySession
      else ret session
  | None => ret session
  end.

Definition setState (clk : Clock) (chatId : Z) (newState : Session) : M unit :=
  emit (StatePut (userKey chatId) (with_expiresAt (t_set clk + 600000) newState)).

Definition clearState (chatId : Z) : M unit :=
  emit (StateDelete (userKey chatId)).

(** [if (booking.data) { if (booking.data.date) adminText += ... }] *)
Definition nl : jstr := [10%N].

Definition dataLines (d : BookingData) : jstr :=
  (if truthy (d_date d) then J "Дата: " ++ tpl (d_date d) ++ nl else [])
  ++ (if truthy (d_time d) then J "Время: " ++ tpl (d_time d) ++ nl else [])
  ++ (if truthy (d_name d) then J "Имя: " ++ tpl (d_name d) ++ nl else [])
  ++ (if truthy (d_people d) then J "Гостей: " ++ tpl (d_people d) ++ nl else [])
  ++ (if truthy (d_contact d) then J "Контакт: " ++ tpl (d_contact d) ++ nl else []).

(** [xs.join(sep)] *)
Fixpoint join (sep : jstr) (xs : list jstr) : jstr :=
  match xs with
  | [] => []
  | [x] => x
  | x :: r => x ++ sep ++ join sep r
  end.

(** [for (const x of xs) { ... }] collecting one result per element. *)
Fixpoint forM {A B} (xs : list A) (f : A -> M B) : M (list B) :=
  match xs with
  | [] => ret []
  | x :: r => y ← f x; ys ← forM r f; ret (y :: ys)
  end.

(** Keys come back from [KV.list] in lexicographic order. *)
Fixpoint lex_leb (a b : jstr) : bool :=
  match a, b with
  | [], _ => true
  | _ :: _, [] => false
  | x :: a', y :: b' => (x <? y)%N || (x =? y)%N && lex_leb a' b'
  end.

Fixpoint insert_by_key {V} (kv : jstr * V) (l : list (jstr * V)) : list (jstr * V) :=
  match l with
  | [] => [kv]
  | h :: t => if lex_leb (fst kv) (fst h) then kv :: h :: t else h :: insert_by_key kv t
  end.

Definition sort_by_key {V} (l : list (jstr * V)) : list (jstr * V) :=
  foldr insert_by_key [] l.

(** [lines.join("\n")] of literal lines: the static texts of the menu. *)
Definition text_of (ls : list string) : jstr := join nl (J <$> ls).

Definition excursionsText : jstr := text_of [
  "Ферма Голубой Коровы приглашает вас на экскурсии:"; "";
  "1) Обзорная экскурсия — 1 час";
  "— знакомство с коровами, козами, ламами";
  "— кормление животных";
  "— прогулка по территории"; "";
  "2) Гастро-тур — 1.5 часа";
  "— дегустация сыра и свежего молока";
  "— мини-лекция о сыроварне"; "";
  "3) Семейная экскурсия — 1 час";
  "— формат для детей";
  "— дружелюбные животные"; "" ]%string.

Definition scheduleText : jstr := text_of [
  "Экскурсии каждый день по предварительной записи с 10:00 до 18:00.";
  "Магазин работает с 11:00 до 17:00.";
  "Бронируйте заранее." ]%string.

Definition directionsText : jstr := text_of [
  "Адрес:"; "Псковская область, Печорский район,";
  "деревня Подлесье, Центральная 10."; "";
  "В навигатор: Ферма Голубой Коровы";
  "От Пскова → 55 минут"; "От Изборска → 20 минут"; "От Печор → 15 минут" ]%string.

Definition productsText : jstr := text_of [
  "Наша продукция:"; "— выдержанные сыры"; "— сыры"; "— сырники";
  "— масло сливочное"; "— говядина и телятина"; "";
  "Купить можно в фермерском магазине." ]%string.

Definition welcomeText : jstr := text_of [
  "Добро пожаловать на Ферму Голубой Коровы!"; ""; "Выберите действие:" ]%string.

(** [session.step === "..."] *)
Definition at_step (session : Session) (name : string) : bool :=
  bool_decide (s_step session = Some (J name)).

(** [text === "..."] *)
Definition is_text (text : jstr) (lit : string) : bool :=
  bool_decide (text = J lit).

(** [if (env.ADMIN_CHAT_ID) await callTelegram("sendMessage", ...)] *)
Definition notifyAdmin (env : Env) (text : jstr) (bookingId : jstr) : M unit :=
  if truthy (ADMIN_CHAT_ID env) then
    emit (SendMessage (ChatEnv (or_else (ADMIN_CHAT_ID env) [])) text (Kb_adminBooking bookingId))
  else ret tt.

(** ** The winter worker (events with a seat counter) *)

Module Winter.

Record WinterEvent := {
  ev_id : jstr;
  ev_label : jstr;
  ev_date : jstr;
  ev_title : jstr;
}.

Definition mkEvent (id date title : string) : WinterEvent :=
  {| ev_id := J id; ev_label := J date ++ J " — " ++ J title;
     ev_date := J date; ev_title := J title |}.

Definition winterEvents : list WinterEvent := [
  mkEvent "ny-03" "03.01" "Ёлка у Снежной королевы";
  mkEvent "ny-04" "04.01" "Дегустация «Мир холодца и студня» (Коллагеновый день)";
  mkEvent "ny-05" "05.01" "Сырные традиции народов мира: Индия, Италия, Франция";
  mkEvent "ny-06" "06.01" "Детская программа «Коза-Дереза и её африканские родственники»";
  mkEvent "ny-07" "07.01" "«От носа до хвоста»: дегустация сыров и стейки";
  mkEvent "ny-08" "08.01" "Дегустация «Пицца и каннеллони»";
  mkEvent "ny-09" "09.01" "Русский день. «Зимние традиции и угощения»"
].

(** [winterEvents.find(e => e.id === id)] *)
Definition findEvent (id : jstr) : option WinterEvent :=
  List.find (fun e => bool_decide (ev_id e = id)) winterEvents.

(** *** KV helpers for events and bookings *)

Definition getEventState (eventId : jstr) : M (jstr * EventState) :=
  let key := J "event:" ++ eventId in
  raw ← read (fun st => EVENTS st !! key);
  match raw with
  | Some state => ret (key, state)
  | None =>
      let state := {| capacity := 40; booked := 0 |} in
      emit (EventsPut key state);; ret (key, state)
  end.

Definition saveEventState (key : jstr) (state : EventState) : M unit :=
  emit (EventsPut key state).

(** [data.nyEventDate] is not a property of any [bookingData] the worker
    builds, so the event part is [data.data.date] or ["na"]. *)
Definition generateBookingId (clk : Clock) (data : BookingRequest) : jstr :=
  let today := isoDay (t_day clk) in
  let eventPart := or_else (d_date (r_data data)) (J "na") in
  let ts := t_id clk in
  J "bk-" ++ eventPart ++ J "-" ++ today ++ J "-" ++ String_of_Z ts.

Definition createBooking (clk : Clock) (data : BookingRequest) : M Booking :=
  let id := generateBookingId clk data in
  let booking := {|
    b_id := id;
    b_type := or_else (Some (r_type data)) (J "unknown");
    b_chatId := r_chatId data;
    b_status := J "new";
    b_nyEventId := if truthy (r_nyEventId data) then r_nyEventId data else None;
    b_createdAt := t_created clk;
    b_people := toJSON (r_people data);
    b_data := r_data data |} in
  saveBooking booking;; ret booking.

(** *** /events summary and detail *)

Definition summaryLine (ev : WinterEvent) : M jstr :=
  '(_, state) ← getEventState (ev_id ev);
  let free := fl (capacity state - booked state) in
  let status := if free <=? 0 then J "приём закрыт" else J "свободно " ++ String_of_num free in
  ret (ev_date ev ++ J " — " ++ ev_title ev ++ J ": " ++ String_of_num (booked state)
       ++ J "/" ++ String_of_num (capacity state) ++ J " (" ++ status ++ J ")").

Definition sendEventsSummaryMessage (chatId : Z) : M unit :=
  lines ← forM winterEvents summaryLine;
  sendMessage chatId (J "Сводка по новогодним мероприятиям:" ++ nl ++ nl ++ join nl lines) Kb_null.

(** [env.BOOKINGS.list({ prefix: "booking:" })] followed by a [get] of each
    key: one page of at most 1000 keys, in key order. *)
Definition listBookings (st : Store) : list Booking :=
  snd <$> take 1000 (sort_by_key
    (filter (fun kv => startsWith (J "booking:") (fst kv) = true) (map_to_list (BOOKINGS st)))).

Definition rosterLine (b : Booking) : jstr :=
  let people := parseInt_num (b_people b) in
  let name := if truthy (d_name (b_data b)) then tpl (d_name (b_data b)) else J "без имени" in
  let status := or_else (Some (b_status b)) (J "new") in
  J "- " ++ b_id b ++ J " — " ++ status ++ J " — " ++ name ++ J ", "
    ++ String_of_num people ++ J " гость(я)" ++ nl.

Definition sendEventDetailMessage (chatId : Z) (eventId : jstr) : M unit :=
  match findEvent eventId with
  | None => sendMessage chatId (J "Мероприятие не найдено.") Kb_null
  | Some ev =>
      '(_, state) ← getEventState (ev_id ev);
      let confirmedSeats := booked state in
      let free := fl (capacity state - confirmedSeats) in
      list ← read listBookings;
      let bookingsText := concat (rosterLine <$>
        filter (fun b => b_type b = J "ny_event" /\ b_nyEventId b = Some eventId) list) in
      let header :=
        J "Мероприятие: " ++ ev_title ev ++ J " (" ++ ev_date ev ++ J ")" ++ nl
        ++ J "Всего мест: " ++ String_of_num (capacity state) ++ nl
        ++ J "Занято (подтверждено): " ++ String_of_num confirmedSeats ++ nl
        ++ J "Свободно: " ++ String_of_num free ++ nl ++ nl
        ++ J "Заявки:" ++ nl in
      let text := match bookingsText with
                  | [] => header ++ J "пока нет заявок."
                  | _ :: _ => header ++ bookingsText
                  end in
      sendMessage chatId text Kb_null
  end.

(** *** Callback handlers *)

Definition handleEventsSummaryCallback (cq : CallbackQuery) : M unit :=
  match cq_message cq, cq_data cq with
  | Some (fromChatId, _), Some data =>
      let suffix := split 58%N data !! 1%nat in
      if bool_decide (suffix = Some (J "all")) then
        sendEventsSummaryMessage fromChatId;;
        answerCallbackQuery (cq_id cq) (J "Сводка отправлена сообщением.")
      else
        let eventId := tpl suffix in
        sendEventDetailMessage fromChatId eventId;;
        answerCallbackQuery (cq_id cq) (J "Детали мероприятия отправлены.")
  | _, _ => emit Uncaught   (* [callbackQuery.message.chat.id], [data.split] throw *)
  end.

(** [booking.type === "ny_event" && booking.nyEventId] *)
Definition capacityBound (booking : Booking) : bool :=
  bool_decide (b_type booking = J "ny_event") && truthy (b_nyEventId booking).

Definition eventLine (booking : Booking) (pre post : jstr) : jstr :=
  if capacityBound booking then
    match findEvent (tpl (b_nyEventId booking)) with
    | Some ev => pre ++ J "Мероприятие: " ++ ev_title ev ++ J " (" ++ ev_date ev ++ J ")" ++ post
    | None => []
    end
  else [].

(** [if (chatId && messageId) await editMessageText(...)] *)
Definition editAdminMessage (cq : CallbackQuery) (text : jstr) : M unit :=
  match cq_message cq with
  | Some (chatId, messageId) =>
      if negb (chatId =? 0) && negb (messageId =? 0)
      then editMessageText chatId messageId text else ret tt
  | None => ret tt
  end.

(** The confirm transition once the seats (if any) are reserved:
    lines 847 to 881. *)
Definition markConfirmed (cq : CallbackQuery) (booking0 : Booking) : M unit :=
  let booking := with_status (J "confirmed") booking0 in
  saveBooking booking;;
  let adminText :=
    J "Заявка " ++ b_id booking ++ J " подтверждена." ++ nl ++ nl
    ++ eventLine booking [] nl
    ++ dataLines (b_data booking)
    ++ nl ++ J "Статус: ✅ подтверждена" in
  editAdminMessage cq adminText;;
  (if negb (b_chatId booking =? 0) then
     let userText :=
       J "Ваша заявка " ++ b_id booking ++ J " подтверждена."
       ++ (if capacityBound booking then eventLine booking nl (J ".")
           else (if truthy (d_date (b_data booking))
                 then nl ++ J "Дата: " ++ tpl (d_date (b_data booking)) else [])
                ++ (if truthy (d_time (b_data booking))
                    then nl ++ J "Время: " ++ tpl (d_time (b_data booking)) else [])) in
     sendMessage (b_chatId booking) userText Kb_null
   else ret tt);;
  answerCallbackQuery (cq_id cq) (J "Заявка подтверждена.").

Definition markCancelled (cq : CallbackQuery) (booking0 : Booking) : M unit :=
  let booking := with_status (J "cancelled") booking0 in
  saveBooking booking;;
  let adminText :=
    J "Заявка " ++ b_id booking ++ J " отклонена." ++ nl ++ nl
    ++ eventLine booking [] nl
    ++ dataLines (b_data booking)
    ++ nl ++ J "Статус: ❌ отклонена" in
  editAdminMessage cq adminText;;
  (if negb (b_chatId booking =? 0) then
     sendMessage (b_chatId booking)
       (J "Ваша заявка " ++ b_id booking ++ J " отклонена. Если это ошибка — свяжитесь с нами.")
       Kb_null
   else ret tt);;
  answerCallbackQuery (cq_id cq) (J "Заявка отклонена.").

(** [const parts = data.split(":")], [parts[0]] and [parts[1]]. *)
Definition cbAction (cq : CallbackQuery) : option jstr :=
  split 58%N (or_else (cq_data cq) []) !! 0%nat.
Definition cbBookingId (cq : CallbackQuery) : option jstr :=
  split 58%N (or_else (cq_data cq) []) !! 1%nat.

Definition handleAdminBookingAction (cq : CallbackQuery) : M unit :=
  let cbId := cq_id cq in
  let action := cbAction cq in
  let bookingId := cbBookingId cq in
  booking ← getBooking bookingId;
  match booking with
  | None => answerCallbackQuery cbId (J "Заявка не найдена.")
  | Some booking =>
      if bool_decide (action = Some (J "confirm")) then
        if bool_decide (b_status booking = J "confirmed") then
          answerCallbackQuery cbId (J "Заявка уже подтверждена.")
        else if capacityBound booking then
          '(key, state) ← getEventState (tpl (b_nyEventId booking));
          let people := parseInt_num (b_people booking) in
          if people <=? 0 then
            answerCallbackQuery cbId (J "Некорректное количество гостей.")
          else if fl (booked state + people) >? capacity state then
            let free := fl (capacity state - booked state) in
            answerCallbackQuery cbId
              (J "Недостаточно мест. Свободно: "
               ++ String_of_num (if free <? 0 then 0 else free) ++ J ".")
          else
            saveEventState key (with_booked (fl (booked state + people)) state);;
            markConfirmed cq booking
        else markConfirmed cq booking
      else if bool_decide (action = Some (J "cancel")) then
        if bool_decide (b_status booking = J "cancelled") then
          answerCallbackQuery cbId (J "Заявка уже отклонена.")
        else markCancelled cq booking
      else answerCallbackQuery cbId (J "Неизвестное действие.")
  end.

(** [if (update.callback_query) { ... }] *)
Definition handleCallbackQuery (env : Env) (cq : CallbackQuery) : M unit :=
  if negb (isAdminUserId env (cq_from cq)) then
    answerCallbackQuery (cq_id cq) (J "Недостаточно прав.")
  else
    let data := or_else (cq_data cq) [] in
    if startsWith (J "events:") data then handleEventsSummaryCallback cq
    else if startsWith (J "confirm:") data || startsWith (J "cancel:") data then
      handleAdminBookingAction cq
    else answerCallbackQuery (cq_id cq) (J "Неизвестная команда.").

(** *** The conversation *)

Definition startNyMenu (clk : Clock) (chatId targetChatId : Z) : M unit :=
  setState clk chatId (with_step (J "ny_choose") emptySession);;
  sendMessage targetChatId (J "Выберите дату и новогоднее мероприятие:") Kb_winter.

Definition closedText (ev : WinterEvent) : jstr :=
  J "К сожалению, на " ++ ev_title ev ++ J " (" ++ ev_date ev ++ J ") запись уже завершена."
  ++ nl ++ nl ++ J "Пожалуйста, выберите другое мероприятие.".

Definition chosenText (ev : WinterEvent) : jstr :=
  J "Вы выбрали " ++ ev_label ev ++ J "." ++ nl ++ nl ++ J "Как вас зовут?".

(** Start / deep-link / main menu: lines 1043 to 1075. *)
Definition handleStart (clk : Clock) (chatId : Z) (text : jstr) (mainKeyboard : Keyboard) : M unit :=
  let welcome := clearState chatId;; sendMessage chatId welcomeText mainKeyboard in
  if startsWith (J "/start") text then
    let param := split 32%N text !! 1%nat in
    if bool_decide (param = Some (J "ny-menu")) then startNyMenu clk chatId chatId
    else if truthy param && startsWith (J "ny-") (tpl param) then
      match findEvent (tpl param) with
      | Some ev =>
          '(_, state) ← getEventState (ev_id ev);
          if booked state >=? capacity state then
            sendMessage chatId (closedText ev) mainKeyboard;;
            clearState chatId
          else
            let newSession :=
              with_nyEvent (ev_id ev) (ev_title ev) (ev_date ev)
                (with_step (J "ny_name") emptySession) in
            setState clk chatId newSession;;
            sendMessage chatId (chosenText ev) Kb_remove
      | None => welcome
      end
    else welcome
  else welcome.

(** The final step of the events flow: lines 1176 to 1227. *)
Definition nyContactStep (env : Env) (clk : Clock) (msg : Message) (text : jstr)
    (session0 : Session) (mainKeyboard : Keyboard) : M unit :=
  let chatId := m_chat msg in
  let session := with_contact text session0 in
  let peopleNum := parseInt_or0 (or_else (s_people session) (J "0")) in
  let username := if truthy (m_username msg) then J "@" ++ tpl (m_username msg) else J "нет" in
  let bookingData := {|
    r_type := J "ny_event";
    r_chatId := chatId;
    r_nyEventId := s_nyEventId session;
    r_people := peopleNum;
    r_data := {|
      d_name := s_name session;
      d_date := s_nyEventDate session;
      d_time := None;
      d_people := s_people session;
      d_contact := s_contact session;
      d_nyEventTitle := s_nyEventTitle session;
      d_username := Some username |} |} in
  booking ← createBooking clk bookingData;
  let adminText :=
    J "Новая заявка на НОВОГОДНЕЕ мероприятие:" ++ nl ++ nl
    ++ J "ID: " ++ b_id booking ++ nl
    ++ J "Мероприятие: " ++ tpl (s_nyEventTitle session) ++ nl
    ++ J "Дата: " ++ tpl (s_nyEventDate session) ++ nl ++ nl
    ++ J "Имя: " ++ tpl (s_name session) ++ nl
    ++ J "Гостей: " ++ tpl (s_people session) ++ nl
    ++ J "Контакт: " ++ tpl (s_contact session) ++ nl
    ++ J "Telegram: " ++ username in
  notifyAdmin env adminText (b_id booking);;
  sendMessage chatId
    (J "Спасибо! Ваша заявка на новогоднее мероприятие отправлена. Мы свяжемся с вами для подтверждения.")
    mainKeyboard;;
  clearState chatId.

(** The final step of the excursion flow: lines 1268 to 1310. *)
Definition exContactStep (env : Env) (clk : Clock) (chatId : Z) (text : jstr)
    (session0 : Session) (mainKeyboard : Keyboard) : M unit :=
  let session := with_contact text session0 in
  let peopleNum := parseInt_or0 (or_else (s_people session) (J "0")) in
  let bookingData := {|
    r_type := J "excursion";
    r_chatId := chatId;
    r_nyEventId := None;
    r_people := peopleNum;
    r_data := {|
      d_name := s_name session;
      d_date := s_date session;
      d_time := s_time session;
      d_people := s_people session;
      d_contact := s_contact session;
      d_nyEventTitle := None;
      d_username := None |} |} in
  booking ← createBooking clk bookingData;
  let msgText :=
    J "Новая заявка на экскурсию:" ++ nl ++ nl
    ++ J "ID: " ++ b_id booking ++ nl
    ++ J "Имя: " ++ tpl (s_name session) ++ nl
    ++ J "Дата: " ++ tpl (s_date session) ++ nl
    ++ J "Время: " ++ tpl (s_time session) ++ nl
    ++ J "Гостей: " ++ tpl (s_people session) ++ nl
    ++ J "Контакт: " ++ tpl (s_contact session) in
  notifyAdmin env msgText (b_id booking);;
  sendMessage chatId
    (J "Спасибо! Ваша заявка отправлена. Мы свяжемся с вами для подтверждения.")
    mainKeyboard;;
  clearState chatId.

(** Everything after the session has been read: lines 981 to 1314. *)
Definition dispatch (env : Env) (clk : Clock) (msg : Message) (session : Session) : M unit :=
  let chatId := m_chat msg in
  let text := or_else (m_text msg) [] in
  let isAdminUser := isAdminUserId env (m_from msg) in
  let mainKeyboard := Kb_main_winter isAdminUser in
  let noKeyboard := Kb_remove in
  if is_text text "/events" && isAdminUser then
    sendMessage chatId (J "Выберите день:") Kb_adminEvents
  else if is_text text "📊 Сводка по мероприятиям" then
    if negb isAdminUser then
      sendMessage chatId (J "Этот раздел доступен только администратору.") Kb_null
    else sendMessage chatId (J "Выберите день:") Kb_adminEvents
  else if is_text text "🔄 Сбросить заявку" then
    clearState chatId;;
    sendMessage chatId (J "Заявка сброшена. Можете начать заново.") mainKeyboard
  else if startsWith (J "/start") text || is_text text "🏡 Главное меню" then
    handleStart clk chatId text mainKeyboard
  else if is_text text "🐄 Экскурсии" then sendMessage chatId excursionsText mainKeyboard
  else if is_text text "📅 Расписание" then sendMessage chatId scheduleText mainKeyboard
  else if is_text text "📍 Как добраться" then sendMessage chatId directionsText mainKeyboard
  else if is_text text "🛒 Продукция" then sendMessage chatId productsText mainKeyboard
  else if is_text text "❄ Новогодние мероприятия" then startNyMenu clk chatId chatId
  else if at_step session "ny_choose" then
    match List.find (fun ev => bool_decide (ev_label ev = text)) winterEvents with
    | None =>
        sendMessage chatId (J "Пожалуйста, выберите мероприятие из списка кнопок.") Kb_null
    | Some chosen =>
        '(_, state) ← getEventState (ev_id chosen);
        if booked state >=? capacity state then
          sendMessage chatId (closedText chosen) mainKeyboard;;
          clearState chatId
        else
          setState clk chatId
            (with_nyEvent (ev_id chosen) (ev_title chosen) (ev_date chosen)
               (with_step (J "ny_name") session));;
          sendMessage chatId (chosenText chosen) noKeyboard
    end
  else if at_step session "ny_name" then
    setState clk chatId (with_step (J "ny_people") (with_name text session));;
    sendMessage chatId (J "Сколько гостей планируете привезти?") noKeyboard
  else if at_step session "ny_people" then
    setState clk chatId (with_step (J "ny_contact") (with_people text session));;
    sendMessage chatId (J "Оставьте, пожалуйста, контакт (телефон или Telegram):") noKeyboard
  else if at_step session "ny_contact" then
    nyContactStep env clk msg text session mainKeyboard
  else if is_text text "📅 Записаться на экскурсию" then
    setState clk chatId (with_step (J "ex_name") emptySession);;
    sendMessage chatId (J "Как вас зовут?") noKeyboard
  else if at_step session "ex_name" then
    setState clk chatId (with_step (J "ex_date") (with_name text session));;
    sendMessage chatId (J "На какую дату хотите записаться?") noKeyboard
  else if at_step session "ex_date" then
    setState clk chatId (with_step (J "ex_time") (with_date text session));;
    sendMessage chatId (J "Во сколько? (например, 11:30 / 15:30 (летом))") noKeyboard
  else if at_step session "ex_time" then
    setState clk chatId (with_step (J "ex_people") (with_time text session));;
    sendMessage chatId (J "Сколько гостей будет?") noKeyboard
  else if at_step session "ex_people" then
    setState clk chatId (with_step (J "ex_contact") (with_people text session));;
    sendMessage chatId (J "Ваш телефон или Telegram?") noKeyboard
  else if at_step session "ex_contact" then
    exContactStep env clk chatId text session mainKeyboard
  else sendMessage chatId (J "Спасибо! Мы свяжемся с вами.") mainKeyboard.

Definition handleMessage (env : Env) (clk : Clock) (msg : Message) : M unit :=
  session ← loadSession clk (m_chat msg);
  dispatch env clk msg session.

(** The webhook delivery, once the request body has been parsed into an
    update. *)
Definition fetch (env : Env) (clk : Clock) (update : Update) : M unit :=
  match callback_query update with
  | Some cq => handleCallbackQuery env cq
  | None =>
      match message update with
      | None => ret tt
      | Some msg => handleMessage env clk msg
      end
  end.

End Winter.

(** ** The baseline worker (excursion flow with validated steps) *)

Module Baseline.

Definition generateBookingId (clk : Clock) (data : BookingRequest) : jstr :=
  let today := isoDay (t_day clk) in
  let eventPart := or_else (d_date (r_data data)) (J "na") in
  let ts := t_id clk in
  J "bk-" ++ eventPart ++ J "-" ++ today ++ J "-" ++ String_of_Z ts.

Definition createBooking (clk : Clock) (data : BookingRequest) : M Booking :=
  let id := generateBookingId clk data in
  let booking := {|
    b_id := id;
    b_type := or_else (Some (r_type data)) (J "unknown");
    b_chatId := r_chatId data;
    b_status := J "new";
    b_nyEventId := None;
    b_createdAt := t_created clk;
    b_people := toJSON (r_people data);
    b_data := r_data data |} in
  saveBooking booking;; ret booking.

(** [if (chatId && messageId) await editMessageText(...)] *)
Definition editAdminMessage (cq : CallbackQuery) (text : jstr) : M unit :=
  match cq_message cq with
  | Some (chatId, messageId) =>
      if negb (chatId =? 0) && negb (messageId =? 0)
      then editMessageText chatId messageId text else ret tt
  | None => ret tt
  end.

Definition cbAction (cq : CallbackQuery) : option jstr :=
  split 58%N (or_else (cq_data cq) []) !! 0%nat.
Definition cbBookingId (cq : CallbackQuery) : option jstr :=
  split 58%N (or_else (cq_data cq) []) !! 1%nat.

Definition handleAdminBookingAction (cq : CallbackQuery) : M unit :=
  let cbId := cq_id cq in
  let action := cbAction cq in
  let bookingId := cbBookingId cq in
  booking ← getBooking bookingId;
  match booking with
  | None => answerCallbackQuery cbId (J "Заявка не найдена.")
  | Some booking0 =>
      if bool_decide (action = Some (J "confirm")) then
        if bool_decide (b_status booking0 = J "confirmed") then
          answerCallbackQuery cbId (J "Заявка уже подтверждена.")
        else
          let booking := with_status (J "confirmed") booking0 in
          saveBooking booking;;
          editAdminMessage cq
            (J "Заявка " ++ b_id booking ++ J " подтверждена." ++ nl ++ nl
             ++ dataLines (b_data booking) ++ nl ++ J "Статус: ✅ подтверждена");;
          (if negb (b_chatId booking =? 0) then
             sendMessage (b_chatId booking)
               (J "Ваша заявка " ++ b_id booking ++ J " подтверждена.") Kb_null
           else ret tt);;
          answerCallbackQuery cbId (J "Заявка подтверждена.")
      else if bool_decide (action = Some (J "cancel")) then
        if bool_decide (b_status booking0 = J "cancelled") then
          answerCallbackQuery cbId (J "Заявка уже отклонена.")
        else
          let booking := with_status (J "cancelled") booking0 in
          saveBooking booking;;
          editAdminMessage cq
            (J "Заявка " ++ b_id booking ++ J " отклонена." ++ nl ++ nl
             ++ dataLines (b_data booking) ++ nl ++ J "Статус: ❌ отклонена");;
          (if negb (b_chatId booking =? 0) then
             sendMessage (b_chatId booking)
               (J "Ваша заявка " ++ b_id booking
                ++ J " отклонена. Если это ошибка — свяжитесь с нами.") Kb_null
           else ret tt);;
          answerCallbackQuery cbId (J "Заявка отклонена.")
      else answerCallbackQuery cbId (J "Неизвестное действие.")
  end.

Definition handleCallbackQuery (env : Env) (cq : CallbackQuery) : M unit :=
  if negb (isAdminUserId env (cq_from cq)) then
    answerCallbackQuery (cq_id cq) (J "Недостаточно прав.")
  else
    let data := or_else (cq_data cq) [] in
    if startsWith (J "confirm:") data || startsWith (J "cancel:") data then
      handleAdminBookingAction cq
    else answerCallbackQuery (cq_id cq) (J "Неизвестная команда.").

(** *** Step validation *)

(** [new Set(["1", "2", "3", "4", "5", "6", "6–10", "более 11"])] *)
Definition allowed : list jstr :=
  [J "1"; J "2"; J "3"; J "4"; J "5"; J "6"; J "6–10"; J "более 11"].

(** [text === "6–10" ? "6-10" : text === "более 11" ? "11+" : text] *)
Definition normalizePeople (text : jstr) : jstr :=
  if is_text text "6–10" then J "6-10"
  else if is_text text "более 11" then J "11+"
  else text.

(** [/^@[a-zA-Z0-9_]{4,32}$/.test(contact)] *)
Definition isValidTelegram (contact : jstr) : bool :=
  match contact with
  | c :: rest =>
      (c =? 64)%N && forallb is_word rest
      && (4 <=? length rest)%nat && (length rest <=? 32)%nat
  | [] => false
  end.

(** [[0-9+\s()\-]] *)
Definition phoneChar (c : N) : bool :=
  is_digit c || (c =? 43)%N || is_space c || (c =? 40)%N || (c =? 41)%N || (c =? 45)%N.

(** [/^[0-9+\s()\-]+$/.test(contact)] *)
Definition isPhoneLike (contact : jstr) : bool :=
  match contact with
  | [] => false
  | _ :: _ => forallb phoneChar contact
  end.

(** [contact.replace(/\D/g, "")] *)
Definition digitsOnly (contact : jstr) : jstr := List.filter is_digit contact.

Definition isValidPhone (contact : jstr) : bool :=
  isPhoneLike contact && (10 <=? length (digitsOnly contact))%nat
  && (length (digitsOnly contact) <=? 15)%nat.

(** *** The conversation *)

(** The people step: lines 437 to 458. *)
Definition exPeopleStep (clk : Clock) (chatId : Z) (text : jstr) (session : Session) : M unit :=
  if negb (bool_decide (text ∈ allowed)) then
    sendMessage chatId (J "Пожалуйста, выберите количество гостей кнопкой ниже.") Kb_exPeople
  else
    setState clk chatId
      (with_step (J "ex_contact") (with_people (normalizePeople text) session));;
    sendMessage chatId (J "Ваш телефон или Telegram?") Kb_flow.

(** The contact step: lines 460 to 524. *)
Definition exContactStep (env : Env) (clk : Clock) (chatId : Z) (text : jstr)
    (session0 : Session) : M unit :=
  let contact := trim text in
  if negb (isValidTelegram contact) && negb (isValidPhone contact) then
    sendMessage chatId
      (J "Пожалуйста, укажите корректный контакт." ++ nl
       ++ J "Телефон (например: +7 999 123-45-67) или Telegram-ник (@username).") Kb_flow;;
    sendMessage chatId (J "Ваш телефон или Telegram?") Kb_flow
  else
    let session := with_contact contact session0 in
    let peopleNum := parseInt_or0 (or_else (s_people session) (J "0")) in
    let bookingData := {|
      r_type := J "excursion";
      r_chatId := chatId;
      r_nyEventId := None;
      r_people := peopleNum;
      r_data := {|
        d_name := s_name session;
        d_date := s_date session;
        d_time := s_time session;
        d_people := s_people session;
        d_contact := s_contact session;
        d_nyEventTitle := None;
        d_username := None |} |} in
    booking ← createBooking clk bookingData;
    let msgText :=
      J "Новая заявка на экскурсию:" ++ nl ++ nl
      ++ J "ID: " ++ b_id booking ++ nl
      ++ J "Имя: " ++ tpl (s_name session) ++ nl
      ++ J "Дата: " ++ tpl (s_date session) ++ nl
      ++ J "Время: " ++ tpl (s_time session) ++ nl
      ++ J "Гостей: " ++ tpl (s_people session) ++ nl
      ++ J "Контакт: " ++ tpl (s_contact session) in
    notifyAdmin env msgText (b_id booking);;
    sendMessage chatId
      (J "Спасибо! Ваша заявка отправлена. Мы свяжемся с вами для подтверждения.")
      Kb_main;;
    clearState chatId.

(** Everything after the session has been read: lines 288 to 527. *)
Definition dispatch (env : Env) (clk : Clock) (msg : Message) (session : Session) : M unit :=
  let chatId := m_chat msg in
  let text := or_else (m_text msg) [] in
  let mainKeyboard := Kb_main in
  let flowKeyboard := Kb_flow in
  let exPeopleKeyboard := Kb_exPeople in
  if is_text text "🔄 Сбросить заявку" then
    clearState chatId;;
    sendMessage chatId (J "Заявка сброшена. Можете начать заново.") mainKeyboard
  else if startsWith (J "/start") text || is_text text "🏡 Главное меню" then
    clearState chatId;;
    sendMessage chatId welcomeText mainKeyboard
  else if is_text text "🐄 Экскурсии" then sendMessage chatId excursionsText mainKeyboard
  else if is_text text "📅 Расписание" then sendMessage chatId scheduleText mainKeyboard
  else if is_text text "📍 Как добраться" then sendMessage chatId directionsText mainKeyboard
  else if is_text text "🛒 Продукция" then sendMessage chatId productsText mainKeyboard
  else if is_text text "📅 Записаться на экскурсию" then
    setState clk chatId (with_step (J "ex_name") emptySession);;
    sendMessage chatId
      (J "Как вас зовут?" ++ nl ++ nl
       ++ J "Вы можете в любой момент сбросить заявку или вернуться в главное меню.")
      flowKeyboard
  else if at_step session "ex_name" then
    setState clk chatId (with_step (J "ex_date") (with_name text session));;
    sendMessage chatId (J "На какую дату хотите записаться?") flowKeyboard
  else if at_step session "ex_date" then
    setState clk chatId (with_step (J "ex_time") (with_date text session));;
    sendMessage chatId (J "Во сколько? (например, 11:30 / 15:30 (летом))") flowKeyboard
  else if at_step session "ex_time" then
    setState clk chatId (with_step (J "ex_people") (with_time text session));;
    sendMessage chatId (J "Сколько гостей будет?") exPeopleKeyboard
  else if at_step session "ex_people" then exPeopleStep clk chatId text session
  else if at_step session "ex_contact" then exContactStep env clk chatId text session
  else sendMessage chatId (J "Спасибо! Мы свяжемся с вами.") mainKeyboard.

Definition handleMessage (env : Env) (clk : Clock) (msg : Message) : M unit :=
  session ← loadSession clk (m_chat msg);
  dispatch env clk msg session.

(** The webhook delivery, once the request body has been parsed into an
    update. *)
Definition fetch (env : Env) (clk : Clock) (update : Update) : M unit :=
  match callback_query update with
  | Some cq => handleCallbackQuery env cq
  | None =>
      match message update with
      | None => ret tt
      | Some msg => handleMessage env clk msg
      end
  end.

End Baseline.

(** * Verification *)

(** ** Vocabulary of the statements *)

(** Effects that write no KV record: calls of the Telegram API (and the
    escape of an exception). *)
Definition silent (e : Effect) : Prop :=
  match e with
  | StatePut _ _ | StateDelete _ | BookingsPut _ _ | EventsPut _ _ => False
  | _ => True
  end.

(** Effects that write no seat counter, and no booking. *)
Definition quiet (e : Effect) : Prop :=
  match e with EventsPut _ _ => False | _ => True end.
Definition offBookings (e : Effect) : Prop :=
  match e with BookingsPut _ _ => False | _ => True end.

(** Every effect of [m], in whatever store it starts, satisfies [P]. *)
Definition always (P : Effect -> Prop) {A} (m : M A) : Prop :=
  forall st, Forall P (trace m st).

Definition hoare {A} (P : Store -> Prop) (m : M A) (Q : A -> Store -> Prop) : Prop :=
  forall st, P st -> Q (m st).1 (exec m st).

(** Predicates that look at the counters only. *)
Definition on_events (R : gmap jstr EventState -> Prop) : Store -> Prop :=
  fun st => R (EVENTS st).

(** The counter a first read creates. *)
Definition fresh : EventState := {| capacity := 40; booked := 0 |}.

(** The counter an event has, or would get on its first read. *)
Definition seats (st : Store) (key : jstr) : EventState :=
  default fresh (EVENTS st !! key).

(** The write a first read of a counter performs. *)
Definition firstRead (st : Store) (key : jstr) : list Effect :=
  match EVENTS st !! key with
  | Some _ => []
  | None => [EventsPut key fresh]
  end.

(** The keys an operator action addresses. *)
Definition bookingKey (cq : CallbackQuery) : jstr :=
  J "booking:" ++ tpl (Winter.cbBookingId cq).
Definition eventKey (b : Booking) : jstr := J "event:" ++ tpl (b_nyEventId b).

Definition confirmed (b : Booking) : Booking := with_status (J "confirmed") b.
Definition cancelled (b : Booking) : Booking := with_status (J "cancelled") b.

(** [state.booked + people]: the sum, a double, of the seats taken and the
    party of [b]. *)
Definition taken (e : EventState) (b : Booking) : Z :=
  fl (booked e + parseInt_num (b_people b)).

(** The counter of [b]'s event once the seats of [b] are added. *)
Definition reserved (st : Store) (b : Booking) : EventState :=
  with_booked (taken (seats st (eventKey b)) b) (seats st (eventKey b)).

Definition counter_ok (e : EventState) : Prop := 0 <= booked e <= capacity e.
Definition counters_ok (st : Store) : Prop :=
  map_Forall (fun _ e => counter_ok e) (EVENTS st).

(** What one operator action may do to the counters: each counter of [ev'] is
    the one [st] had (or would get on its first read), or that one with the
    seats of the addressed booking added, which then fit under the capacity. *)
Definition reserves (cq : CallbackQuery) (st : Store) (ev' : gmap jstr EventState) : Prop :=
  forall key,
    match ev' !! key with
    | None => EVENTS st !! key = None
    | Some e' =>
        e' = seats st key
        \/ exists b, BOOKINGS st !! bookingKey cq = Some b
             /\ 0 < parseInt_num (b_people b)
             /\ taken (seats st key) b <= capacity (seats st key)
             /\ e' = with_booked (taken (seats st key) b) (seats st key)
    end.

(** [ev] is [ev0] up to counters created by a first read. *)
Definition lazily (ev0 ev : gmap jstr EventState) : Prop :=
  forall key, ev !! key = ev0 !! key \/ (ev0 !! key = None /\ ev !! key = Some fresh).

(** Computations that at most create fresh counters. *)
Definition lazy {A} (m : M A) : Prop :=
  forall ev0, hoare (on_events (lazily ev0)) m (fun _ => on_events (lazily ev0)).

Definition post (cq : CallbackQuery) (st0 : Store) (ev : gmap jstr EventState) : Prop :=
  (counters_ok st0 -> map_Forall (fun _ e => counter_ok e) ev) /\ reserves cq st0 ev.

(** The stores after each of a sequence of operator actions. *)
Fixpoint run (env : Env) (cqs : list CallbackQuery) (st : Store) : list Store :=
  match cqs with
  | [] => []
  | cq :: rest =>
      let st' := exec (Winter.handleCallbackQuery env cq) st in
      st' :: run env rest st'
  end.

(** Every booking is stored under the key of its own, non-empty id, as
    [saveBooking] writes them. *)
Definition keyed (st : Store) : Prop :=
  map_Forall (fun k b => k = J "booking:" ++ b_id b /\ b_id b <> []) (BOOKINGS st).

Definition terminal (b : Booking) : Prop :=
  b_status b = J "confirmed" \/ b_status b = J "cancelled".

(** The runs of the confirm action on a booking that is not yet confirmed. *)
Inductive ConfirmRun (st : Store) (cq : CallbackQuery) (b : Booking) : list Effect -> Prop :=
| Rejected text :
    Winter.capacityBound b = true ->
    parseInt_num (b_people b) <= 0
      \/ capacity (seats st (eventKey b)) < taken (seats st (eventKey b)) b ->
    text <> J "Заявка подтверждена." ->
    ConfirmRun st cq b (firstRead st (eventKey b) ++ [AnswerCallbackQuery (cq_id cq) text])
| Reserved rest :
    Winter.capacityBound b = true ->
    0 < parseInt_num (b_people b) ->
    taken (seats st (eventKey b)) b <= capacity (seats st (eventKey b)) ->
    Forall silent rest ->
    ConfirmRun st cq b
      (firstRead st (eventKey b)
       ++ EventsPut (eventKey b) (reserved st b)
       :: BookingsPut (J "booking:" ++ b_id b) (confirmed b) :: rest)
| Unbound rest :
    Winter.capacityBound b = false ->
    Forall silent rest ->
    ConfirmRun st cq b (BookingsPut (J "booking:" ++ b_id b) (confirmed b) :: rest).

(** The store once the session of [chatId] is deleted. *)
Definition forget (chatId : Z) (st : Store) : Store :=
  apply st (StateDelete (userKey chatId)).

(** A session write is to the key of the chat and carries the expiry
    [Date.now() + 600000] of its own clock reading. *)
Definition refreshed (clk : Clock) (chatId : Z) (e : Effect) : Prop :=
  match e with
  | StatePut key s => key = userKey chatId /\ s_expiresAt s = Some (t_set clk + 600000)
  | _ => True
  end.

(** A session that the expiry check at the start of a delivery keeps. *)
Definition live (clk : Clock) (s : Session) : Prop :=
  match s_expiresAt s with
  | Some e => e = 0 \/ t_now clk <= e
  | None => True
  end.

(** The texts that the baseline worker handles before it looks at the step
    of the session: reset, start and main menu, the information blocks and
    the entry of the excursion flow. *)
Definition globalCommand (text : jstr) : bool :=
  is_text text "🔄 Сбросить заявку" || startsWith (J "/start") text
  || is_text text "🏡 Главное меню" || is_text text "🐄 Экскурсии"
  || is_text text "📅 Расписание" || is_text text "📍 Как добраться"
  || is_text text "🛒 Продукция" || is_text text "📅 Записаться на экскурсию".

(** The contact check of the baseline worker: [isValidTelegram || isValidPhone]. *)
Definition valid (contact : jstr) : bool :=
  Baseline.isValidTelegram contact || Baseline.isValidPhone contact.

(** *** Sample data *)

Definition env0 : Env :=
  {| ADMIN_USER_ID := Some (J "777"); ADMIN_CHAT_ID := Some (J "-100500") |}.

Definition answers : BookingData :=
  Build_BookingData (Some (J "Анна")) (Some (J "03.01")) None (Some (J "1"))
    (Some (J "@anna_farm")) None None.

(** A one-seat request for the event of 03.01. *)
Definition seat (id : string) (people : Z) (status : string) : Booking :=
  {| b_id := J id; b_type := J "ny_event"; b_chatId := 42; b_status := J status;
     b_nyEventId := Some (J "ny-03"); b_createdAt := 0; b_people := people;
     b_data := answers |}.

(** The operator (user 777) taps a button of the admin chat. *)
Definition tap (data : string) : CallbackQuery :=
  {| cq_id := J "q"; cq_from := Some 777; cq_data := Some (J data);
     cq_message := Some (-100500, 9) |}.

(** An event of two seats, three pending requests, a declined one and a
    confirmed one. *)
Definition store0 : Store :=
  {| STATE := ∅;
     BOOKINGS :=
       <[J "booking:b1" := seat "b1" 1 "new"]>
       (<[J "booking:b2" := seat "b2" 1 "new"]>
       (<[J "booking:b3" := seat "b3" 1 "new"]>
       (<[J "booking:b4" := seat "b4" 1 "cancelled"]>
       (<[J "booking:b5" := seat "b5" 1 "confirmed"]> ∅))));
     EVENTS := <[J "event:ny-03" := {| capacity := 2; booked := 0 |}]> ∅ |}.

(** Somebody else (user 555) taps the confirm button of the pending b1. *)
Definition stranger : Update :=
  {| callback_query :=
       Some {| cq_id := J "q"; cq_from := Some 555; cq_data := Some (J "confirm:b1");
               cq_message := Some (-100500, 9) |};
     message := None |}.

Definition noon : Clock :=
  {| t_now := 1735819200000; t_set := 1735819200001; t_day := 1735819200002;
     t_id := 1735819200002; t_created := 1735819200003 |}.

(** A visitor (chat 42) in the middle of the excursion flow, at [step]. *)
Definition visitor (step : string) (expiresAt : Z) : Session :=
  {| s_step := Some (J step); s_name := Some (J "Анна"); s_date := Some (J "12.07");
     s_time := Some (J "11:30"); s_people := Some (J "3"); s_contact := None;
     s_nyEventId := None; s_nyEventTitle := None; s_nyEventDate := None;
     s_expiresAt := Some expiresAt |}.

Definition waiting (step : string) (expiresAt : Z) : Store :=
  {| STATE := <[userKey 42 := visitor step expiresAt]> ∅; BOOKINGS := ∅; EVENTS := ∅ |}.

Definition says (text : string) : Message :=
  {| m_chat := 42; m_from := Some 42; m_username := Some (J "anna_farm");
     m_text := Some (J text) |}.

(** Two requests of chat 42 for the event of 03.01 that differ in the
    party only. *)
Definition party (people : string) : BookingRequest :=
  {| r_type := J "ny_event"; r_chatId := 42; r_nyEventId := Some (J "ny-03");
     r_people := parseInt_or0 (J people);
     r_data := Build_BookingData (Some (J "Анна")) (Some (J "03.01")) None
                 (Some (J people)) (Some (J "@anna_farm"))
                 (Some (J "Ёлка у Снежной королевы")) (Some (J "@anna_farm")) |}.

Definition noStore : Store := {| STATE := ∅; BOOKINGS := ∅; EVENTS := ∅ |}.

(** *** Vocabulary of the further properties *)

(** Effects that write no session. *)
Definition offState (e : Effect) : Prop :=
  match e with StatePut _ _ | StateDelete _ => False | _ => True end.

(** Effects that write at most bookings; effects that write at most counters. *)
Definition bookingsOnly (e : Effect) : Prop := offState e /\ quiet e.
Definition readOnly (e : Effect) : Prop := offState e /\ offBookings e.

(** Session writes go to the key of [chatId]. *)
Definition ownSession (chatId : Z) (e : Effect) : Prop :=
  match e with
  | StatePut key _ | StateDelete key => key = userKey chatId
  | _ => True
  end.

(** The answers of a callback that show [text]. *)
Definition answered (text : jstr) (e : Effect) : Prop :=
  match e with AnswerCallbackQuery _ t => t = text | _ => False end.

(** The answer of the last branch of [handleAdminBookingAction]. *)
Definition unknownAction : jstr := J "Неизвестное действие.".

(** [callback_data] of the two buttons of [buildAdminBookingKeyboard]. *)
Definition confirmData (bookingId : jstr) : jstr := J "confirm:" ++ bookingId.
Definition cancelData (bookingId : jstr) : jstr := J "cancel:" ++ bookingId.

(** The tap on a button that carries [data]. *)
Definition press (cbId : jstr) (from : option Z) (data : jstr) : CallbackQuery :=
  {| cq_id := cbId; cq_from := from; cq_data := Some data; cq_message := None |}.

(** The characters of a printed integer and of a printed day: digits, the
    minus sign and the plus sign. *)
Definition numeric (c : N) : Prop := is_digit c = true \/ c = 45%N \/ c = 43%N.

(** The time values of ECMAScript, which [Date.now()] and [new Date()]
    yield. *)
Definition timeValue (t : Z) : Prop := Z.abs t <= 8640000000000000.

(** The record [createBooking] builds. *)
Definition newBooking (clk : Clock) (data : BookingRequest) : Booking :=
  Build_Booking (Winter.generateBookingId clk data)
    (or_else (Some (r_type data)) (J "unknown")) (r_chatId data) (J "new")
    (if truthy (r_nyEventId data) then r_nyEventId data else None)
    (t_created clk) (toJSON (r_people data)) (r_data data).

(** A delivery that only drops the session of its chat and replies. *)
Definition drops (chatId : Z) (h : M unit) (st : Store) : Prop :=
  STATE (exec h st) = delete (userKey chatId) (STATE st)
  /\ BOOKINGS (exec h st) = BOOKINGS st
  /\ EVENTS (exec h st) = EVENTS st
  /\ exists reply keyboard,
       last (trace h st) = Some (SendMessage (Chat chatId) reply keyboard).

(** What the worker does once an event is picked and its counter read:
    a full event is refused and the session dropped, otherwise the event is
    recorded in [session0] and the name is asked for. *)
Definition enterEvent (env : Env) (clk : Clock) (msg : Message) (session0 : Session)
    (ev : Winter.WinterEvent) (state : EventState) : list Effect :=
  if booked state >=? capacity state then
    [SendMessage (Chat (m_chat msg)) (Winter.closedText ev)
       (Kb_main_winter (isAdminUserId env (m_from msg)));
     StateDelete (userKey (m_chat msg))]
  else
    [StatePut (userKey (m_chat msg))
       (with_expiresAt (t_set clk + 600000)
          (with_nyEvent (Winter.ev_id ev) (Winter.ev_title ev) (Winter.ev_date ev)
             (with_step (J "ny_name") session0)));
     SendMessage (Chat (m_chat msg)) (Winter.chosenText ev) Kb_remove].

(** The texts that the winter worker handles before it looks at the step of
    the session. *)
Definition winterCommand (text : jstr) : bool :=
  is_text text "/events" || is_text text "📊 Сводка по мероприятиям"
  || is_text text "🔄 Сбросить заявку" || startsWith (J "/start") text
  || is_text text "🏡 Главное меню" || is_text text "🐄 Экскурсии"
  || is_text text "📅 Расписание" || is_text text "📍 Как добраться"
  || is_text text "🛒 Продукция" || is_text text "❄ Новогодние мероприятия".

(** A text message. *)
Definition note (chatId : Z) (from : option Z) (username : option jstr) (text : jstr) : Message :=
  {| m_chat := chatId; m_from := from; m_username := username; m_text := Some text |}.

(** The [bookingData] of the events flow for the answers [name], [people]
    and [contact] given after [ev] was chosen. *)
Definition eventRequest (chatId : Z) (username : option jstr) (ev : Winter.WinterEvent)
    (name people contact : jstr) : BookingRequest :=
  {| r_type := J "ny_event";
     r_chatId := chatId;
     r_nyEventId := Some (Winter.ev_id ev);
     r_people := parseInt_or0 (or_else (Some people) (J "0"));
     r_data := {|
       d_name := Some name;
       d_date := Some (Winter.ev_date ev);
       d_time := None;
       d_people := Some people;
       d_contact := Some contact;
       d_nyEventTitle := Some (Winter.ev_title ev);
       d_username := Some (if truthy username then J "@" ++ tpl username else J "нет") |} |}.

(** The buttons of the information blocks. *)
Definition infoTexts : list jstr :=
  [J "🐄 Экскурсии"; J "📅 Расписание"; J "📍 Как добраться"; J "🛒 Продукция"].

(** *** Further sample data *)

(** A deployment without [ADMIN_USER_ID]. *)
Definition envNoOperator : Env :=
  {| ADMIN_USER_ID := None; ADMIN_CHAT_ID := Some (J "-100500") |}.

(** The operator taps the confirm button of b1. *)
Definition operatorTap : Update :=
  {| callback_query := Some (tap "confirm:b1"); message := None |}.

(** One pending request b1 of [people] guests for the event of 03.01, which
    has two seats, [taken] of them taken. *)
Definition asked (people taken : Z) : Store :=
  {| STATE := ∅;
     BOOKINGS := <[J "booking:b1" := seat "b1" people "new"]> ∅;
     EVENTS := <[J "event:ny-03" := {| capacity := 2; booked := taken |}]> ∅ |}.

(** An excursion request whose date answer is [date]. *)
Definition excursion (date : string) : BookingRequest :=
  {| r_type := J "excursion"; r_chatId := 42; r_nyEventId := None; r_people := Fin 3;
     r_data := Build_BookingData (Some (J "Анна")) (Some (J date)) (Some (J "11:30"))
                 (Some (J "3")) (Some (J "@anna_farm")) None None |}.

(** Five minutes after [noon]. *)
Definition soon : Clock :=
  {| t_now := 1735819500000; t_set := 1735819500001; t_day := 1735819500002;
     t_id := 1735819500002; t_created := 1735819500003 |}.

(** The first event of the catalog. *)
Definition snowQueen : Winter.WinterEvent :=
  Winter.mkEvent "ny-03" "03.01" "Ёлка у Снежной королевы".

(** [n] minutes after [noon]. *)
Definition minutes (n : Z) : Clock :=
  {| t_now := 1735819200000 + 60000 * n; t_set := 1735819200001 + 60000 * n;
     t_day := 1735819200002 + 60000 * n; t_id := 1735819200002 + 60000 * n;
     t_created := 1735819200003 + 60000 * n |}.

(** ** Numbers *)

Lemma fl_small n : Z.abs n < 2 ^ 53 -> fl n = n.
Proof. intros H. unfold fl. by replace (Z.abs n <? 2 ^ 53) with true by lia. Qed.

Lemma fl_nonneg n : 0 <= n -> 0 <= fl n.
Proof.
  intros Hn. unfold fl. destruct (Z.abs n <? 2 ^ 53); [done|]. cbv zeta.
  set (e := Z.log2 (Z.abs n) - 52).
  assert (0 <= 2 ^ e) by (apply Z.pow_nonneg; lia).
  assert (0 <= Z.abs n / 2 ^ e) by (apply Z_div_nonneg_nonneg; lia).
  assert (0 <= Z.sgn n) by lia.
  repeat case_match; nia.
Qed.

Lemma fl_opp n : fl (- n) = - fl n.
Proof.
  unfold fl. rewrite Z.abs_opp. destruct (Z.abs n <? 2 ^ 53); [done|]. cbv zeta.
  rewrite Z.sgn_opp. lia.
Qed.

Lemma fl_nonpos n : n <= 0 -> fl n <= 0.
Proof.
  intros Hn. assert (0 <= fl (- n)) by (apply fl_nonneg; lia).
  rewrite fl_opp in *. lia.
Qed.

(** Rounding does not bring a number below 2^53. *)
Lemma fl_large n : 2 ^ 53 <= n -> 2 ^ 53 <= fl n.
Proof.
  intros Hn. unfold fl. destruct (Z.abs n <? 2 ^ 53) eqn:Hs; [lia|]. cbv zeta.
  rewrite Z.abs_eq, Z.sgn_pos by lia.
  assert (H53 : 53 <= Z.log2 n) by (apply Z.log2_le_pow2; lia).
  set (e := Z.log2 n - 52).
  assert (Hl : 2 ^ Z.log2 n <= n) by (apply Z.log2_spec; lia).
  replace (Z.log2 n) with (52 + e) in Hl by lia.
  rewrite Z.pow_add_r in Hl by lia.
  assert (He : 2 <= 2 ^ e).
  { change 2 with (2 ^ 1) at 1. apply Z.pow_le_mono_r; lia. }
  assert (Hq : 2 ^ 52 <= n / 2 ^ e) by (apply Z.div_le_lower_bound; lia).
  repeat case_match; nia.
Qed.

(** Under a capacity below 2^53 the seats that fit are counted exactly. *)
Lemma taken_exact e b :
  0 <= booked e -> 0 <= parseInt_num (b_people b) ->
  taken e b <= capacity e -> capacity e < 2 ^ 53 ->
  taken e b = booked e + parseInt_num (b_people b).
Proof.
  intros Hb Hp Hfit Hc. unfold taken in *.
  destruct (Z_lt_le_dec (booked e + parseInt_num (b_people b)) (2 ^ 53)) as [H|H].
  - apply fl_small. lia.
  - apply fl_large in H. lia.
Qed.

(** ** The delivery monad *)

Section Monad.
Context {A B : Type}.
Implicit Types (m : M A) (f : A -> M B) (st : Store).

Lemma replay_app l1 l2 st : replay (l1 ++ l2) st = replay l2 (replay l1 st).
Proof. apply fold_left_app. Qed.

Lemma trace_bind m f st :
  trace (m ≫= f) st = trace m st ++ trace (f (m st).1) (exec m st).
Proof.
  unfold trace, exec, mbind, M_bind, trace. destruct (m st) as [a l1]; simpl.
  by destruct (f a (replay l1 st)).
Qed.

Lemma result_bind m f st : ((m ≫= f) st).1 = (f (m st).1 (exec m st)).1.
Proof.
  unfold exec, trace, mbind, M_bind. destruct (m st) as [a l1]; simpl.
  by destruct (f a (replay l1 st)).
Qed.

Lemma exec_bind m f st : exec (m ≫= f) st = exec (f (m st).1) (exec m st).
Proof. unfold exec at 1. by rewrite trace_bind, replay_app. Qed.

End Monad.

Lemma trace_ret {A} (a : A) st : trace (ret a) st = [].
Proof. done. Qed.
Lemma trace_emit e st : trace (emit e) st = [e].
Proof. done. Qed.
Lemma trace_read {A} (f : Store -> A) st : trace (read f) st = [].
Proof. done. Qed.
Lemma exec_read {A} (f : Store -> A) st : exec (read f) st = st.
Proof. done. Qed.
Lemma exec_emit e st : exec (emit e) st = apply st e.
Proof. done. Qed.
Lemma exec_ret {A} (a : A) st : exec (ret a) st = st.
Proof. done. Qed.

Lemma hoare_bind {A B} P (m : M A) Q (f : A -> M B) R :
  hoare P m Q -> (forall a, hoare (Q a) (f a) R) -> hoare P (m ≫= f) R.
Proof. intros Hm Hf st HP. rewrite result_bind, exec_bind. by apply Hf, Hm. Qed.

Lemma hoare_weaken {A} (P P' : Store -> Prop) (m : M A) (Q Q' : A -> Store -> Prop) :
  hoare P' m Q' -> (forall st, P st -> P' st) -> (forall a st, Q' a st -> Q a st) ->
  hoare P m Q.
Proof. intros H HP HQ st Hst. apply HQ, H, HP, Hst. Qed.

(** *** Properties of every effect of a computation *)

Lemma always_bind P {A B} (m : M A) (f : A -> M B) :
  always P m -> (forall a, always P (f a)) -> always P (m ≫= f).
Proof.
  intros Hm Hf st. rewrite trace_bind. apply Forall_app.
  split; [apply Hm | apply Hf].
Qed.
Lemma always_ret P {A} (a : A) : always P (ret a).
Proof. intros st. constructor. Qed.
Lemma always_read P {A} (f : Store -> A) : always P (read f).
Proof. intros st. constructor. Qed.
Lemma always_emit (P : Effect -> Prop) e : P e -> always P (emit e).
Proof. intros H st. by repeat constructor. Qed.

(** Follows the shape of a computation down to its [emit]s, which must
    satisfy the predicate by computation. *)
Ltac always_tac :=
  repeat first
    [ apply always_ret | apply always_read | apply always_emit; exact I
    | apply always_bind; [|intros ?]
    | match goal with |- always _ (if ?c then _ else _) => destruct c end
    | match goal with |- always _ (match ?c with _ => _ end) => destruct c end ].

Lemma replay_silent l st : Forall silent l -> replay l st = st.
Proof.
  revert st. induction l as [|e l IH]; intros st Hl; [done|].
  inversion_clear Hl. simpl. rewrite IH by done. by destruct e, st.
Qed.

Lemma replay_quiet l st : Forall quiet l -> EVENTS (replay l st) = EVENTS st.
Proof.
  revert st. induction l as [|e l IH]; intros st Hl; [done|].
  inversion_clear Hl. simpl. rewrite IH by done. by destruct e.
Qed.

Lemma replay_offBookings l st :
  Forall offBookings l -> BOOKINGS (replay l st) = BOOKINGS st.
Proof.
  revert st. induction l as [|e l IH]; intros st Hl; [done|].
  inversion_clear Hl. simpl. rewrite IH by done. by destruct e.
Qed.

Lemma silent_offBookings l : Forall silent l -> Forall offBookings l.
Proof. intros H. eapply Forall_impl; [exact H|]. by intros []. Qed.
Lemma silent_quiet l : Forall silent l -> Forall quiet l.
Proof. intros H. eapply Forall_impl; [exact H|]. by intros []. Qed.

Lemma Forall_taken {A} (P : A -> Prop) n l : Forall P l -> Forall P (take n l).
Proof.
  intros H. eapply Forall_forall. intros x Hx.
  eapply Forall_forall in H; [done|]. eapply subseteq_take, Hx.
Qed.

Lemma quiet_exec {A} (m : M A) st : always quiet m -> EVENTS (exec m st) = EVENTS st.
Proof. intros H. apply replay_quiet, H. Qed.

Lemma hoare_quiet {A} (m : M A) R :
  always quiet m -> hoare (on_events R) m (fun _ => on_events R).
Proof. intros Hm st HR. unfold on_events. by rewrite quiet_exec. Qed.

(** *** The helpers of the winter worker *)

Lemma silent_sendMessage c t k : always silent (sendMessage c t k).
Proof. unfold sendMessage. always_tac. Qed.
Lemma silent_answer c t : always silent (answerCallbackQuery c t).
Proof. unfold answerCallbackQuery. always_tac. Qed.
Lemma silent_edit cq t : always silent (Winter.editAdminMessage cq t).
Proof. unfold Winter.editAdminMessage, editMessageText. always_tac. Qed.

Lemma always_silent_quiet {A} (m : M A) : always silent m -> always quiet m.
Proof. intros H st. apply silent_quiet, H. Qed.

Lemma quiet_answer c t : always quiet (answerCallbackQuery c t).
Proof. apply always_silent_quiet, silent_answer. Qed.

(** What follows the write of the booking in [markConfirmed] and
    [markCancelled] only talks to Telegram. *)
Lemma markConfirmed_trace cq b st :
  b_id b <> [] ->
  exists rest,
    trace (Winter.markConfirmed cq b) st =
      BookingsPut (J "booking:" ++ b_id b) (confirmed b) :: rest
    /\ Forall silent rest.
Proof.
  intros Hid. unfold Winter.markConfirmed, saveBooking. cbn [b_id with_status].
  destruct (b_id b) as [|c r] eqn:Hb; [done|].
  rewrite trace_bind, trace_emit. cbn [app]. eexists; split; [reflexivity|].
  match goal with |- Forall _ (trace ?m ?s) => generalize s; change (always silent m) end.
  unfold Winter.editAdminMessage, editMessageText, sendMessage, answerCallbackQuery.
  always_tac.
Qed.

Lemma markCancelled_trace cq b st :
  b_id b <> [] ->
  exists rest,
    trace (Winter.markCancelled cq b) st =
      BookingsPut (J "booking:" ++ b_id b) (cancelled b) :: rest
    /\ Forall silent rest.
Proof.
  intros Hid. unfold Winter.markCancelled, saveBooking. cbn [b_id with_status].
  destruct (b_id b) as [|c r] eqn:Hb; [done|].
  rewrite trace_bind, trace_emit. cbn [app]. eexists; split; [reflexivity|].
  match goal with |- Forall _ (trace ?m ?s) => generalize s; change (always silent m) end.
  unfold Winter.editAdminMessage, editMessageText, sendMessage, answerCallbackQuery.
  always_tac.
Qed.

Lemma quiet_markConfirmed cq b : always quiet (Winter.markConfirmed cq b).
Proof.
  unfold Winter.markConfirmed, saveBooking, Winter.editAdminMessage, editMessageText,
    sendMessage, answerCallbackQuery.
  always_tac.
Qed.

Lemma quiet_markCancelled cq b : always quiet (Winter.markCancelled cq b).
Proof.
  unfold Winter.markCancelled, saveBooking, Winter.editAdminMessage, editMessageText,
    sendMessage, answerCallbackQuery.
  always_tac.
Qed.

Lemma getEventState_run eventId st :
  Winter.getEventState eventId st =
    ((J "event:" ++ eventId, seats st (J "event:" ++ eventId)),
     firstRead st (J "event:" ++ eventId)).
Proof.
  unfold Winter.getEventState, seats, firstRead, mbind, M_bind, read.
  destruct (EVENTS st !! (J "event:" ++ eventId)); reflexivity.
Qed.

Lemma getEventState_result eventId st :
  (Winter.getEventState eventId st).1
  = (J "event:" ++ eventId, seats st (J "event:" ++ eventId)).
Proof. by rewrite getEventState_run. Qed.

Lemma getEventState_trace eventId st :
  trace (Winter.getEventState eventId) st = firstRead st (J "event:" ++ eventId).
Proof. unfold trace. by rewrite getEventState_run. Qed.

Lemma firstRead_offBookings st key : Forall offBookings (firstRead st key).
Proof. unfold firstRead. destruct (EVENTS st !! key); repeat constructor. Qed.

Lemma firstRead_seats st key :
  EVENTS (replay (firstRead st key) st) !! key = Some (seats st key).
Proof.
  unfold firstRead, seats. destruct (EVENTS st !! key) eqn:He; simpl; [done|].
  by rewrite lookup_insert_eq.
Qed.

Lemma seats_replay_firstRead st key :
  seats (replay (firstRead st key) st) key = seats st key.
Proof. unfold seats at 1. by rewrite firstRead_seats. Qed.

Lemma firstRead_again st key : firstRead (replay (firstRead st key) st) key = [].
Proof. unfold firstRead at 1. by rewrite firstRead_seats. Qed.

Lemma cancel_ne_confirm : Some (J "cancel") <> Some (J "confirm").
Proof. vm_compute. discriminate. Qed.

(** *** Counters under one operator action *)

Lemma lazily_refl ev : lazily ev ev.
Proof. intros key. by left. Qed.

Lemma fresh_ok : counter_ok fresh.
Proof. unfold counter_ok, fresh; simpl; lia. Qed.

Lemma seats_ok st key : counters_ok st -> counter_ok (seats st key).
Proof.
  intros H. unfold seats. destruct (EVENTS st !! key) as [e|] eqn:He; simpl.
  - by apply (H key).
  - apply fresh_ok.
Qed.

Lemma lazily_lookup st0 ev key e :
  lazily (EVENTS st0) ev -> ev !! key = Some e -> e = seats st0 key.
Proof.
  intros H He. unfold seats. destruct (H key) as [Heq|[-> Hf]].
  - by rewrite <- Heq, He.
  - simpl. congruence.
Qed.

Lemma post_lazily cq st0 ev : lazily (EVENTS st0) ev -> post cq st0 ev.
Proof.
  intros H. split.
  - intros Hok key e He. rewrite (lazily_lookup _ _ _ _ H He). by apply seats_ok.
  - intros key. destruct (ev !! key) as [e|] eqn:He.
    + left. by eapply lazily_lookup.
    + destruct (H key) as [Heq|[_ ?]]; congruence.
Qed.

Lemma post_reserve cq st0 ev key state b :
  lazily (EVENTS st0) ev -> ev !! key = Some state ->
  BOOKINGS st0 !! bookingKey cq = Some b ->
  0 < parseInt_num (b_people b) ->
  taken state b <= capacity state ->
  post cq st0 (<[key := with_booked (taken state b) state]> ev).
Proof.
  intros H Hkey Hb Hpos Hfit.
  pose proof (lazily_lookup _ _ _ _ H Hkey) as Hstate.
  split.
  - intros Hok k e. rewrite lookup_insert. case_decide as Hk.
    + intros [= <-]. pose proof (seats_ok st0 key Hok) as Hs. rewrite <- Hstate in Hs.
      assert (0 <= taken state b) by (apply fl_nonneg; unfold counter_ok in Hs; lia).
      unfold counter_ok in *; simpl; lia.
    + intros He. rewrite (lazily_lookup _ _ _ _ H He). by apply seats_ok.
  - intros k. rewrite lookup_insert. case_decide as Hk.
    + subst k. right. exists b. rewrite <- Hstate. done.
    + destruct (ev !! k) as [e|] eqn:He.
      * left. by eapply lazily_lookup.
      * destruct (H k) as [Heq|[_ ?]]; congruence.
Qed.

Lemma getEventState_lazily ev0 eventId :
  hoare (on_events (lazily ev0)) (Winter.getEventState eventId)
    (fun r st => on_events (lazily ev0) st /\ r.1 = J "event:" ++ eventId
                 /\ EVENTS st !! r.1 = Some r.2).
Proof.
  intros st H. unfold on_events in *. unfold Winter.getEventState.
  rewrite result_bind, exec_bind, exec_read. cbn [fst read].
  destruct (EVENTS st !! (J "event:" ++ eventId)) as [e|] eqn:He.
  - rewrite exec_ret. done.
  - rewrite result_bind, exec_bind, exec_emit, exec_ret. cbn.
    split_and!; [|done|by rewrite lookup_insert_eq].
    intros key. destruct (decide (key = J "event:" ++ eventId)) as [->|Hne].
    + right. rewrite lookup_insert_eq. split; [|done].
      destruct (H (J "event:" ++ eventId)) as [Heq|[? _]]; congruence.
    + rewrite lookup_insert_ne by done. apply H.
Qed.

Lemma handleAdminBookingAction_post cq st :
  post cq st (EVENTS (exec (Winter.handleAdminBookingAction cq) st)).
Proof.
  unfold Winter.handleAdminBookingAction, getBooking.
  rewrite exec_bind, exec_read. cbn [fst read].
  fold (bookingKey cq).
  destruct (BOOKINGS st !! bookingKey cq) as [b|] eqn:Hb.
  2: { rewrite quiet_exec by apply quiet_answer. apply post_lazily, lazily_refl. }
  case_bool_decide.
  - case_bool_decide.
    { rewrite quiet_exec by apply quiet_answer. apply post_lazily, lazily_refl. }
    destruct (Winter.capacityBound b).
    2: { rewrite quiet_exec by apply quiet_markConfirmed. apply post_lazily, lazily_refl. }
    rewrite exec_bind.
    destruct (getEventState_lazily (EVENTS st) (tpl (b_nyEventId b)) st (lazily_refl _))
      as (Hlz & _ & Hst).
    destruct (Winter.getEventState (tpl (b_nyEventId b)) st).1 as [key state].
    cbn [fst snd] in Hst. unfold on_events in Hlz.
    destruct (parseInt_num (b_people b) <=? 0) eqn:Hp.
    { rewrite quiet_exec by apply quiet_answer. by apply post_lazily. }
    fold (taken state b).
    destruct (taken state b >? capacity state) eqn:Hc.
    { rewrite quiet_exec by apply quiet_answer. by apply post_lazily. }
    rewrite exec_bind, quiet_exec by apply quiet_markConfirmed.
    unfold Winter.saveEventState. rewrite exec_emit. cbn [apply EVENTS].
    apply post_reserve; [done..|lia|lia].
  - case_bool_decide.
    + case_bool_decide.
      { rewrite quiet_exec by apply quiet_answer. apply post_lazily, lazily_refl. }
      rewrite quiet_exec by apply quiet_markCancelled. apply post_lazily, lazily_refl.
    + rewrite quiet_exec by apply quiet_answer. apply post_lazily, lazily_refl.
Qed.

Lemma lazy_quiet {A} (m : M A) : always quiet m -> lazy m.
Proof. intros H ev0. by apply hoare_quiet. Qed.

Lemma lazy_bind {A B} (m : M A) (f : A -> M B) :
  lazy m -> (forall a, lazy (f a)) -> lazy (m ≫= f).
Proof. intros Hm Hf ev0. eapply hoare_bind; [apply Hm|]. intros a. apply Hf. Qed.

Lemma lazy_getEventState eventId : lazy (Winter.getEventState eventId).
Proof.
  intros ev0. eapply hoare_weaken; [apply getEventState_lazily|done|].
  by intros a st [? _].
Qed.

Lemma lazy_forM {A B} (xs : list A) (f : A -> M B) :
  (forall x, lazy (f x)) -> lazy (forM xs f).
Proof.
  intros Hf. induction xs as [|x xs IH]; simpl.
  - apply lazy_quiet, always_ret.
  - apply lazy_bind; [apply Hf|]. intros y.
    apply lazy_bind; [apply IH|]. intros ys. apply lazy_quiet, always_ret.
Qed.

Ltac lazy_tac :=
  repeat first
    [ apply lazy_getEventState
    | apply lazy_quiet; first [ apply always_ret | apply always_read
                              | apply always_emit; exact I ]
    | apply lazy_bind; [|intros ?]
    | apply lazy_forM; intros ?
    | match goal with |- lazy (if ?c then _ else _) => destruct c end
    | match goal with |- lazy (match ?c with _ => _ end) => destruct c end ].

Lemma lazy_events cq : lazy (Winter.handleEventsSummaryCallback cq).
Proof.
  unfold Winter.handleEventsSummaryCallback, Winter.sendEventsSummaryMessage,
    Winter.sendEventDetailMessage, Winter.summaryLine, sendMessage, answerCallbackQuery.
  lazy_tac.
Qed.

Lemma handleCallbackQuery_post env cq st :
  post cq st (EVENTS (exec (Winter.handleCallbackQuery env cq) st)).
Proof.
  unfold Winter.handleCallbackQuery.
  destruct (negb _).
  { rewrite quiet_exec by apply quiet_answer. apply post_lazily, lazily_refl. }
  destruct (startsWith _ _).
  { apply post_lazily. apply (lazy_events cq (EVENTS st) st). apply lazily_refl. }
  destruct (_ || _).
  - apply handleAdminBookingAction_post.
  - rewrite quiet_exec by apply quiet_answer. apply post_lazily, lazily_refl.
Qed.

Lemma run_ok env cqs st :
  counters_ok st -> Forall counters_ok (run env cqs st).
Proof.
  revert st. induction cqs as [|cq cqs IH]; intros st Hok; simpl; [constructor|].
  pose proof (proj1 (handleCallbackQuery_post env cq st) Hok) as Hok'.
  constructor; [done|]. by apply IH.
Qed.

Lemma run_reserves env cqs st i cq s s' :
  cqs !! i = Some cq -> (st :: run env cqs st) !! i = Some s ->
  run env cqs st !! i = Some s' -> reserves cq s (EVENTS s').
Proof.
  revert st i. induction cqs as [|c cqs IH]; intros st i Hcq Hs Hs'; [done|].
  destruct i as [|i]; simpl in *.
  - simplify_eq. apply handleCallbackQuery_post.
  - eapply IH; eauto.
Qed.

(** C1.  From counters with [booked = 0] and [capacity >= 1], after each of
    any sequence of operator actions (confirm, cancel, or any other callback,
    on any bookings) every counter satisfies [0 <= booked <= capacity]; and
    each action leaves every counter as it was (a first read creating it
    aside) or stores in it [booked + people], the people of the addressed
    booking added, which it does only when they are positive and
    [booked + people <= capacity].  The sum is the one the worker computes,
    a double ([taken]); under a capacity below 2^53 it is the exact sum. *)
Theorem capacity_invariant env st cqs :
  map_Forall (fun _ e => booked e = 0 /\ 1 <= capacity e) (EVENTS st) ->
  Forall counters_ok (run env cqs st)
  /\ forall i cq s s',
       cqs !! i = Some cq -> (st :: run env cqs st) !! i = Some s ->
       run env cqs st !! i = Some s' -> reserves cq s (EVENTS s').
Proof.
  intros H0. split.
  - apply run_ok. intros k e He. destruct (H0 k e He) as [Hb Hc].
    unfold counter_ok. lia.
  - intros i cq s s'. apply run_reserves.
Qed.

Lemma capacity_invariant_witness :
  map_Forall (fun _ e => booked e = 0 /\ 1 <= capacity e) (EVENTS store0)
  /\ Forall counters_ok
       (run env0 [tap "confirm:b1"; tap "confirm:b2"; tap "confirm:b3"; tap "cancel:b1"]
          store0).
Proof.
  assert (H : map_Forall (fun _ e => booked e = 0 /\ 1 <= capacity e) (EVENTS store0)).
  { apply map_Forall_insert_2; [simpl; lia|apply map_Forall_empty]. }
  split; [exact H|].
  exact (proj1 (capacity_invariant env0 store0
    [tap "confirm:b1"; tap "confirm:b2"; tap "confirm:b3"; tap "cancel:b1"] H)).
Defined.

(** *** The runs of confirm and cancel *)

Lemma notFound_trace st cq :
  BOOKINGS st !! bookingKey cq = None ->
  trace (Winter.handleAdminBookingAction cq) st =
    [AnswerCallbackQuery (cq_id cq) (J "Заявка не найдена.")].
Proof.
  intros Hb. unfold Winter.handleAdminBookingAction, getBooking.
  rewrite trace_bind, trace_read, exec_read. cbn [fst read app]. fold (bookingKey cq).
  by rewrite Hb.
Qed.

Lemma already_trace st cq b :
  Winter.cbAction cq = Some (J "confirm") ->
  BOOKINGS st !! bookingKey cq = Some b ->
  b_status b = J "confirmed" ->
  trace (Winter.handleAdminBookingAction cq) st =
    [AnswerCallbackQuery (cq_id cq) (J "Заявка уже подтверждена.")].
Proof.
  intros Ha Hb Hs. unfold Winter.handleAdminBookingAction, getBooking.
  rewrite trace_bind, trace_read, exec_read. cbn [fst read app]. fold (bookingKey cq).
  rewrite Hb, Ha. by rewrite !bool_decide_eq_true_2.
Qed.

Lemma confirm_run st cq b :
  Winter.cbAction cq = Some (J "confirm") ->
  BOOKINGS st !! bookingKey cq = Some b ->
  b_status b <> J "confirmed" ->
  b_id b <> [] ->
  ConfirmRun st cq b (trace (Winter.handleAdminBookingAction cq) st).
Proof.
  intros Ha Hb Hs Hid.
  unfold Winter.handleAdminBookingAction, getBooking.
  rewrite trace_bind, trace_read, exec_read. cbn [fst read app]. fold (bookingKey cq).
  rewrite Hb, Ha. rewrite bool_decide_eq_true_2 by done.
  rewrite bool_decide_eq_false_2 by done.
  destruct (Winter.capacityBound b) eqn:Hcb.
  2: { destruct (markConfirmed_trace cq b st Hid) as (rest & -> & Hrest). by apply Unbound. }
  rewrite trace_bind, getEventState_trace, getEventState_result. cbv beta iota.
  fold (eventKey b). fold (taken (seats st (eventKey b)) b).
  destruct (parseInt_num (b_people b) <=? 0) eqn:Hp.
  { apply Rejected; [done|left; lia|vm_compute; discriminate]. }
  destruct (_ >? _) eqn:Hc.
  { generalize (String_of_num
      (if fl (capacity (seats st (eventKey b)) - booked (seats st (eventKey b))) <? 0
       then 0 else fl (capacity (seats st (eventKey b)) - booked (seats st (eventKey b))))).
    intros free.
    apply Rejected; [done|right; lia|].
    intros H. apply (f_equal (take 3)) in H. vm_compute in H. discriminate H. }
  rewrite trace_bind. unfold Winter.saveEventState. rewrite trace_emit. cbn [app].
  match goal with |- context [trace (Winter.markConfirmed cq b) ?s] =>
    destruct (markConfirmed_trace cq b s Hid) as (rest & -> & Hrest) end.
  apply Reserved; [done|lia|lia|done].
Qed.

Lemma quiet_cancel cq :
  Winter.cbAction cq = Some (J "cancel") ->
  always quiet (Winter.handleAdminBookingAction cq).
Proof.
  intros Ha. unfold Winter.handleAdminBookingAction. rewrite Ha.
  rewrite (bool_decide_eq_false_2 _ cancel_ne_confirm).
  apply always_bind; [apply always_read|]. intros [b|]; [|apply quiet_answer].
  repeat case_bool_decide; first [apply quiet_answer | apply quiet_markCancelled].
Qed.

(** C2, as the worker has it.  An action whose target status the booking
    already has (confirm on a confirmed booking, cancel on a cancelled one)
    is a no-op: the store is unchanged and the only effect is the answer
    that tells the operator the existing state. *)
Theorem same_action_noop st cq b :
  BOOKINGS st !! bookingKey cq = Some b ->
  (Winter.cbAction cq = Some (J "confirm") /\ b_status b = J "confirmed"
   \/ Winter.cbAction cq = Some (J "cancel") /\ b_status b = J "cancelled") ->
  exec (Winter.handleAdminBookingAction cq) st = st
  /\ trace (Winter.handleAdminBookingAction cq) st =
       [AnswerCallbackQuery (cq_id cq)
          (if bool_decide (Winter.cbAction cq = Some (J "confirm"))
           then J "Заявка уже подтверждена." else J "Заявка уже отклонена.")].
Proof.
  intros Hb Hcase. unfold exec.
  unfold Winter.handleAdminBookingAction, getBooking.
  rewrite trace_bind, trace_read. cbn [fst read app]. fold (bookingKey cq). rewrite Hb.
  destruct Hcase as [[Ha Hs]|[Ha Hs]]; rewrite Ha.
  - rewrite !bool_decide_eq_true_2 by done. done.
  - rewrite (bool_decide_eq_false_2 _ cancel_ne_confirm).
    rewrite !bool_decide_eq_true_2 by done. done.
Qed.

Lemma same_action_noop_witness :
  exec (Winter.handleAdminBookingAction (tap "confirm:b5")) store0 = store0
  /\ trace (Winter.handleAdminBookingAction (tap "confirm:b5")) store0 =
       [AnswerCallbackQuery (cq_id (tap "confirm:b5")) (J "Заявка уже подтверждена.")].
Proof.
  assert (H1 : BOOKINGS store0 !! bookingKey (tap "confirm:b5")
               = Some (seat "b5" 1 "confirmed")) by (vm_compute; reflexivity).
  assert (H2 : Winter.cbAction (tap "confirm:b5") = Some (J "confirm")
               /\ b_status (seat "b5" 1 "confirmed") = J "confirmed")
    by (split; vm_compute; reflexivity).
  pose proof (same_action_noop store0 (tap "confirm:b5") (seat "b5" 1 "confirmed") H1
                (or_introl H2)) as H.
  rewrite (bool_decide_eq_true_2 _ (proj1 H2)) in H. exact H.
Defined.

(** C2 fails on the other two pairs: the operator cancels the confirmed
    booking b5, which is declined; and confirms the declined booking b4,
    which is confirmed and takes a seat. *)
Lemma terminal_not_noop :
  terminal (seat "b5" 1 "confirmed") /\ terminal (seat "b4" 1 "cancelled")
  /\ BOOKINGS store0 !! J "booking:b5" = Some (seat "b5" 1 "confirmed")
  /\ BOOKINGS (exec (Winter.handleCallbackQuery env0 (tap "cancel:b5")) store0)
       !! J "booking:b5" = Some (seat "b5" 1 "cancelled")
  /\ BOOKINGS store0 !! J "booking:b4" = Some (seat "b4" 1 "cancelled")
  /\ BOOKINGS (exec (Winter.handleCallbackQuery env0 (tap "confirm:b4")) store0)
       !! J "booking:b4" = Some (seat "b4" 1 "confirmed")
  /\ EVENTS store0 !! J "event:ny-03" = Some {| capacity := 2; booked := 0 |}
  /\ EVENTS (exec (Winter.handleCallbackQuery env0 (tap "confirm:b4")) store0)
       !! J "event:ny-03" = Some {| capacity := 2; booked := 1 |}.
Proof. vm_compute. repeat split; (by left) || (by right). Qed.

(** In a store whose bookings sit under their own ids, a confirm action
    repeated right after itself, whatever the first call did, writes
    nothing: no counter, no booking record. *)
Lemma confirm_again st cq :
  keyed st ->
  Winter.cbAction cq = Some (J "confirm") ->
  let h := Winter.handleAdminBookingAction cq in
  let st1 := exec h st in
  Forall silent (trace h st1)
  /\ exec h st1 = st1
  /\ (AnswerCallbackQuery (cq_id cq) (J "Заявка подтверждена.") ∈ trace h st ->
      trace h st1 = [AnswerCallbackQuery (cq_id cq) (J "Заявка уже подтверждена.")]).
Proof.
  intros Hkeyed Ha h st1.
  assert (Hgoal : Forall silent (trace h st1)
    /\ (AnswerCallbackQuery (cq_id cq) (J "Заявка подтверждена.") ∈ trace h st ->
        trace h st1 = [AnswerCallbackQuery (cq_id cq) (J "Заявка уже подтверждена.")])).
  2: { destruct Hgoal as [Hs Hr]. split_and!; [done| |done]. unfold exec. by apply replay_silent. }
  subst st1 h. unfold exec at 1 2.
  destruct (BOOKINGS st !! bookingKey cq) as [b|] eqn:Hb.
  2: { rewrite (notFound_trace st cq Hb). cbn [replay fold_left apply].
       rewrite (notFound_trace st cq Hb). split; [by repeat constructor|].
       intros Hin. apply list_elem_of_singleton in Hin. exfalso. revert Hin.
       intros [= Hin]. }
  destruct (decide (b_status b = J "confirmed")) as [Hs|Hs].
  { rewrite (already_trace st cq b Ha Hb Hs). cbn [replay fold_left apply].
    rewrite (already_trace st cq b Ha Hb Hs). split; [by repeat constructor|done]. }
  destruct (Hkeyed _ _ Hb) as [Hkey Hid].
  assert (Hdone : forall l,
    BOOKINGS (replay l st) !! bookingKey cq = Some (confirmed b) ->
    Forall silent (trace (Winter.handleAdminBookingAction cq) (replay l st))
    /\ trace (Winter.handleAdminBookingAction cq) (replay l st)
       = [AnswerCallbackQuery (cq_id cq) (J "Заявка уже подтверждена.")]).
  { intros l Hl. rewrite (already_trace _ cq _ Ha Hl eq_refl).
    split; [by repeat constructor|done]. }
  destruct (confirm_run st cq b Ha Hb Hs Hid)
    as [text Hcb Hrej Htext|rest _ _ _ Hrest|rest _ Hrest].
  - rewrite replay_app. cbn [replay fold_left apply]. fold (replay (firstRead st (eventKey b))).
    assert (Hb1 : BOOKINGS (replay (firstRead st (eventKey b)) st) !! bookingKey cq = Some b).
    { rewrite replay_offBookings; [done|apply firstRead_offBookings]. }
    split.
    + destruct (confirm_run _ cq b Ha Hb1 Hs Hid) as [text' _ _ _|rest' _ Hp Hfit _|rest' Hcb' _].
      * rewrite firstRead_again. by repeat constructor.
      * rewrite seats_replay_firstRead in Hfit. lia.
      * congruence.
    + intros Hin. exfalso. apply elem_of_app in Hin as [Hin|Hin].
      * unfold firstRead in Hin. destruct (EVENTS st !! eventKey b).
        -- by apply elem_of_nil in Hin.
        -- apply list_elem_of_singleton in Hin. discriminate Hin.
      * apply list_elem_of_singleton in Hin. injection Hin as Hin. congruence.
  - edestruct (Hdone (firstRead st (eventKey b) ++ EventsPut (eventKey b) (reserved st b)
                      :: BookingsPut (J "booking:" ++ b_id b) (confirmed b) :: rest)) as [H1 H2].
    + rewrite replay_app. cbn [replay fold_left]. fold (replay rest).
      rewrite replay_offBookings by (by apply silent_offBookings).
      cbn [apply BOOKINGS]. rewrite Hkey. by rewrite lookup_insert_eq.
    + split; [exact H1|intros _; exact H2].
  - edestruct (Hdone (BookingsPut (J "booking:" ++ b_id b) (confirmed b) :: rest)) as [H1 H2].
    + cbn [replay fold_left]. fold (replay rest).
      rewrite replay_offBookings by (by apply silent_offBookings).
      cbn [apply BOOKINGS]. rewrite Hkey. by rewrite lookup_insert_eq.
    + split; [exact H1|intros _; exact H2].
Qed.

Lemma markConfirmed_last cq b st :
  last (trace (Winter.markConfirmed cq b) st)
  = Some (AnswerCallbackQuery (cq_id cq) (J "Заявка подтверждена.")).
Proof.
  unfold Winter.markConfirmed. cbv zeta. rewrite !trace_bind.
  unfold answerCallbackQuery at 1. rewrite trace_emit.
  rewrite !app_assoc. apply last_snoc.
Qed.

(** The effects of a confirm that confirms: the counter write, if the
    booking is bound to an event, and then [markConfirmed]. *)
Lemma confirming_trace st cq b :
  Winter.cbAction cq = Some (J "confirm") ->
  BOOKINGS st !! bookingKey cq = Some b ->
  b_status b <> J "confirmed" ->
  (Winter.capacityBound b = true ->
   0 < parseInt_num (b_people b)
   /\ taken (seats st (eventKey b)) b <= capacity (seats st (eventKey b))) ->
  exists st',
    trace (Winter.handleAdminBookingAction cq) st
    = (if Winter.capacityBound b
       then firstRead st (eventKey b) ++ [EventsPut (eventKey b) (reserved st b)]
       else [])
      ++ trace (Winter.markConfirmed cq b) st'.
Proof.
  intros Ha Hb Hs Hfit.
  unfold Winter.handleAdminBookingAction, getBooking.
  rewrite trace_bind, trace_read, exec_read. cbn [fst read app]. fold (bookingKey cq).
  rewrite Hb, Ha. rewrite bool_decide_eq_true_2 by done.
  rewrite bool_decide_eq_false_2 by done.
  destruct (Winter.capacityBound b) eqn:Hcb; [|by eexists].
  destruct (Hfit eq_refl) as [Hp Hle].
  rewrite trace_bind, getEventState_trace, getEventState_result. cbv beta iota.
  fold (eventKey b). fold (taken (seats st (eventKey b)) b).
  replace (parseInt_num (b_people b) <=? 0) with false by lia.
  replace (_ >? _) with false by lia.
  rewrite trace_bind. unfold Winter.saveEventState. rewrite trace_emit.
  eexists. rewrite <- app_assoc. reflexivity.
Qed.

(** C3.  Confirming the same booking twice.  Take a booking, stored under
    its own id, that is not yet confirmed and that a confirm confirms: it is
    not bound to an event, or its party is positive and fits.  The first
    call then ends with the answer that the request is confirmed, leaves the
    booking stored as confirmed and, for a booking bound to an event, the
    counter with the party added.  The second call has one effect, the
    answer that the request is already confirmed: it writes no counter and
    no booking, the store after it is the store after the first call. *)
Theorem confirm_twice st cq b :
  keyed st ->
  Winter.cbAction cq = Some (J "confirm") ->
  BOOKINGS st !! bookingKey cq = Some b ->
  b_status b <> J "confirmed" ->
  (Winter.capacityBound b = true ->
   0 < parseInt_num (b_people b)
   /\ taken (seats st (eventKey b)) b <= capacity (seats st (eventKey b))) ->
  let h := Winter.handleAdminBookingAction cq in
  let st1 := exec h st in
  last (trace h st) = Some (AnswerCallbackQuery (cq_id cq) (J "Заявка подтверждена."))
  /\ BOOKINGS st1 !! bookingKey cq = Some (confirmed b)
  /\ EVENTS st1 = (if Winter.capacityBound b
                   then <[eventKey b := reserved st b]> (EVENTS st)
                   else EVENTS st)
  /\ trace h st1 = [AnswerCallbackQuery (cq_id cq) (J "Заявка уже подтверждена.")]
  /\ exec h st1 = st1.
Proof.
  intros Hkeyed Ha Hb Hs Hfit h st1.
  destruct (Hkeyed _ _ Hb) as [Hkey Hid].
  destruct (confirming_trace st cq b Ha Hb Hs Hfit) as [st' Ht].
  destruct (markConfirmed_trace cq b st' Hid) as (rest & Hmc & Hrest).
  pose proof (markConfirmed_last cq b st') as Hlast.
  assert (Hb1 : BOOKINGS st1 !! bookingKey cq = Some (confirmed b)).
  { subst st1 h. unfold exec. rewrite Ht, Hmc, replay_app.
    cbn [replay fold_left]. fold (replay rest). rewrite replay_silent by done.
    cbn [apply BOOKINGS]. rewrite Hkey. apply lookup_insert_eq. }
  assert (H2 : trace h st1 = [AnswerCallbackQuery (cq_id cq) (J "Заявка уже подтверждена.")])
    by (by apply (already_trace st1 cq (confirmed b))).
  split_and!.
  - subst h. rewrite Ht, last_app, Hlast. reflexivity.
  - exact Hb1.
  - subst st1 h. unfold exec. rewrite Ht, Hmc, replay_app.
    cbn [replay fold_left]. fold (replay rest). rewrite replay_silent by done.
    cbn [apply EVENTS]. destruct (Winter.capacityBound b); [|reflexivity].
    rewrite replay_app. cbn [replay fold_left apply EVENTS].
    unfold firstRead. destruct (EVENTS st !! eventKey b); [reflexivity|].
    cbn [replay fold_left apply EVENTS]. apply insert_insert_eq.
  - exact H2.
  - unfold exec. rewrite H2. reflexivity.
Qed.

Lemma keyed_store0 : keyed store0.
Proof.
  unfold keyed, store0. cbn [BOOKINGS].
  repeat (apply map_Forall_insert_2;
          [split; [vm_compute; reflexivity|vm_compute; discriminate]|]).
  apply map_Forall_empty.
Defined.

Lemma confirm_twice_witness :
  let h := Winter.handleAdminBookingAction (tap "confirm:b1") in
  let st1 := exec h store0 in
  last (trace h store0)
  = Some (AnswerCallbackQuery (cq_id (tap "confirm:b1")) (J "Заявка подтверждена."))
  /\ BOOKINGS st1 !! bookingKey (tap "confirm:b1") = Some (confirmed (seat "b1" 1 "new"))
  /\ EVENTS st1 = (if Winter.capacityBound (seat "b1" 1 "new")
                   then <[eventKey (seat "b1" 1 "new") := reserved store0 (seat "b1" 1 "new")]>
                          (EVENTS store0)
                   else EVENTS store0)
  /\ trace h st1
     = [AnswerCallbackQuery (cq_id (tap "confirm:b1")) (J "Заявка уже подтверждена.")]
  /\ exec h st1 = st1.
Proof.
  assert (Ha : Winter.cbAction (tap "confirm:b1") = Some (J "confirm"))
    by (vm_compute; reflexivity).
  assert (Hb : BOOKINGS store0 !! bookingKey (tap "confirm:b1") = Some (seat "b1" 1 "new"))
    by (vm_compute; reflexivity).
  assert (Hs : b_status (seat "b1" 1 "new") <> J "confirmed") by (vm_compute; discriminate).
  assert (Hp : 0 < parseInt_num (b_people (seat "b1" 1 "new"))) by (vm_compute; reflexivity).
  assert (Hle : taken (seats store0 (eventKey (seat "b1" 1 "new"))) (seat "b1" 1 "new")
                <= capacity (seats store0 (eventKey (seat "b1" 1 "new"))))
    by (vm_compute; discriminate).
  exact (confirm_twice store0 (tap "confirm:b1") (seat "b1" 1 "new") keyed_store0 Ha Hb Hs
           (fun _ => conj Hp Hle)).
Defined.

(** C4.  While a capacity-bound booking is being confirmed, whatever number
    [n] of the effects of the action have been performed, if the stored
    booking already reads confirmed then the counter of its event already
    holds the added seats: the counter is written before the booking. *)
Theorem counter_before_status st cq b n :
  Winter.cbAction cq = Some (J "confirm") ->
  BOOKINGS st !! bookingKey cq = Some b ->
  b_id b <> [] ->
  b_status b <> J "confirmed" ->
  Winter.capacityBound b = true ->
  let mid := replay (take n (trace (Winter.handleAdminBookingAction cq) st)) st in
  (exists b', BOOKINGS mid !! bookingKey cq = Some b' /\ b_status b' = J "confirmed") ->
  EVENTS mid !! eventKey b = Some (reserved st b).
Proof.
  intros Ha Hb Hid Hs Hcb mid (b' & Hb' & Hs'). subst mid.
  destruct (confirm_run st cq b Ha Hb Hs Hid) as [text _ _ _|rest _ Hp Hfit Hrest|rest Hcb' _].
  - exfalso. rewrite replay_offBookings in Hb'.
    + congruence.
    + apply Forall_taken, Forall_app. split; [apply firstRead_offBookings|by repeat constructor].
  - revert Hb'.
    replace (firstRead st (eventKey b) ++ EventsPut (eventKey b) (reserved st b)
             :: BookingsPut (J "booking:" ++ b_id b) (confirmed b) :: rest)
      with ((firstRead st (eventKey b) ++ [EventsPut (eventKey b) (reserved st b)])
            ++ BookingsPut (J "booking:" ++ b_id b) (confirmed b) :: rest)
      by (by rewrite <- app_assoc).
    set (pre := firstRead st (eventKey b) ++ [EventsPut (eventKey b) (reserved st b)]).
    destruct (decide (n <= length pre)%nat) as [Hle|Hgt].
    + rewrite take_app_le by done. rewrite replay_offBookings.
      * congruence.
      * apply Forall_taken, Forall_app. split; [apply firstRead_offBookings|by repeat constructor].
    + intros _. rewrite take_app_ge by lia.
      destruct (n - length pre)%nat as [|k] eqn:Hk; [lia|]. cbn [take].
      rewrite replay_app. cbn [replay fold_left]. fold (replay (take k rest)).
      rewrite replay_quiet by (apply silent_quiet, Forall_taken, Hrest).
      cbn [apply EVENTS]. subst pre. rewrite replay_app. cbn [replay fold_left apply EVENTS].
      by rewrite lookup_insert_eq.
  - congruence.
Qed.

Lemma counter_before_status_witness :
  let mid := replay (take 2 (trace (Winter.handleAdminBookingAction (tap "confirm:b1")) store0))
               store0 in
  EVENTS mid !! eventKey (seat "b1" 1 "new") = Some (reserved store0 (seat "b1" 1 "new")).
Proof.
  assert (Ha : Winter.cbAction (tap "confirm:b1") = Some (J "confirm"))
    by (vm_compute; reflexivity).
  assert (Hb : BOOKINGS store0 !! bookingKey (tap "confirm:b1") = Some (seat "b1" 1 "new"))
    by (vm_compute; reflexivity).
  assert (Hid : b_id (seat "b1" 1 "new") <> []) by (vm_compute; discriminate).
  assert (Hs : b_status (seat "b1" 1 "new") <> J "confirmed") by (vm_compute; discriminate).
  assert (Hcb : Winter.capacityBound (seat "b1" 1 "new") = true) by (vm_compute; reflexivity).
  assert (Hmid : exists b',
    BOOKINGS (replay (take 2 (trace (Winter.handleAdminBookingAction (tap "confirm:b1")) store0))
                store0) !! bookingKey (tap "confirm:b1") = Some b'
    /\ b_status b' = J "confirmed")
    by (exists (seat "b1" 1 "confirmed"); split; vm_compute; reflexivity).
  exact (counter_before_status store0 (tap "confirm:b1") (seat "b1" 1 "new") 2
           Ha Hb Hid Hs Hcb Hmid).
Defined.

(** C10.  Cancelling a confirmed booking stores it as cancelled and leaves
    every counter as it is: the seats taken at confirm time stay taken.  No
    cancel action, on whatever store, changes a counter. *)
Theorem cancel_keeps_counters st cq b :
  Winter.cbAction cq = Some (J "cancel") ->
  BOOKINGS st !! bookingKey cq = Some b ->
  b_status b = J "confirmed" ->
  b_id b <> [] ->
  let st' := exec (Winter.handleAdminBookingAction cq) st in
  BOOKINGS st' !! (J "booking:" ++ b_id b) = Some (cancelled b)
  /\ EVENTS st' = EVENTS st
  /\ forall st2, EVENTS (exec (Winter.handleAdminBookingAction cq) st2) = EVENTS st2.
Proof.
  intros Ha Hb Hs Hid st'. split; [|split].
  - subst st'. unfold exec, Winter.handleAdminBookingAction, getBooking.
    rewrite trace_bind, trace_read, exec_read. cbn [fst read app]. fold (bookingKey cq).
    rewrite Hb, Ha. rewrite (bool_decide_eq_false_2 _ cancel_ne_confirm).
    rewrite bool_decide_eq_true_2 by done.
    rewrite bool_decide_eq_false_2 by (rewrite Hs; vm_compute; discriminate).
    destruct (markCancelled_trace cq b st Hid) as (rest & -> & Hrest).
    cbn [replay fold_left]. fold (replay rest). rewrite replay_silent by done.
    cbn [apply BOOKINGS]. by rewrite lookup_insert_eq.
  - apply quiet_exec, quiet_cancel, Ha.
  - intros st2. apply quiet_exec, quiet_cancel, Ha.
Qed.

Lemma cancel_keeps_counters_witness :
  let st' := exec (Winter.handleAdminBookingAction (tap "cancel:b5")) store0 in
  BOOKINGS st' !! (J "booking:" ++ b_id (seat "b5" 1 "confirmed"))
    = Some (cancelled (seat "b5" 1 "confirmed"))
  /\ EVENTS st' = EVENTS store0.
Proof.
  assert (Ha : Winter.cbAction (tap "cancel:b5") = Some (J "cancel"))
    by (vm_compute; reflexivity).
  assert (Hb : BOOKINGS store0 !! bookingKey (tap "cancel:b5")
               = Some (seat "b5" 1 "confirmed")) by (vm_compute; reflexivity).
  assert (Hid : b_id (seat "b5" 1 "confirmed") <> []) by (vm_compute; discriminate).
  destruct (cancel_keeps_counters store0 (tap "cancel:b5") (seat "b5" 1 "confirmed")
              Ha Hb eq_refl Hid) as (H1 & H2 & _).
  split; [exact H1|exact H2].
Defined.

(** *** The operator gate *)

(** C9.  A callback (confirm, cancel, events summary or any other) sent by
    an identity that is not the configured operator has one effect, the
    answer that permission is missing: no booking, counter or session is
    written and nothing is sent to the requester of the booking. *)
Theorem unauthorized_callback env clk update cq st :
  callback_query update = Some cq ->
  isAdminUserId env (cq_from cq) = false ->
  trace (Winter.fetch env clk update) st
    = [AnswerCallbackQuery (cq_id cq) (J "Недостаточно прав.")]
  /\ exec (Winter.fetch env clk update) st = st.
Proof.
  intros Hcq Hadm. unfold exec, Winter.fetch, Winter.handleCallbackQuery.
  by rewrite Hcq, Hadm.
Qed.

Lemma unauthorized_callback_witness :
  trace (Winter.fetch env0 noon stranger) store0
    = [AnswerCallbackQuery (J "q") (J "Недостаточно прав.")]
  /\ exec (Winter.fetch env0 noon stranger) store0 = store0.
Proof.
  assert (Hadm : isAdminUserId env0 (Some 555) = false) by (vm_compute; reflexivity).
  exact (unauthorized_callback env0 noon stranger _ store0 eq_refl Hadm).
Defined.

(** *** Sessions *)

Lemma trace_bind_run {A B} (m : M A) (f : A -> M B) st a l :
  m st = (a, l) -> trace (m ≫= f) st = l ++ trace (f a) (replay l st).
Proof.
  intros H. unfold trace, mbind, M_bind. rewrite H.
  by destruct (f a (replay l st)).
Qed.

Lemma loadSession_expired clk chatId st s e :
  STATE st !! userKey chatId = Some s -> s_expiresAt s = Some e -> e <> 0 -> e < t_now clk ->
  loadSession clk chatId st = (emptySession, [StateDelete (userKey chatId)]).
Proof.
  intros Hs He Hz Hlt. unfold loadSession, mbind, M_bind, read. rewrite Hs.
  cbv beta iota zeta. cbn [default from_option id]. rewrite He.
  replace (e =? 0) with false by lia. replace (t_now clk >? e) with true by lia.
  reflexivity.
Qed.

Lemma loadSession_absent clk chatId st :
  STATE st !! userKey chatId = None -> loadSession clk chatId st = (emptySession, []).
Proof. intros Hs. unfold loadSession, mbind, M_bind, read. by rewrite Hs. Qed.

Lemma loadSession_live clk chatId st s :
  STATE st !! userKey chatId = Some s -> live clk s ->
  loadSession clk chatId st = (s, []).
Proof.
  intros Hs Hl. unfold loadSession, mbind, M_bind, read. rewrite Hs.
  cbv beta iota zeta. cbn [default from_option id].
  unfold live in Hl. destruct (s_expiresAt s) as [e|]; [|done].
  destruct Hl as [->|Hle]; [done|].
  replace (t_now clk >? e) with false by lia. by rewrite andb_false_r.
Qed.

Ltac refreshed_tac :=
  repeat first
    [ apply always_ret | apply always_read
    | apply always_emit; first [exact I | split; reflexivity]
    | apply always_bind; [|intros ?]
    | match goal with |- always _ (if ?c then _ else _) => destruct c end
    | match goal with |- always _ (match ?c with _ => _ end) => destruct c end ].

Lemma refreshed_dispatch env clk msg session :
  always (refreshed clk (m_chat msg)) (Winter.dispatch env clk msg session).
Proof.
  unfold Winter.dispatch, Winter.handleStart, Winter.startNyMenu, Winter.nyContactStep,
    Winter.exContactStep, Winter.createBooking, Winter.getEventState, saveBooking, notifyAdmin,
    setState, clearState, sendMessage.
  refreshed_tac.
Qed.

(** Replaces the tests of a closed text by their values. *)
Ltac eval_tests :=
  repeat match goal with
  | |- context [is_text ?t ?lit] =>
      let v := eval vm_compute in (is_text t lit) in
      match v with
      | true => replace (is_text t lit) with true by (vm_compute; reflexivity)
      | false => replace (is_text t lit) with false by (vm_compute; reflexivity)
      end
  | |- context [startsWith ?p ?t] =>
      let v := eval vm_compute in (startsWith p t) in
      match v with
      | true => replace (startsWith p t) with true by (vm_compute; reflexivity)
      | false => replace (startsWith p t) with false by (vm_compute; reflexivity)
      end
  end.

(** [text] as the worker reads it from a message that carries it. *)
Lemma text_of_message msg t :
  m_text msg = Some t -> t <> [] -> or_else (m_text msg) [] = t.
Proof. intros -> Hne. by destruct t. Qed.

Ltac read_text Ht :=
  rewrite (text_of_message _ _ Ht) by (let H := fresh in intros H; vm_compute in H; discriminate H).

Lemma signup_dispatch env clk msg :
  m_text msg = Some (J "📅 Записаться на экскурсию") ->
  Winter.dispatch env clk msg emptySession
  = (setState clk (m_chat msg) (with_step (J "ex_name") emptySession);;
     sendMessage (m_chat msg) (J "Как вас зовут?") Kb_remove).
Proof.
  intros Ht. unfold Winter.dispatch.
  read_text Ht.
  eval_tests. reflexivity.
Qed.

(** Sessions written with the expiry of the delivery stay so under writes
    that carry it. *)
Lemma refreshed_replay clk chatId l st :
  Forall (refreshed clk chatId) l ->
  (forall s', STATE st !! userKey chatId = Some s' ->
              s_expiresAt s' = Some (t_set clk + 600000)) ->
  forall s', STATE (replay l st) !! userKey chatId = Some s' ->
             s_expiresAt s' = Some (t_set clk + 600000).
Proof.
  intros Hl. revert st. induction Hl as [|e l He _ IH]; intros st Hst; [exact Hst|].
  cbn [replay fold_left]. fold (replay l). apply IH.
  intros s'. destruct e; cbn [apply STATE]; try apply Hst.
  - destruct He as [-> He]. rewrite lookup_insert_eq. by intros [= <-].
  - rewrite lookup_delete. case_decide; [done|apply Hst].
Qed.

(** C8, as the worker has it.  A stored session whose [expiresAt] is not
    [0] and lies strictly before the clock reading of the delivery is
    deleted, and the delivery goes on with the empty session whatever step
    was stored: it leaves the same effects and the same store as a delivery
    that finds no session.  A session with [expiresAt] [0], or with none, is
    kept at every clock.  [setState] stores the session with the expiry
    [now + 600000] (ten minutes); every session write of the delivery
    carries it, so does whatever session the delivery leaves stored for the
    chat, and the delivery of the sign-up button leaves one, at the first
    step of the flow. *)
Theorem expired_session env clk msg st s e :
  STATE st !! userKey (m_chat msg) = Some s ->
  s_expiresAt s = Some e -> e <> 0 -> e < t_now clk ->
  let h := Winter.handleMessage env clk msg in
  let st0 := forget (m_chat msg) st in
  trace h st = StateDelete (userKey (m_chat msg))
               :: trace (Winter.dispatch env clk msg emptySession) st0
  /\ trace h st0 = trace (Winter.dispatch env clk msg emptySession) st0
  /\ exec h st = exec h st0
  /\ always (refreshed clk (m_chat msg)) h
  /\ (forall s', STATE (exec h st) !! userKey (m_chat msg) = Some s' ->
                 s_expiresAt s' = Some (t_set clk + 600000))
  /\ (forall newState st',
        STATE (exec (setState clk (m_chat msg) newState) st') !! userKey (m_chat msg)
        = Some (with_expiresAt (t_set clk + 600000) newState))
  /\ (forall s0 st',
        STATE st' !! userKey (m_chat msg) = Some s0 ->
        s_expiresAt s0 = None \/ s_expiresAt s0 = Some 0 ->
        loadSession clk (m_chat msg) st' = (s0, []))
  /\ (m_text msg = Some (J "📅 Записаться на экскурсию") ->
      STATE (exec h st) !! userKey (m_chat msg)
      = Some (with_expiresAt (t_set clk + 600000) (with_step (J "ex_name") emptySession))).
Proof.
  intros Hs He Hz Hlt h st0.
  assert (H1 : trace h st = StateDelete (userKey (m_chat msg))
               :: trace (Winter.dispatch env clk msg emptySession) st0).
  { subst h. unfold Winter.handleMessage.
    rewrite (trace_bind_run _ _ _ _ _ (loadSession_expired _ _ _ _ _ Hs He Hz Hlt)).
    reflexivity. }
  assert (H2 : trace h st0 = trace (Winter.dispatch env clk msg emptySession) st0).
  { subst h. unfold Winter.handleMessage.
    rewrite (trace_bind_run _ _ _ emptySession []); [reflexivity|].
    apply loadSession_absent. subst st0. unfold forget. cbn [apply STATE].
    apply lookup_delete_eq. }
  assert (H4 : always (refreshed clk (m_chat msg)) h).
  { subst h. unfold Winter.handleMessage. apply always_bind.
    - unfold loadSession. refreshed_tac.
    - intros session. apply refreshed_dispatch. }
  split_and!; [exact H1|exact H2| |exact H4| | | |].
  - unfold exec. rewrite H1, H2. reflexivity.
  - unfold exec. pose proof (H4 st) as Hall. rewrite H1 in Hall |- *.
    inversion_clear Hall as [|? ? _ Hrest]. cbn [replay fold_left]. fold (replay
      (trace (Winter.dispatch env clk msg emptySession) st0)).
    apply refreshed_replay; [exact Hrest|].
    intros s'. cbn [apply STATE]. by rewrite lookup_delete_eq.
  - intros newState st'. apply lookup_insert_eq.
  - intros s0 st' Hs0 Hnever. apply loadSession_live; [exact Hs0|].
    unfold live. destruct Hnever as [-> | ->]; [exact I|by left].
  - intros Ht. unfold exec. rewrite H1, (signup_dispatch _ _ _ Ht).
    apply lookup_insert_eq.
Qed.

Lemma expired_session_witness :
  let h := Winter.handleMessage env0 noon (says "📅 Записаться на экскурсию") in
  let st0 := forget (m_chat (says "📅 Записаться на экскурсию"))
               (waiting "ex_date" 1735819100000) in
  trace h (waiting "ex_date" 1735819100000)
  = StateDelete (userKey (m_chat (says "📅 Записаться на экскурсию")))
    :: trace (Winter.dispatch env0 noon (says "📅 Записаться на экскурсию") emptySession) st0
  /\ trace h st0
     = trace (Winter.dispatch env0 noon (says "📅 Записаться на экскурсию") emptySession) st0
  /\ exec h (waiting "ex_date" 1735819100000) = exec h st0
  /\ always (refreshed noon (m_chat (says "📅 Записаться на экскурсию"))) h
  /\ (forall s', STATE (exec h (waiting "ex_date" 1735819100000))
                   !! userKey (m_chat (says "📅 Записаться на экскурсию")) = Some s' ->
                 s_expiresAt s' = Some (t_set noon + 600000))
  /\ (forall newState st',
        STATE (exec (setState noon (m_chat (says "📅 Записаться на экскурсию")) newState) st')
          !! userKey (m_chat (says "📅 Записаться на экскурсию"))
        = Some (with_expiresAt (t_set noon + 600000) newState))
  /\ (forall s0 st',
        STATE st' !! userKey (m_chat (says "📅 Записаться на экскурсию")) = Some s0 ->
        s_expiresAt s0 = None \/ s_expiresAt s0 = Some 0 ->
        loadSession noon (m_chat (says "📅 Записаться на экскурсию")) st' = (s0, []))
  /\ STATE (exec h (waiting "ex_date" 1735819100000))
       !! userKey (m_chat (says "📅 Записаться на экскурсию"))
     = Some (with_expiresAt (t_set noon + 600000) (with_step (J "ex_name") emptySession)).
Proof.
  assert (H1 : STATE (waiting "ex_date" 1735819100000)
                 !! userKey (m_chat (says "📅 Записаться на экскурсию"))
               = Some (visitor "ex_date" 1735819100000)) by apply lookup_insert_eq.
  assert (H3 : 1735819100000 <> 0) by lia.
  assert (H4 : 1735819100000 < t_now noon) by (cbn; lia).
  destruct (expired_session env0 noon (says "📅 Записаться на экскурсию")
              (waiting "ex_date" 1735819100000)
              (visitor "ex_date" 1735819100000) 1735819100000 H1 eq_refl H3 H4)
    as (T1 & T2 & T3 & T4 & T5 & T6 & T7 & T8).
  split_and!; [exact T1|exact T2|exact T3|exact T4|exact T5|exact T6|exact T7|].
  exact (T8 eq_refl).
Defined.

(** C8 fails for a stored [expiresAt] of [0]: it lies before every later
    clock, and the session is kept; the next answer continues the flow from
    the stored step. *)
Lemma zero_expiry_kept :
  s_expiresAt (visitor "ex_date" 0) = Some 0 /\ 0 < t_now noon
  /\ STATE (waiting "ex_date" 0) !! userKey 42 = Some (visitor "ex_date" 0)
  /\ trace (Winter.handleMessage env0 noon (says "завтра")) (waiting "ex_date" 0)
     = [StatePut (userKey 42)
          (with_expiresAt (t_set noon + 600000)
             (with_step (J "ex_time") (with_date (J "завтра") (visitor "ex_date" 0))));
        SendMessage (Chat 42) (J "Во сколько? (например, 11:30 / 15:30 (летом))") Kb_remove].
Proof. vm_compute. done. Qed.

(** The expired visitor, whatever they say, is answered from the idle state. *)
Example expired_visitor :
  trace (Winter.handleMessage env0 noon (says "завтра")) (waiting "ex_date" 1735819100000)
  = [StateDelete (userKey 42);
     SendMessage (Chat 42) (J "Спасибо! Мы свяжемся с вами.") (Kb_main_winter false)].
Proof. vm_compute. reflexivity. Qed.

(** *** The validated steps of the baseline worker *)

Lemma step_ne (a b : string) s :
  s_step s = Some (J a) -> J a <> J b -> at_step s b = false.
Proof.
  intros Hs Hne. unfold at_step. rewrite Hs. apply bool_decide_eq_false_2. congruence.
Qed.

Lemma step_eq (a : string) s : s_step s = Some (J a) -> at_step s a = true.
Proof. intros Hs. unfold at_step. by apply bool_decide_eq_true_2. Qed.

Lemma dispatch_people env clk msg s :
  globalCommand (or_else (m_text msg) []) = false ->
  s_step s = Some (J "ex_people") ->
  Baseline.dispatch env clk msg s
  = Baseline.exPeopleStep clk (m_chat msg) (or_else (m_text msg) []) s.
Proof.
  intros Hg Hs. unfold globalCommand in Hg.
  repeat (apply orb_false_elim in Hg as [Hg ?]).
  unfold Baseline.dispatch.
  repeat match goal with H : _ = false |- _ => rewrite H; clear H end.
  cbn [orb].
  rewrite (step_ne "ex_people" "ex_name") by (done || (vm_compute; discriminate)).
  rewrite (step_ne "ex_people" "ex_date") by (done || (vm_compute; discriminate)).
  rewrite (step_ne "ex_people" "ex_time") by (done || (vm_compute; discriminate)).
  by rewrite (step_eq "ex_people").
Qed.

Lemma dispatch_contact env clk msg s :
  globalCommand (or_else (m_text msg) []) = false ->
  s_step s = Some (J "ex_contact") ->
  Baseline.dispatch env clk msg s
  = Baseline.exContactStep env clk (m_chat msg) (or_else (m_text msg) []) s.
Proof.
  intros Hg Hs. unfold globalCommand in Hg.
  repeat (apply orb_false_elim in Hg as [Hg ?]).
  unfold Baseline.dispatch.
  repeat match goal with H : _ = false |- _ => rewrite H; clear H end.
  cbn [orb].
  rewrite (step_ne "ex_contact" "ex_name") by (done || (vm_compute; discriminate)).
  rewrite (step_ne "ex_contact" "ex_date") by (done || (vm_compute; discriminate)).
  rewrite (step_ne "ex_contact" "ex_time") by (done || (vm_compute; discriminate)).
  rewrite (step_ne "ex_contact" "ex_people") by (done || (vm_compute; discriminate)).
  by rewrite (step_eq "ex_contact").
Qed.

Lemma allowed_not_command text : text ∈ Baseline.allowed -> globalCommand text = false.
Proof.
  unfold Baseline.allowed. intros H.
  repeat (apply elem_of_cons in H as [->|H]; [vm_compute; reflexivity|]).
  by apply elem_of_nil in H.
Qed.

Lemma drop_spaces_snoc l c :
  is_space c = false -> exists l', drop_spaces (l ++ [c]) = l' ++ [c].
Proof.
  intros Hc. induction l as [|x l IH]; simpl.
  - rewrite Hc. by exists [].
  - destruct (is_space x); [done|]. by exists (x :: l).
Qed.

Lemma trim_head c r : is_space c = false -> exists r', trim (c :: r) = c :: r'.
Proof.
  intros Hc. unfold trim. cbn [drop_spaces]. rewrite Hc. cbn [rev].
  destruct (drop_spaces_snoc (rev r) c Hc) as [l' ->].
  rewrite rev_app_distr. by eexists.
Qed.

Lemma slash_invalid r : valid (47%N :: r) = false.
Proof.
  unfold valid, Baseline.isValidTelegram, Baseline.isValidPhone, Baseline.isPhoneLike.
  cbn [forallb]. change (Baseline.phoneChar 47) with false. reflexivity.
Qed.

Lemma command_invalid text : globalCommand text = true -> valid (trim text) = false.
Proof.
  unfold globalCommand, is_text. intros H.
  repeat (apply orb_true_iff in H as [H|H]);
    try (apply bool_decide_eq_true_1 in H; subst text; vm_compute; reflexivity).
  destruct text as [|c r]; [done|].
  change (J "/start") with [47%N; 115%N; 116%N; 97%N; 114%N; 116%N] in H.
  cbn [startsWith] in H. apply andb_true_iff in H as [Hc _].
  apply N.eqb_eq in Hc. subst c.
  destruct (trim_head 47%N r eq_refl) as [r' ->]. apply slash_invalid.
Qed.

Lemma valid_not_command text : valid (trim text) = true -> globalCommand text = false.
Proof.
  intros Hv. destruct (globalCommand text) eqn:Hg; [|done].
  apply command_invalid in Hg. congruence.
Qed.

Lemma bookingId_cons clk data :
  exists c r, Baseline.generateBookingId clk data = c :: r.
Proof.
  unfold Baseline.generateBookingId.
  change (J "bk-") with [98%N; 107%N; 45%N]. cbn [app]. eauto.
Qed.

(** C6, for the baseline worker.  At the people step a button label
    ("1" to "6", "6–10", "более 11") is stored in its normal form and the
    session moves on to the contact step; any other text that is not one of
    the global commands is answered by the re-prompt and writes nothing, so
    the step stays.  "более 11" is stored as "11+", "6–10" as "6-10", the
    numerals as they are, and "7" is not a label. *)
Theorem people_step env clk msg st s :
  STATE st !! userKey (m_chat msg) = Some s -> live clk s ->
  s_step s = Some (J "ex_people") ->
  let text := or_else (m_text msg) [] in
  let h := Baseline.handleMessage env clk msg in
  (text ∈ Baseline.allowed ->
   trace h st =
     [StatePut (userKey (m_chat msg))
        (with_expiresAt (t_set clk + 600000)
           (with_step (J "ex_contact") (with_people (Baseline.normalizePeople text) s)));
      SendMessage (Chat (m_chat msg)) (J "Ваш телефон или Telegram?") Kb_flow])
  /\ (text ∉ Baseline.allowed -> globalCommand text = false ->
      trace h st =
        [SendMessage (Chat (m_chat msg))
           (J "Пожалуйста, выберите количество гостей кнопкой ниже.") Kb_exPeople])
  /\ Baseline.normalizePeople (J "более 11") = J "11+"
  /\ Baseline.normalizePeople (J "6–10") = J "6-10"
  /\ Forall (fun d => Baseline.normalizePeople d = d)
       [J "1"; J "2"; J "3"; J "4"; J "5"; J "6"]
  /\ J "7" ∉ Baseline.allowed.
Proof.
  intros Hst Hlive Hs text h.
  assert (Hh : globalCommand text = false ->
               trace h st = trace (Baseline.exPeopleStep clk (m_chat msg) text s) st).
  { intros Hg. subst h. unfold Baseline.handleMessage.
    rewrite (trace_bind_run _ _ _ _ _ (loadSession_live _ _ _ _ Hst Hlive)).
    cbn [app replay fold_left]. by rewrite dispatch_people. }
  split_and!.
  - intros Hin. rewrite Hh by (by apply allowed_not_command).
    unfold Baseline.exPeopleStep. rewrite bool_decide_eq_true_2 by done. reflexivity.
  - intros Hnin Hg. rewrite Hh by done.
    unfold Baseline.exPeopleStep. rewrite bool_decide_eq_false_2 by done. reflexivity.
  - vm_compute. reflexivity.
  - vm_compute. reflexivity.
  - repeat constructor; vm_compute; reflexivity.
  - apply (bool_decide_unpack _). vm_compute. exact I.
Qed.

Lemma people_step_witness :
  trace (Baseline.handleMessage env0 noon (says "более 11")) (waiting "ex_people" 1735819800000)
  = [StatePut (userKey (m_chat (says "более 11")))
       (with_expiresAt (t_set noon + 600000)
          (with_step (J "ex_contact")
             (with_people (Baseline.normalizePeople (or_else (m_text (says "более 11")) []))
                (visitor "ex_people" 1735819800000))));
     SendMessage (Chat (m_chat (says "более 11"))) (J "Ваш телефон или Telegram?") Kb_flow].
Proof.
  assert (H1 : STATE (waiting "ex_people" 1735819800000) !! userKey (m_chat (says "более 11"))
               = Some (visitor "ex_people" 1735819800000)) by apply lookup_insert_eq.
  assert (H2 : live noon (visitor "ex_people" 1735819800000)) by (right; cbn; lia).
  assert (H3 : or_else (m_text (says "более 11")) [] ∈ Baseline.allowed)
    by (apply (bool_decide_unpack _); vm_compute; exact I).
  exact (proj1 (people_step env0 noon (says "более 11") (waiting "ex_people" 1735819800000)
                  (visitor "ex_people" 1735819800000) H1 H2 eq_refl) H3).
Defined.

(** C6 fails on the winter worker, whose people step takes any text: the
    free text "7", which is no label, is stored and the session moves on. *)
Lemma winter_people_unchecked :
  (J "7" ∉ Baseline.allowed)
  /\ trace (Winter.handleMessage env0 noon (says "7")) (waiting "ex_people" 1735819800000)
     = [StatePut (userKey 42)
          (with_expiresAt (t_set noon + 600000)
             (with_step (J "ex_contact")
                (with_people (J "7") (visitor "ex_people" 1735819800000))));
        SendMessage (Chat 42) (J "Ваш телефон или Telegram?") Kb_remove].
Proof.
  split.
  - apply (bool_decide_unpack _). vm_compute. exact I.
  - vm_compute. reflexivity.
Qed.

(** C5, for the baseline worker.  At the contact step the input, trimmed,
    is accepted when it is a handle ([@] and 4 to 32 letters, digits or
    underscores) or a phone (only digits, [+], white space, parentheses and
    hyphens, with 10 to 15 digits): a booking with that contact is stored
    and the session is deleted.  Any other text that is not one of the
    global commands is answered by the re-prompt and writes nothing.
    "+7 999 123-45-67" and "@john_doe" pass the check, "12345" and "@a" do
    not. *)
Theorem contact_step env clk msg st s :
  STATE st !! userKey (m_chat msg) = Some s -> live clk s ->
  s_step s = Some (J "ex_contact") ->
  let text := or_else (m_text msg) [] in
  let contact := trim text in
  let h := Baseline.handleMessage env clk msg in
  (valid contact = true ->
   exists booking msgs,
     trace h st = BookingsPut (J "booking:" ++ b_id booking) booking
                  :: msgs ++ [StateDelete (userKey (m_chat msg))]
     /\ Forall silent msgs
     /\ b_status booking = J "new"
     /\ d_contact (b_data booking) = Some contact)
  /\ (valid contact = false -> globalCommand text = false ->
      trace h st =
        [SendMessage (Chat (m_chat msg))
           (J "Пожалуйста, укажите корректный контакт." ++ nl
            ++ J "Телефон (например: +7 999 123-45-67) или Telegram-ник (@username).")
           Kb_flow;
         SendMessage (Chat (m_chat msg)) (J "Ваш телефон или Telegram?") Kb_flow])
  /\ Baseline.isValidPhone (trim (J "+7 999 123-45-67")) = true
  /\ Baseline.isValidTelegram (trim (J "@john_doe")) = true
  /\ valid (trim (J "12345")) = false
  /\ valid (trim (J "@a")) = false.
Proof.
  intros Hst Hlive Hs text contact h.
  assert (Hh : globalCommand text = false ->
               trace h st = trace (Baseline.exContactStep env clk (m_chat msg) text s) st).
  { intros Hg. subst h. unfold Baseline.handleMessage.
    rewrite (trace_bind_run _ _ _ _ _ (loadSession_live _ _ _ _ Hst Hlive)).
    cbn [app replay fold_left]. by rewrite dispatch_contact. }
  split_and!; [| |vm_compute; reflexivity..].
  - intros Hv. rewrite Hh by (by apply valid_not_command).
    unfold Baseline.exContactStep. fold contact. unfold valid in Hv.
    apply orb_true_iff in Hv.
    replace (negb (Baseline.isValidTelegram contact) && negb (Baseline.isValidPhone contact))
      with false by (destruct Hv as [-> | ->]; [done|by rewrite andb_false_r]).
    unfold Baseline.createBooking, saveBooking. cbn [b_id].
    match goal with |- context [Baseline.generateBookingId clk ?d] =>
      destruct (bookingId_cons clk d) as (c & r & Hid); rewrite Hid end.
    rewrite !trace_bind, trace_emit, trace_ret. cbn [app].
    rewrite <- Hid. unfold clearState. rewrite trace_emit.
    rewrite (app_assoc _ _ [StateDelete _]).
    lazymatch goal with |- context [BookingsPut _ ?b :: _] => exists b end.
    eexists. split; [reflexivity|]. split_and!; [|done|done].
    apply Forall_app. split.
    + match goal with |- Forall _ (trace ?m ?x) => generalize x; change (always silent m) end.
      unfold notifyAdmin. always_tac.
    + unfold sendMessage. rewrite trace_emit. by repeat constructor.
  - intros Hv Hg. rewrite Hh by done. unfold Baseline.exContactStep. fold contact.
    unfold valid in Hv. apply orb_false_elim in Hv as [-> ->]. reflexivity.
Qed.

Lemma contact_step_witness :
  exists booking msgs,
    trace (Baseline.handleMessage env0 noon (says "+7 999 123-45-67"))
      (waiting "ex_contact" 1735819800000)
    = BookingsPut (J "booking:" ++ b_id booking) booking
      :: msgs ++ [StateDelete (userKey (m_chat (says "+7 999 123-45-67")))]
    /\ Forall silent msgs
    /\ b_status booking = J "new"
    /\ d_contact (b_data booking)
       = Some (trim (or_else (m_text (says "+7 999 123-45-67")) [])).
Proof.
  assert (H1 : STATE (waiting "ex_contact" 1735819800000)
                 !! userKey (m_chat (says "+7 999 123-45-67"))
               = Some (visitor "ex_contact" 1735819800000)) by apply lookup_insert_eq.
  assert (H2 : live noon (visitor "ex_contact" 1735819800000)) by (right; cbn; lia).
  assert (H3 : valid (trim (or_else (m_text (says "+7 999 123-45-67")) [])) = true)
    by (vm_compute; reflexivity).
  exact (proj1 (contact_step env0 noon (says "+7 999 123-45-67")
                  (waiting "ex_contact" 1735819800000)
                  (visitor "ex_contact" 1735819800000) H1 H2 eq_refl) H3).
Defined.

(** C5 fails on the winter worker, whose contact step takes any text:
    "12345", which does not pass the check, ends the flow with a booking. *)
Lemma winter_contact_unchecked :
  valid (trim (J "12345")) = false
  /\ exists booking,
       trace (Winter.handleMessage env0 noon (says "12345"))
         (waiting "ex_contact" 1735819800000) !! 0%nat
       = Some (BookingsPut (J "booking:bk-12.07-2025-01-02-1735819200002") booking)
       /\ b_status booking = J "new"
       /\ d_contact (b_data booking) = Some (J "12345")
       /\ last (trace (Winter.handleMessage env0 noon (says "12345"))
                  (waiting "ex_contact" 1735819800000))
          = Some (StateDelete (userKey 42)).
Proof.
  split; [vm_compute; reflexivity|].
  eexists. split_and!; [vm_compute; reflexivity|vm_compute; reflexivity..].
Qed.

(** *** Booking identifiers *)

(** The identifier is made of the date answer, the calendar day and the
    millisecond of the clock: nothing of the requester or of the other
    answers enters it. *)
Lemma bookingId_same clk1 clk2 r1 r2 :
  t_day clk1 = t_day clk2 -> t_id clk1 = t_id clk2 ->
  d_date (r_data r1) = d_date (r_data r2) ->
  Winter.generateBookingId clk1 r1 = Winter.generateBookingId clk2 r2.
Proof. intros Hd Hi Hr. unfold Winter.generateBookingId. by rewrite Hd, Hi, Hr. Qed.

(** C7 fails.  Two requests of one chat for one event, created in the same
    millisecond, get the same identifier; the second booking is stored over
    the first, which is lost. *)
Lemma booking_id_collision :
  (party "2" <> party "5")
  /\ Winter.generateBookingId noon (party "2") = Winter.generateBookingId noon (party "5")
  /\ Winter.generateBookingId noon (party "2") = J "bk-03.01-2025-01-02-1735819200002"
  /\ let st2 := exec (Winter.createBooking noon (party "5"))
                  (exec (Winter.createBooking noon (party "2")) noStore) in
     b_people <$> BOOKINGS st2 !! J "booking:bk-03.01-2025-01-02-1735819200002" = Some 5
     /\ size (BOOKINGS st2) = 1%nat.
Proof.
  split_and!.
  - intros H. apply (f_equal r_people) in H. vm_compute in H. discriminate H.
  - apply bookingId_same; reflexivity.
  - vm_compute. reflexivity.
  - vm_compute. split; reflexivity.
Qed.

(** * Further properties of the two workers *)

(** ** The operator's side *)

Lemma replay_offState l st : Forall offState l -> STATE (replay l st) = STATE st.
Proof.
  revert st. induction l as [|e l IH]; intros st Hl; [done|].
  inversion_clear Hl. simpl. rewrite IH by done. by destruct e.
Qed.

Lemma always_forM P {A B} (xs : list A) (f : A -> M B) :
  (forall x, always P (f x)) -> always P (forM xs f).
Proof.
  intros Hf. induction xs as [|x xs IH]; simpl.
  - apply always_ret.
  - apply always_bind; [apply Hf|]. intros y.
    apply always_bind; [apply IH|]. intros ys. apply always_ret.
Qed.

(** As [always_tac], for predicates that are conjunctions and computations
    that loop over the catalog. *)
Ltac effects_tac :=
  repeat first
    [ apply always_ret | apply always_read
    | apply always_emit; first [exact I | split; exact I]
    | apply always_bind; [|intros ?]
    | apply always_forM; intros ?
    | match goal with |- always _ (if ?c then _ else _) => destruct c end
    | match goal with |- always _ (match ?c with _ => _ end) => destruct c end ].

Lemma offState_winter_callback env cq : always offState (Winter.handleCallbackQuery env cq).
Proof.
  unfold Winter.handleCallbackQuery, Winter.handleEventsSummaryCallback,
    Winter.handleAdminBookingAction, Winter.sendEventsSummaryMessage,
    Winter.sendEventDetailMessage, Winter.summaryLine, Winter.getEventState,
    Winter.saveEventState, Winter.markConfirmed, Winter.markCancelled,
    Winter.editAdminMessage, getBooking, saveBooking, editMessageText, sendMessage,
    answerCallbackQuery.
  effects_tac.
Qed.

Lemma bookingsOnly_baseline_callback env cq :
  always bookingsOnly (Baseline.handleCallbackQuery env cq).
Proof.
  unfold Baseline.handleCallbackQuery, Baseline.handleAdminBookingAction,
    Baseline.editAdminMessage, getBooking, saveBooking, editMessageText, sendMessage,
    answerCallbackQuery.
  effects_tac.
Qed.

(** X1.  When [ADMIN_USER_ID] is not configured (unset or empty) nobody is
    the operator: [isAdminUserId] is false for every identity, and every
    callback delivered to either worker has one effect, the answer that
    permission is missing, and leaves the store as it is. *)
Theorem no_operator_configured env clk update cq st userId :
  truthy (ADMIN_USER_ID env) = false ->
  callback_query update = Some cq ->
  isAdminUserId env userId = false
  /\ trace (Winter.fetch env clk update) st
     = [AnswerCallbackQuery (cq_id cq) (J "Недостаточно прав.")]
  /\ trace (Baseline.fetch env clk update) st
     = [AnswerCallbackQuery (cq_id cq) (J "Недостаточно прав.")]
  /\ exec (Winter.fetch env clk update) st = st
  /\ exec (Baseline.fetch env clk update) st = st.
Proof.
  intros Hno Hcq.
  assert (Hadm : forall u, isAdminUserId env u = false).
  { intros u. unfold isAdminUserId. by rewrite Hno. }
  unfold exec, Winter.fetch, Baseline.fetch, Winter.handleCallbackQuery,
    Baseline.handleCallbackQuery.
  by rewrite Hcq, !Hadm.
Qed.

Lemma no_operator_configured_witness :
  isAdminUserId envNoOperator (Some 777) = false
  /\ trace (Winter.fetch envNoOperator noon operatorTap) store0
     = [AnswerCallbackQuery (cq_id (tap "confirm:b1")) (J "Недостаточно прав.")]
  /\ trace (Baseline.fetch envNoOperator noon operatorTap) store0
     = [AnswerCallbackQuery (cq_id (tap "confirm:b1")) (J "Недостаточно прав.")]
  /\ exec (Winter.fetch envNoOperator noon operatorTap) store0 = store0
  /\ exec (Baseline.fetch envNoOperator noon operatorTap) store0 = store0.
Proof.
  exact (no_operator_configured envNoOperator noon operatorTap (tap "confirm:b1") store0
           (Some 777) eq_refl eq_refl).
Defined.

(** X2.  No callback, whoever sends it and whatever it carries, writes or
    deletes a session; the callbacks of the baseline worker write no
    counter either. *)
Theorem callbacks_keep_sessions env cq st :
  STATE (exec (Winter.handleCallbackQuery env cq) st) = STATE st
  /\ STATE (exec (Baseline.handleCallbackQuery env cq) st) = STATE st
  /\ EVENTS (exec (Baseline.handleCallbackQuery env cq) st) = EVENTS st.
Proof.
  split_and!.
  - apply replay_offState, offState_winter_callback.
  - apply replay_offState. eapply Forall_impl; [apply bookingsOnly_baseline_callback|].
    by intros e [? _].
  - apply replay_quiet. eapply Forall_impl; [apply bookingsOnly_baseline_callback|].
    by intros e [_ ?].
Qed.

(** *** The payload of the buttons *)

Lemma split_nosep sep s : sep ∉ s -> split sep s = [s].
Proof.
  induction s as [|c s IH]; intros Hs; [done|]. simpl.
  apply not_elem_of_cons in Hs as [Hc Hs].
  replace (c =? sep)%N with false by (symmetry; apply N.eqb_neq; congruence).
  by rewrite IH.
Qed.

Lemma split_head sep a s :
  sep ∉ a -> exists rest, split sep (a ++ sep :: s) = a :: rest.
Proof.
  induction a as [|c a IH]; intros Ha; simpl.
  - rewrite N.eqb_refl. by eexists.
  - apply not_elem_of_cons in Ha as [Hc Ha].
    replace (c =? sep)%N with false by (symmetry; apply N.eqb_neq; congruence).
    destruct (IH Ha) as [rest ->]. by eexists.
Qed.

Lemma split_second sep a b s :
  sep ∉ a -> sep ∉ b ->
  split sep (a ++ sep :: b) !! 1%nat = Some b
  /\ split sep (a ++ sep :: b ++ sep :: s) !! 1%nat = Some b.
Proof.
  intros Ha Hb. induction a as [|c a IH]; simpl.
  - rewrite N.eqb_refl. cbn. rewrite split_nosep by done.
    destruct (split_head sep b s Hb) as [rest ->]. done.
  - apply not_elem_of_cons in Ha as [Hc Ha].
    replace (c =? sep)%N with false by (symmetry; apply N.eqb_neq; congruence).
    destruct (IH Ha) as [H1 H2].
    destruct (split_head sep a b Ha) as [r1 Hr1]. rewrite Hr1 in *.
    destruct (split_head sep a (b ++ sep :: s) Ha) as [r2 Hr2]. rewrite Hr2 in *.
    done.
Qed.

Lemma colon_confirm : 58%N ∉ J "confirm".
Proof. apply (bool_decide_unpack _). vm_compute. exact I. Qed.
Lemma colon_cancel : 58%N ∉ J "cancel".
Proof. apply (bool_decide_unpack _). vm_compute. exact I. Qed.

Lemma confirmData_app id : confirmData id = J "confirm" ++ 58%N :: id.
Proof. reflexivity. Qed.
Lemma cancelData_app id : cancelData id = J "cancel" ++ 58%N :: id.
Proof. reflexivity. Qed.

Lemma pressed cbId from a rest :
  58%N ∉ a ->
  Winter.cbAction (press cbId from (confirmData a)) = Some (J "confirm")
  /\ Winter.cbBookingId (press cbId from (confirmData a)) = Some a
  /\ Winter.cbAction (press cbId from (cancelData a)) = Some (J "cancel")
  /\ Winter.cbBookingId (press cbId from (cancelData a)) = Some a
  /\ Winter.cbBookingId (press cbId from (confirmData (a ++ 58%N :: rest))) = Some a
  /\ Winter.cbBookingId (press cbId from (cancelData (a ++ 58%N :: rest))) = Some a.
Proof.
  intros Ha. unfold Winter.cbAction, Winter.cbBookingId, press. cbn [cq_data].
  assert (Hor : forall d, or_else (Some (confirmData d)) [] = confirmData d) by done.
  assert (Hor' : forall d, or_else (Some (cancelData d)) [] = cancelData d) by done.
  rewrite !Hor, !Hor', !confirmData_app, !cancelData_app.
  destruct (split_head 58%N (J "confirm") a colon_confirm) as [r1 Hr1].
  destruct (split_head 58%N (J "cancel") a colon_cancel) as [r2 Hr2].
  rewrite Hr1, Hr2.
  destruct (split_second 58%N (J "confirm") a rest colon_confirm Ha) as [H1 H2].
  destruct (split_second 58%N (J "cancel") a rest colon_cancel Ha) as [H3 H4].
  rewrite Hr1 in H1. rewrite Hr2 in H3. done.
Qed.

(** X3.  Round trip of the button payload.  For a booking id without a
    colon, [handleAdminBookingAction] reads back from the payload of the
    confirm and of the cancel button the action and exactly that id; of an
    id that holds a colon it reads back only the part before the first
    colon. *)
Theorem button_addresses cbId from a rest :
  58%N ∉ a ->
  Winter.cbAction (press cbId from (confirmData a)) = Some (J "confirm")
  /\ Winter.cbBookingId (press cbId from (confirmData a)) = Some a
  /\ Winter.cbAction (press cbId from (cancelData a)) = Some (J "cancel")
  /\ Winter.cbBookingId (press cbId from (cancelData a)) = Some a
  /\ Winter.cbBookingId (press cbId from (confirmData (a ++ 58%N :: rest))) = Some a
  /\ Winter.cbBookingId (press cbId from (cancelData (a ++ 58%N :: rest))) = Some a.
Proof. apply pressed. Qed.

Lemma button_addresses_witness :
  Winter.cbAction (press (J "q") (Some 777) (confirmData (J "bk-1"))) = Some (J "confirm")
  /\ Winter.cbBookingId (press (J "q") (Some 777) (confirmData (J "bk-1"))) = Some (J "bk-1")
  /\ Winter.cbAction (press (J "q") (Some 777) (cancelData (J "bk-1"))) = Some (J "cancel")
  /\ Winter.cbBookingId (press (J "q") (Some 777) (cancelData (J "bk-1"))) = Some (J "bk-1")
  /\ Winter.cbBookingId (press (J "q") (Some 777) (confirmData (J "bk-1" ++ 58%N :: J "30")))
     = Some (J "bk-1")
  /\ Winter.cbBookingId (press (J "q") (Some 777) (cancelData (J "bk-1" ++ 58%N :: J "30")))
     = Some (J "bk-1").
Proof.
  assert (H : 58%N ∉ J "bk-1") by (apply (bool_decide_unpack _); vm_compute; exact I).
  exact (button_addresses (J "q") (Some 777) (J "bk-1") (J "30") H).
Defined.

Lemma startsWith_app p s : startsWith p s = true -> exists r, s = p ++ r.
Proof.
  revert s. induction p as [|a p IH]; intros s H; [by exists s|].
  destruct s as [|b s]; [done|]. simpl in H.
  apply andb_prop in H as [Hab Hp]. apply N.eqb_eq in Hab as ->.
  destruct (IH _ Hp) as [r ->]. by exists r.
Qed.

Lemma prefix_action p data :
  58%N ∉ p -> startsWith (p ++ [58%N]) data = true -> split 58%N data !! 0%nat = Some p.
Proof.
  intros Hp H. apply startsWith_app in H as [r ->]. rewrite <- app_assoc. cbn [app].
  by destruct (split_head 58%N p r Hp) as [rest ->].
Qed.

Lemma gate_action data :
  startsWith (J "confirm:") data || startsWith (J "cancel:") data = true ->
  split 58%N data !! 0%nat = Some (J "confirm") \/ split 58%N data !! 0%nat = Some (J "cancel").
Proof.
  intros H. apply orb_prop in H as [H|H]; [left|right].
  - apply prefix_action; [apply colon_confirm|exact H].
  - apply prefix_action; [apply colon_cancel|exact H].
Qed.

(** The effect at hand is not the answer looked for: it is no answer, or
    its text differs. *)
Ltac other_effect :=
  try match goal with |- context [String_of_num ?n] => generalize (String_of_num n); intros ? end;
  cbn [answered];
  first [ exact (fun H : False => H)
        | let H := fresh in intros H; vm_compute in H; discriminate H ].

Ltac answers_tac :=
  repeat first
    [ apply always_ret | apply always_read | apply always_emit; other_effect
    | apply always_bind; [|intros ?]
    | apply always_forM; intros ?
    | match goal with |- always _ (if ?c then _ else _) => destruct c end
    | match goal with |- always _ (match ?c with _ => _ end) => destruct c end ].

Lemma known_action_winter cq :
  Winter.cbAction cq = Some (J "confirm") \/ Winter.cbAction cq = Some (J "cancel") ->
  always (fun e => ~ answered unknownAction e) (Winter.handleAdminBookingAction cq).
Proof.
  intros Hact. unfold Winter.handleAdminBookingAction, unknownAction.
  apply always_bind; [apply always_read|]. intros [b|]; [|answers_tac].
  case_bool_decide as Hc; [|case_bool_decide as Hx; [|destruct Hact; congruence]];
    unfold Winter.markConfirmed, Winter.markCancelled, Winter.getEventState,
      Winter.saveEventState, Winter.editAdminMessage, saveBooking, editMessageText,
      sendMessage, answerCallbackQuery;
    answers_tac.
Qed.

Lemma known_action_baseline cq :
  Baseline.cbAction cq = Some (J "confirm") \/ Baseline.cbAction cq = Some (J "cancel") ->
  always (fun e => ~ answered unknownAction e) (Baseline.handleAdminBookingAction cq).
Proof.
  intros Hact. unfold Baseline.handleAdminBookingAction, unknownAction.
  apply always_bind; [apply always_read|]. intros [b|]; [|answers_tac].
  case_bool_decide as Hc; [|case_bool_decide as Hx; [|destruct Hact; congruence]];
    unfold Baseline.editAdminMessage, saveBooking, editMessageText,
      sendMessage, answerCallbackQuery;
    answers_tac.
Qed.

(** X4.  The answer "Неизвестное действие." of the last branch of
    [handleAdminBookingAction] is never given: the callback gate hands over
    only payloads that start with "confirm:" or "cancel:", whose action part
    is then "confirm" or "cancel".  This holds for both workers, every
    sender and every payload. *)
Theorem unknown_action_unreachable env cq :
  always (fun e => ~ answered unknownAction e) (Winter.handleCallbackQuery env cq)
  /\ always (fun e => ~ answered unknownAction e) (Baseline.handleCallbackQuery env cq).
Proof.
  split.
  - unfold Winter.handleCallbackQuery.
    destruct (negb _); [unfold unknownAction, answerCallbackQuery; answers_tac|].
    destruct (startsWith (J "events:") _).
    { unfold Winter.handleEventsSummaryCallback, Winter.sendEventsSummaryMessage,
        Winter.sendEventDetailMessage, Winter.summaryLine, Winter.getEventState,
        sendMessage, answerCallbackQuery, unknownAction.
      answers_tac. }
    destruct (_ || _) eqn:Hg; [|unfold unknownAction, answerCallbackQuery; answers_tac].
    apply known_action_winter. by apply gate_action.
  - unfold Baseline.handleCallbackQuery.
    destruct (negb _); [unfold unknownAction, answerCallbackQuery; answers_tac|].
    destruct (_ || _) eqn:Hg; [|unfold unknownAction, answerCallbackQuery; answers_tac].
    apply known_action_baseline. by apply gate_action.
Qed.

(** *** Refused confirmations *)

Lemma rejected_bookings st cq text key :
  BOOKINGS (replay (firstRead st key ++ [AnswerCallbackQuery (cq_id cq) text]) st)
  = BOOKINGS st.
Proof.
  apply replay_offBookings, Forall_app. split; [apply firstRead_offBookings|by repeat constructor].
Qed.

Lemma rejected_seats st cq text key :
  seats (replay (firstRead st key ++ [AnswerCallbackQuery (cq_id cq) text]) st) key
  = seats st key.
Proof.
  rewrite replay_app. cbn [replay fold_left apply]. apply seats_replay_firstRead.
Qed.

Lemma max0_if x : (if x <? 0 then 0 else x) = Z.max 0 x.
Proof. destruct (x <? 0) eqn:H; lia. Qed.

(** X5.  A confirmation that does not fit is refused: when the sum (a
    double) of the seats taken and the party of a pending request for an
    event exceeds the capacity, the operator is answered "Недостаточно мест.
    Свободно: n." where n is the print of the free seats, the difference
    [capacity - booked] as a double, or of 0 when that is negative; the
    booking keeps its status and the counter its value (it is at most
    created by the read). *)
Theorem not_enough_seats st cq b :
  Winter.cbAction cq = Some (J "confirm") ->
  BOOKINGS st !! bookingKey cq = Some b ->
  b_status b <> J "confirmed" ->
  Winter.capacityBound b = true ->
  0 < parseInt_num (b_people b) ->
  capacity (seats st (eventKey b)) < taken (seats st (eventKey b)) b ->
  let h := Winter.handleAdminBookingAction cq in
  trace h st =
    firstRead st (eventKey b)
    ++ [AnswerCallbackQuery (cq_id cq)
          (J "Недостаточно мест. Свободно: "
           ++ String_of_num (Z.max 0 (fl (capacity (seats st (eventKey b))
                                          - booked (seats st (eventKey b)))))
           ++ J ".")]
  /\ BOOKINGS (exec h st) = BOOKINGS st
  /\ seats (exec h st) (eventKey b) = seats st (eventKey b).
Proof.
  intros Ha Hb Hs Hcb Hp Hfull h.
  assert (Ht : trace h st =
    firstRead st (eventKey b)
    ++ [AnswerCallbackQuery (cq_id cq)
          (J "Недостаточно мест. Свободно: "
           ++ String_of_num (Z.max 0 (fl (capacity (seats st (eventKey b))
                                          - booked (seats st (eventKey b)))))
           ++ J ".")]).
  { subst h. unfold Winter.handleAdminBookingAction, getBooking.
    rewrite trace_bind, trace_read, exec_read. cbn [fst read app]. fold (bookingKey cq).
    rewrite Hb, Ha. rewrite bool_decide_eq_true_2 by done.
    rewrite bool_decide_eq_false_2 by done. rewrite Hcb.
    rewrite trace_bind, getEventState_trace, getEventState_result. cbv beta iota.
    fold (eventKey b). fold (taken (seats st (eventKey b)) b).
    replace (parseInt_num (b_people b) <=? 0) with false by lia.
    replace (_ >? _) with true by lia.
    by rewrite max0_if. }
  split_and!; [done| |]; unfold exec; rewrite Ht.
  - apply rejected_bookings.
  - apply rejected_seats.
Qed.

Lemma not_enough_seats_witness :
  let h := Winter.handleAdminBookingAction (tap "confirm:b1") in
  trace h (asked 3 1) =
    firstRead (asked 3 1) (eventKey (seat "b1" 3 "new"))
    ++ [AnswerCallbackQuery (cq_id (tap "confirm:b1"))
          (J "Недостаточно мест. Свободно: "
           ++ String_of_num
                (Z.max 0 (fl (capacity (seats (asked 3 1) (eventKey (seat "b1" 3 "new")))
                              - booked (seats (asked 3 1) (eventKey (seat "b1" 3 "new"))))))
           ++ J ".")]
  /\ BOOKINGS (exec h (asked 3 1)) = BOOKINGS (asked 3 1)
  /\ seats (exec h (asked 3 1)) (eventKey (seat "b1" 3 "new"))
     = seats (asked 3 1) (eventKey (seat "b1" 3 "new")).
Proof.
  assert (Ha : Winter.cbAction (tap "confirm:b1") = Some (J "confirm"))
    by (vm_compute; reflexivity).
  assert (Hb : BOOKINGS (asked 3 1) !! bookingKey (tap "confirm:b1")
               = Some (seat "b1" 3 "new")) by (vm_compute; reflexivity).
  assert (Hs : b_status (seat "b1" 3 "new") <> J "confirmed") by (vm_compute; discriminate).
  assert (Hcb : Winter.capacityBound (seat "b1" 3 "new") = true) by (vm_compute; reflexivity).
  assert (Hp : 0 < parseInt_num (b_people (seat "b1" 3 "new"))) by (vm_compute; reflexivity).
  assert (Hfull : capacity (seats (asked 3 1) (eventKey (seat "b1" 3 "new")))
                  < taken (seats (asked 3 1) (eventKey (seat "b1" 3 "new")))
                      (seat "b1" 3 "new"))
    by (vm_compute; reflexivity).
  exact (not_enough_seats (asked 3 1) (tap "confirm:b1") (seat "b1" 3 "new")
           Ha Hb Hs Hcb Hp Hfull).
Defined.

(** The sum is the double sum: at a counter of 2^53 seats, all taken, one
    more guest leaves the sum at 2^53, which does not exceed the capacity;
    the request is confirmed and the counter keeps its value. *)
Example rounded_sum_confirms :
  let full := {| capacity := 2 ^ 53; booked := 2 ^ 53 |} in
  let st := {| STATE := ∅; BOOKINGS := <[J "booking:b1" := seat "b1" 1 "new"]> ∅;
               EVENTS := <[J "event:ny-03" := full]> ∅ |} in
  taken full (seat "b1" 1 "new") = 2 ^ 53
  /\ last (trace (Winter.handleAdminBookingAction (tap "confirm:b1")) st)
     = Some (AnswerCallbackQuery (J "q") (J "Заявка подтверждена."))
  /\ EVENTS (exec (Winter.handleAdminBookingAction (tap "confirm:b1")) st)
       !! J "event:ny-03" = Some full.
Proof. vm_compute. done. Qed.

(** A party stored as the double next to 10^23 is printed as "1e+23", of
    which [parseInt] reads 1: the request takes one seat. *)
Example exponent_party :
  fl (10 ^ 23) = 99999999999999991611392
  /\ String_of_num (fl (10 ^ 23)) = J "1e+23"
  /\ parseInt_num (fl (10 ^ 23)) = 1
  /\ EVENTS (exec (Winter.handleAdminBookingAction (tap "confirm:b1"))
               {| STATE := ∅;
                  BOOKINGS := <[J "booking:b1" := seat "b1" (fl (10 ^ 23)) "new"]> ∅;
                  EVENTS := <[J "event:ny-03" := {| capacity := 2; booked := 0 |}]> ∅ |})
       !! J "event:ny-03" = Some {| capacity := 2; booked := 1 |}.
Proof. vm_compute. done. Qed.

(** The party a request is stored with is the double that [parseInt] reads
    from the people answer: a prefix of digits, rounded above 2^53, 0 when
    there is none, and nothing (null) from 2^1024 on. *)
Example stored_party :
  toJSON (parseInt_or0 (J "12 гостей")) = 12
  /\ toJSON (parseInt_or0 (J "много")) = 0
  /\ toJSON (parseInt_or0 (J "9007199254740993")) = 9007199254740992
  /\ parseInt_or0 (replicate 309 57%N) = Inf false
  /\ toJSON (parseInt_or0 (replicate 309 57%N)) = 0.
Proof. vm_compute. done. Qed.

(** *** The sign of a parsed party *)

Lemma take_digits_digits s : Forall (fun c => is_digit c = true) (take_digits s).
Proof.
  induction s as [|c s IH]; simpl; [constructor|].
  destruct (is_digit c) eqn:Hc; [by constructor|constructor].
Qed.

Lemma digits_value_from acc ds :
  0 <= acc -> Forall (fun c => is_digit c = true) ds ->
  0 <= fold_left (fun acc c => acc * 10 + (Z.of_N c - 48)) ds acc.
Proof.
  intros Hacc Hds. revert acc Hacc. induction Hds as [|c ds Hc _ IH]; intros acc Hacc; [done|].
  simpl. apply IH. unfold is_digit in Hc. apply andb_prop in Hc as [Hc _].
  apply N.leb_le in Hc. lia.
Qed.

Lemma digits_value_nonneg s : 0 <= digits_value (take_digits s).
Proof. apply digits_value_from; [done|apply take_digits_digits]. Qed.

(** The parse of a print that starts with the minus sign is not positive. *)
Lemma parseInt_minus r z : parseInt (45%N :: r) = Some (Fin z) -> z <= 0.
Proof.
  unfold parseInt. cbn [drop_spaces].
  replace (is_space 45) with false by (vm_compute; reflexivity).
  pose proof (digits_value_nonneg r) as Hv.
  destruct (take_digits r) as [|c ds]; [done|].
  unfold double. intros H.
  destruct (2 ^ 1024 <=? _); [done|]. injection H as <-.
  apply fl_nonpos. lia.
Qed.

Lemma String_of_Z_neg n : n < 0 -> exists r, String_of_Z n = 45%N :: r.
Proof.
  intros Hn. destruct n as [|p|p]; [lia|lia|].
  unfold String_of_Z. cbn [Z.to_int NilZero.string_of_int].
  change (J (String "-" ?s)) with (45%N :: J s). by eexists.
Qed.

Lemma String_of_num_neg n : n < 0 -> exists r, String_of_num n = 45%N :: r.
Proof.
  intros Hn. unfold String_of_num. destruct (Z.abs n <? 2 ^ 53).
  - by apply String_of_Z_neg.
  - replace (n <? 0) with true by lia. change (J "-") with [45%N]. by eexists.
Qed.

Lemma parseInt_num_nonpos n : n <= 0 -> parseInt_num n <= 0.
Proof.
  intros Hn. unfold parseInt_num. destruct (n =? 0) eqn:Hz.
  - vm_compute. discriminate.
  - destruct (String_of_num_neg n) as [r ->]; [lia|].
    destruct (parseInt (45%N :: r)) as [[z|]|] eqn:Hparse; [|done|done].
    by eapply parseInt_minus.
Qed.

(** X6.  A pending request for an event whose stored party is zero or
    negative cannot be confirmed: the operator is answered "Некорректное
    количество гостей.", the booking keeps its status and the counter its
    value. *)
Theorem nonpositive_party_rejected st cq b :
  Winter.cbAction cq = Some (J "confirm") ->
  BOOKINGS st !! bookingKey cq = Some b ->
  b_status b <> J "confirmed" ->
  Winter.capacityBound b = true ->
  b_people b <= 0 ->
  let h := Winter.handleAdminBookingAction cq in
  trace h st =
    firstRead st (eventKey b)
    ++ [AnswerCallbackQuery (cq_id cq) (J "Некорректное количество гостей.")]
  /\ BOOKINGS (exec h st) = BOOKINGS st
  /\ seats (exec h st) (eventKey b) = seats st (eventKey b).
Proof.
  intros Ha Hb Hs Hcb Hp h. apply parseInt_num_nonpos in Hp.
  assert (Ht : trace h st =
    firstRead st (eventKey b)
    ++ [AnswerCallbackQuery (cq_id cq) (J "Некорректное количество гостей.")]).
  { subst h. unfold Winter.handleAdminBookingAction, getBooking.
    rewrite trace_bind, trace_read, exec_read. cbn [fst read app]. fold (bookingKey cq).
    rewrite Hb, Ha. rewrite bool_decide_eq_true_2 by done.
    rewrite bool_decide_eq_false_2 by done. rewrite Hcb.
    rewrite trace_bind, getEventState_trace, getEventState_result. cbv beta iota.
    fold (eventKey b).
    replace (parseInt_num (b_people b) <=? 0) with true by lia. reflexivity. }
  split_and!; [done| |]; unfold exec; rewrite Ht.
  - apply rejected_bookings.
  - apply rejected_seats.
Qed.

Lemma nonpositive_party_rejected_witness :
  let h := Winter.handleAdminBookingAction (tap "confirm:b1") in
  trace h (asked 0 0) =
    firstRead (asked 0 0) (eventKey (seat "b1" 0 "new"))
    ++ [AnswerCallbackQuery (cq_id (tap "confirm:b1")) (J "Некорректное количество гостей.")]
  /\ BOOKINGS (exec h (asked 0 0)) = BOOKINGS (asked 0 0)
  /\ seats (exec h (asked 0 0)) (eventKey (seat "b1" 0 "new"))
     = seats (asked 0 0) (eventKey (seat "b1" 0 "new")).
Proof.
  assert (Ha : Winter.cbAction (tap "confirm:b1") = Some (J "confirm"))
    by (vm_compute; reflexivity).
  assert (Hb : BOOKINGS (asked 0 0) !! bookingKey (tap "confirm:b1")
               = Some (seat "b1" 0 "new")) by (vm_compute; reflexivity).
  assert (Hs : b_status (seat "b1" 0 "new") <> J "confirmed") by (vm_compute; discriminate).
  assert (Hcb : Winter.capacityBound (seat "b1" 0 "new") = true) by (vm_compute; reflexivity).
  assert (Hp : b_people (seat "b1" 0 "new") <= 0) by (vm_compute; discriminate).
  exact (nonpositive_party_rejected (asked 0 0) (tap "confirm:b1") (seat "b1" 0 "new")
           Ha Hb Hs Hcb Hp).
Defined.

(** *** Declined and confirmed again *)

Lemma confirm_reserved st cq b :
  Winter.cbAction cq = Some (J "confirm") ->
  BOOKINGS st !! bookingKey cq = Some b ->
  b_status b <> J "confirmed" ->
  b_id b <> [] ->
  Winter.capacityBound b = true ->
  0 < parseInt_num (b_people b) ->
  taken (seats st (eventKey b)) b <= capacity (seats st (eventKey b)) ->
  BOOKINGS (exec (Winter.handleAdminBookingAction cq) st)
    = <[J "booking:" ++ b_id b := confirmed b]> (BOOKINGS st)
  /\ EVENTS (exec (Winter.handleAdminBookingAction cq) st) !! eventKey b = Some (reserved st b).
Proof.
  intros Ha Hb Hs Hid Hcb Hp Hfit. unfold exec.
  destruct (confirm_run st cq b Ha Hb Hs Hid)
    as [text _ Hrej _|rest _ _ _ Hrest|rest Hcb' _]; [lia| |congruence].
  rewrite replay_app. cbn [replay fold_left]. fold (replay rest).
  rewrite replay_silent by done. cbn [apply BOOKINGS EVENTS].
  split; [|by rewrite lookup_insert_eq].
  f_equal. apply replay_offBookings, firstRead_offBookings.
Qed.

Lemma cancel_run st cq b :
  Winter.cbAction cq = Some (J "cancel") ->
  BOOKINGS st !! bookingKey cq = Some b ->
  b_status b <> J "cancelled" ->
  b_id b <> [] ->
  BOOKINGS (exec (Winter.handleAdminBookingAction cq) st)
    = <[J "booking:" ++ b_id b := cancelled b]> (BOOKINGS st)
  /\ EVENTS (exec (Winter.handleAdminBookingAction cq) st) = EVENTS st.
Proof.
  intros Ha Hb Hs Hid. split; [|by apply quiet_exec, quiet_cancel].
  unfold exec, Winter.handleAdminBookingAction, getBooking.
  rewrite trace_bind, trace_read, exec_read. cbn [fst read app]. fold (bookingKey cq).
  rewrite Hb, Ha. rewrite (bool_decide_eq_false_2 _ cancel_ne_confirm).
  rewrite bool_decide_eq_true_2 by done.
  rewrite bool_decide_eq_false_2 by done.
  destruct (markCancelled_trace cq b st Hid) as (rest & -> & Hrest).
  cbn [replay fold_left]. fold (replay rest). by rewrite replay_silent.
Qed.

(** X7.  Seats are never given back, so a request that is confirmed,
    declined and confirmed again takes its seats twice: when the party fits
    both times, after the three actions the booking is confirmed once, and
    the counter of its event holds the seats it had, plus the party, plus
    the party again (each sum a double). *)
Theorem reconfirm_counts_twice st confirm cancel b :
  Winter.cbAction confirm = Some (J "confirm") ->
  Winter.cbAction cancel = Some (J "cancel") ->
  bookingKey confirm = J "booking:" ++ b_id b ->
  bookingKey cancel = J "booking:" ++ b_id b ->
  BOOKINGS st !! (J "booking:" ++ b_id b) = Some b ->
  b_id b <> [] ->
  b_status b <> J "confirmed" ->
  Winter.capacityBound b = true ->
  0 < parseInt_num (b_people b) ->
  taken (seats st (eventKey b)) b <= capacity (seats st (eventKey b)) ->
  taken (reserved st b) b <= capacity (seats st (eventKey b)) ->
  let st3 := exec (Winter.handleAdminBookingAction confirm)
               (exec (Winter.handleAdminBookingAction cancel)
                  (exec (Winter.handleAdminBookingAction confirm) st)) in
  BOOKINGS st3 !! (J "booking:" ++ b_id b) = Some (confirmed b)
  /\ seats st3 (eventKey b)
     = with_booked
         (fl (fl (booked (seats st (eventKey b)) + parseInt_num (b_people b))
              + parseInt_num (b_people b)))
         (seats st (eventKey b)).
Proof.
  intros Hc Hx Hkc Hkx Hb Hid Hs Hcb Hp Hfit Hfit2 st3.
  set (st1 := exec (Winter.handleAdminBookingAction confirm) st) in *.
  set (st2 := exec (Winter.handleAdminBookingAction cancel) st1) in *.
  destruct (confirm_reserved st confirm b Hc) as [Hb1 He1];
    [by rewrite Hkc|exact Hs|exact Hid|exact Hcb|exact Hp|exact Hfit|]. fold st1 in Hb1, He1.
  assert (Hb1' : BOOKINGS st1 !! bookingKey cancel = Some (confirmed b))
    by (by rewrite Hkx, Hb1, lookup_insert_eq).
  destruct (cancel_run st1 cancel (confirmed b) Hx Hb1') as [Hb2 He2];
    [vm_compute; discriminate|exact Hid|]. fold st2 in Hb2, He2.
  assert (Hb2' : BOOKINGS st2 !! bookingKey confirm = Some (cancelled (confirmed b)))
    by (by rewrite Hkc, Hb2, lookup_insert_eq).
  assert (Hs1 : seats st2 (eventKey b) = reserved st b)
    by (unfold seats; by rewrite He2, He1).
  destruct (confirm_reserved st2 confirm (cancelled (confirmed b)) Hc Hb2') as [Hb3 He3];
    [vm_compute; discriminate|exact Hid|exact Hcb|exact Hp| |].
  { change (eventKey (cancelled (confirmed b))) with (eventKey b). rewrite Hs1.
    exact Hfit2. }
  fold st3 in Hb3, He3. split.
  - rewrite Hb3. cbn [b_id cancelled confirmed with_status]. rewrite lookup_insert_eq.
    by destruct b.
  - change (eventKey (cancelled (confirmed b))) with (eventKey b) in He3.
    unfold seats at 1. rewrite He3. cbn [default from_option id].
    unfold reserved at 1. change (eventKey (cancelled (confirmed b))) with (eventKey b).
    rewrite Hs1. reflexivity.
Qed.

Lemma reconfirm_counts_twice_witness :
  let st3 := exec (Winter.handleAdminBookingAction (tap "confirm:b1"))
               (exec (Winter.handleAdminBookingAction (tap "cancel:b1"))
                  (exec (Winter.handleAdminBookingAction (tap "confirm:b1")) (asked 1 0))) in
  BOOKINGS st3 !! (J "booking:" ++ b_id (seat "b1" 1 "new")) = Some (confirmed (seat "b1" 1 "new"))
  /\ seats st3 (eventKey (seat "b1" 1 "new"))
     = with_booked
         (fl (fl (booked (seats (asked 1 0) (eventKey (seat "b1" 1 "new")))
                  + parseInt_num (b_people (seat "b1" 1 "new")))
              + parseInt_num (b_people (seat "b1" 1 "new"))))
         (seats (asked 1 0) (eventKey (seat "b1" 1 "new"))).
Proof.
  assert (Hc : Winter.cbAction (tap "confirm:b1") = Some (J "confirm"))
    by (vm_compute; reflexivity).
  assert (Hx : Winter.cbAction (tap "cancel:b1") = Some (J "cancel"))
    by (vm_compute; reflexivity).
  assert (Hkc : bookingKey (tap "confirm:b1") = J "booking:" ++ b_id (seat "b1" 1 "new"))
    by (vm_compute; reflexivity).
  assert (Hkx : bookingKey (tap "cancel:b1") = J "booking:" ++ b_id (seat "b1" 1 "new"))
    by (vm_compute; reflexivity).
  assert (Hb : BOOKINGS (asked 1 0) !! (J "booking:" ++ b_id (seat "b1" 1 "new"))
               = Some (seat "b1" 1 "new")) by (vm_compute; reflexivity).
  assert (Hid : b_id (seat "b1" 1 "new") <> []) by (vm_compute; discriminate).
  assert (Hs : b_status (seat "b1" 1 "new") <> J "confirmed") by (vm_compute; discriminate).
  assert (Hcb : Winter.capacityBound (seat "b1" 1 "new") = true) by (vm_compute; reflexivity).
  assert (Hp : 0 < parseInt_num (b_people (seat "b1" 1 "new"))) by (vm_compute; reflexivity).
  assert (Hfit : taken (seats (asked 1 0) (eventKey (seat "b1" 1 "new"))) (seat "b1" 1 "new")
                 <= capacity (seats (asked 1 0) (eventKey (seat "b1" 1 "new"))))
    by (vm_compute; discriminate).
  assert (Hfit2 : taken (reserved (asked 1 0) (seat "b1" 1 "new")) (seat "b1" 1 "new")
                  <= capacity (seats (asked 1 0) (eventKey (seat "b1" 1 "new"))))
    by (vm_compute; discriminate).
  exact (reconfirm_counts_twice (asked 1 0) (tap "confirm:b1") (tap "cancel:b1")
           (seat "b1" 1 "new") Hc Hx Hkc Hkx Hb Hid Hs Hcb Hp Hfit Hfit2).
Defined.

(** ** Counters *)

(** X8.  Reading a counter returns the stored counter, or the counter of
    forty free seats when none is stored, and leaves exactly that counter
    stored under the key of the event: a second read returns the same and
    writes nothing, and no booking or session is touched. *)
Theorem getEventState_stable eventId st :
  let key := J "event:" ++ eventId in
  let st1 := exec (Winter.getEventState eventId) st in
  (Winter.getEventState eventId st).1 = (key, seats st key)
  /\ EVENTS st1 = <[key := seats st key]> (EVENTS st)
  /\ Winter.getEventState eventId st1 = ((key, seats st key), [])
  /\ BOOKINGS st1 = BOOKINGS st /\ STATE st1 = STATE st.
Proof.
  intros key st1. subst st1. unfold exec. rewrite getEventState_trace. fold key.
  split_and!.
  - apply getEventState_result.
  - unfold firstRead, seats. destruct (EVENTS st !! key) eqn:He; [|done].
    cbn [replay fold_left default from_option id]. symmetry. by apply insert_id.
  - rewrite getEventState_run. fold key.
    by rewrite seats_replay_firstRead, firstRead_again.
  - unfold firstRead. by destruct (EVENTS st !! key).
  - unfold firstRead. by destruct (EVENTS st !! key).
Qed.

Lemma readOnly_events cq : always readOnly (Winter.handleEventsSummaryCallback cq).
Proof.
  unfold Winter.handleEventsSummaryCallback, Winter.sendEventsSummaryMessage,
    Winter.sendEventDetailMessage, Winter.summaryLine, Winter.getEventState,
    sendMessage, answerCallbackQuery.
  effects_tac.
Qed.

(** X9.  The operator's views of the events (summary and detail) change no
    booking and no session, and no counter that exists; at most they store,
    for events never read before, the counter of forty free seats. *)
Theorem events_view_reads cq st key :
  let st' := exec (Winter.handleEventsSummaryCallback cq) st in
  BOOKINGS st' = BOOKINGS st
  /\ STATE st' = STATE st
  /\ (EVENTS st' !! key = EVENTS st !! key
      \/ (EVENTS st !! key = None /\ EVENTS st' !! key = Some fresh)).
Proof.
  intros st'. split_and!.
  - apply replay_offBookings. eapply Forall_impl; [apply readOnly_events|]. by intros e [_ ?].
  - apply replay_offState. eapply Forall_impl; [apply readOnly_events|]. by intros e [? _].
  - apply (lazy_events cq (EVENTS st) st (lazily_refl _) key).
Qed.

Lemma lazy_seats {A} (m : M A) st key : lazy m -> seats (exec m st) key = seats st key.
Proof.
  intros Hm. pose proof (Hm (EVENTS st) st (lazily_refl _)) as H.
  unfold on_events in H. unfold seats.
  destruct (H key) as [->|[-> ->]]; done.
Qed.

Lemma lazy_keeps {A} (m : M A) st key e :
  lazy m -> EVENTS st !! key = Some e -> EVENTS (exec m st) !! key = Some e.
Proof.
  intros Hm He. pose proof (Hm (EVENTS st) st (lazily_refl _)) as H.
  unfold on_events in H. destruct (H key) as [->|[? _]]; congruence.
Qed.

Lemma lazy_summaryLine ev : lazy (Winter.summaryLine ev).
Proof. unfold Winter.summaryLine. lazy_tac. Qed.

Lemma summaryLine_seats ev st :
  EVENTS (exec (Winter.summaryLine ev) st) !! (J "event:" ++ Winter.ev_id ev)
  = Some (seats st (J "event:" ++ Winter.ev_id ev)).
Proof.
  unfold Winter.summaryLine. rewrite exec_bind.
  rewrite getEventState_result. cbv beta iota. rewrite exec_ret.
  unfold exec. rewrite getEventState_trace. apply firstRead_seats.
Qed.

Lemma forM_summary evs st ev :
  ev ∈ evs ->
  EVENTS (exec (forM evs Winter.summaryLine) st) !! (J "event:" ++ Winter.ev_id ev)
  = Some (seats st (J "event:" ++ Winter.ev_id ev)).
Proof.
  revert st. induction evs as [|x evs IH]; intros st Hin; [by apply elem_of_nil in Hin|].
  cbn [forM]. rewrite exec_bind, exec_bind, exec_ret.
  apply elem_of_cons in Hin as [->|Hin].
  - apply lazy_keeps; [apply lazy_forM; intros; apply lazy_summaryLine|].
    apply summaryLine_seats.
  - rewrite IH by done. f_equal. apply lazy_seats, lazy_summaryLine.
Qed.

(** X10.  The summary of all events ("events:all") leaves a stored counter
    for every event of the catalog: the one it had, or the counter of forty
    free seats; and it ends with the answer that the summary was sent. *)
Theorem summary_creates_counters cq chat mid st ev :
  cq_message cq = Some (chat, mid) ->
  cq_data cq = Some (J "events:all") ->
  ev ∈ Winter.winterEvents ->
  let st' := exec (Winter.handleEventsSummaryCallback cq) st in
  EVENTS st' !! (J "event:" ++ Winter.ev_id ev) = Some (seats st (J "event:" ++ Winter.ev_id ev))
  /\ last (trace (Winter.handleEventsSummaryCallback cq) st)
     = Some (AnswerCallbackQuery (cq_id cq) (J "Сводка отправлена сообщением.")).
Proof.
  intros Hm Hd Hev st'. subst st'. unfold Winter.handleEventsSummaryCallback.
  rewrite Hm, Hd.
  replace (bool_decide (split 58%N (J "events:all") !! 1%nat = Some (J "all"))) with true
    by (vm_compute; reflexivity).
  split.
  - rewrite exec_bind. unfold answerCallbackQuery. rewrite exec_emit. cbn [apply EVENTS].
    unfold Winter.sendEventsSummaryMessage. rewrite exec_bind.
    unfold sendMessage. rewrite exec_emit. cbn [apply EVENTS].
    by apply forM_summary.
  - rewrite trace_bind. unfold answerCallbackQuery at 1. rewrite trace_emit.
    apply last_snoc.
Qed.

Lemma summary_creates_counters_witness :
  let st' := exec (Winter.handleEventsSummaryCallback (tap "events:all")) noStore in
  EVENTS st' !! (J "event:" ++ Winter.ev_id snowQueen)
    = Some (seats noStore (J "event:" ++ Winter.ev_id snowQueen))
  /\ last (trace (Winter.handleEventsSummaryCallback (tap "events:all")) noStore)
     = Some (AnswerCallbackQuery (cq_id (tap "events:all")) (J "Сводка отправлена сообщением.")).
Proof.
  assert (Hev : snowQueen ∈ Winter.winterEvents) by apply list_elem_of_here.
  exact (summary_creates_counters (tap "events:all") (-100500) 9 noStore snowQueen
           eq_refl eq_refl Hev).
Defined.

(** ** Sessions and messages *)

(** X11.  Round trip of a session.  What [setState] stores is what the next
    delivery reads as long as its clock is not past the expiry of ten
    minutes; past it, the delivery deletes the record and starts from the
    empty session.  [setState] touches no booking and no counter. *)
Theorem session_round_trip clk chatId newState st clk' :
  t_set clk + 600000 <> 0 ->
  let st1 := exec (setState clk chatId newState) st in
  let stored := with_expiresAt (t_set clk + 600000) newState in
  loadSession clk' chatId st1
    = (if t_now clk' >? t_set clk + 600000
       then (emptySession, [StateDelete (userKey chatId)])
       else (stored, []))
  /\ BOOKINGS st1 = BOOKINGS st /\ EVENTS st1 = EVENTS st.
Proof.
  intros Hz st1 stored.
  assert (Hst : STATE st1 !! userKey chatId = Some stored) by apply lookup_insert_eq.
  split_and!; [|done|done].
  destruct (t_now clk' >? t_set clk + 600000) eqn:Hlate.
  - eapply loadSession_expired; [exact Hst|reflexivity|exact Hz|lia].
  - apply loadSession_live; [done|]. right. cbn. lia.
Qed.

Lemma session_round_trip_witness :
  let st1 := exec (setState noon 42 (visitor "ex_date" 0)) noStore in
  let stored := with_expiresAt (t_set noon + 600000) (visitor "ex_date" 0) in
  loadSession soon 42 st1
    = (if t_now soon >? t_set noon + 600000
       then (emptySession, [StateDelete (userKey 42)])
       else (stored, []))
  /\ BOOKINGS st1 = BOOKINGS noStore /\ EVENTS st1 = EVENTS noStore.
Proof.
  assert (Hz : t_set noon + 600000 <> 0) by (cbn; lia).
  exact (session_round_trip noon 42 (visitor "ex_date" 0) noStore soon Hz).
Defined.

Lemma replay_ownSession chatId l st key :
  Forall (ownSession chatId) l -> key <> userKey chatId ->
  STATE (replay l st) !! key = STATE st !! key.
Proof.
  intros Hl Hk. revert st. induction Hl as [|e l He _ IH]; intros st; [done|].
  cbn [replay fold_left]. fold (replay l). rewrite IH.
  destruct e; cbn [apply STATE]; try done; cbn [ownSession] in He; subst.
  - by rewrite lookup_insert_ne.
  - by rewrite lookup_delete_ne.
Qed.

Ltac own_tac :=
  repeat first
    [ apply always_ret | apply always_read
    | apply always_emit; first [exact I | reflexivity]
    | apply always_bind; [|intros ?]
    | match goal with |- always _ (if ?c then _ else _) => destruct c end
    | match goal with |- always _ (match ?c with _ => _ end) => destruct c end ].

Lemma ownSession_winter env clk msg :
  always (ownSession (m_chat msg)) (Winter.handleMessage env clk msg).
Proof.
  unfold Winter.handleMessage, loadSession, Winter.dispatch, Winter.handleStart,
    Winter.startNyMenu, Winter.nyContactStep,
    Winter.exContactStep, Winter.createBooking, Winter.getEventState, saveBooking, notifyAdmin,
    setState, clearState, sendMessage.
  own_tac.
Qed.

Lemma ownSession_baseline env clk msg :
  always (ownSession (m_chat msg)) (Baseline.handleMessage env clk msg).
Proof.
  unfold Baseline.handleMessage, loadSession, Baseline.dispatch, Baseline.exPeopleStep,
    Baseline.exContactStep, Baseline.createBooking, saveBooking, notifyAdmin,
    setState, clearState, sendMessage.
  own_tac.
Qed.

(** X12.  A message touches the session of its own chat only: whatever is
    stored under any other key of the session store is there, unchanged,
    after the delivery, in both workers. *)
Theorem session_isolation env clk msg st key :
  key <> userKey (m_chat msg) ->
  STATE (exec (Winter.handleMessage env clk msg) st) !! key = STATE st !! key
  /\ STATE (exec (Baseline.handleMessage env clk msg) st) !! key = STATE st !! key.
Proof.
  intros Hk. split.
  - eapply replay_ownSession; [apply ownSession_winter|done].
  - eapply replay_ownSession; [apply ownSession_baseline|done].
Qed.

Lemma session_isolation_witness :
  STATE (exec (Winter.handleMessage env0 noon (says "🔄 Сбросить заявку"))
           (waiting "ex_date" 1735819800000)) !! userKey 43
  = STATE (waiting "ex_date" 1735819800000) !! userKey 43
  /\ STATE (exec (Baseline.handleMessage env0 noon (says "🔄 Сбросить заявку"))
              (waiting "ex_date" 1735819800000)) !! userKey 43
     = STATE (waiting "ex_date" 1735819800000) !! userKey 43.
Proof.
  assert (Hk : userKey 43 <> userKey (m_chat (says "🔄 Сбросить заявку")))
    by (vm_compute; discriminate).
  exact (session_isolation env0 noon (says "🔄 Сбросить заявку")
           (waiting "ex_date" 1735819800000) (userKey 43) Hk).
Defined.

Lemma lazy_winter_message env clk msg : lazy (Winter.handleMessage env clk msg).
Proof.
  unfold Winter.handleMessage, loadSession, Winter.dispatch, Winter.handleStart,
    Winter.startNyMenu, Winter.nyContactStep,
    Winter.exContactStep, Winter.createBooking, saveBooking, notifyAdmin,
    setState, clearState, sendMessage.
  lazy_tac.
Qed.

Lemma quiet_baseline_message env clk msg : always quiet (Baseline.handleMessage env clk msg).
Proof.
  unfold Baseline.handleMessage, loadSession, Baseline.dispatch, Baseline.exPeopleStep,
    Baseline.exContactStep, Baseline.createBooking, saveBooking, notifyAdmin,
    setState, clearState, sendMessage.
  always_tac.
Qed.

(** X13.  No message takes or frees a seat: after a delivery of the winter
    worker every event has the seats (capacity and booked) it had, the only
    possible write being the counter of forty free seats of an event read
    for the first time; the baseline worker writes no counter at all.  So a
    request holds no seat until the operator confirms it. *)
Theorem messages_keep_counters env clk msg st key :
  seats (exec (Winter.handleMessage env clk msg) st) key = seats st key
  /\ lazily (EVENTS st) (EVENTS (exec (Winter.handleMessage env clk msg) st))
  /\ EVENTS (exec (Baseline.handleMessage env clk msg) st) = EVENTS st.
Proof.
  split_and!.
  - apply lazy_seats, lazy_winter_message.
  - apply (lazy_winter_message env clk msg (EVENTS st) st), lazily_refl.
  - apply quiet_exec, quiet_baseline_message.
Qed.

Lemma loadSession_cases clk chatId st :
  (exists s, loadSession clk chatId st = (s, []))
  \/ loadSession clk chatId st = (emptySession, [StateDelete (userKey chatId)]).
Proof.
  unfold loadSession, mbind, M_bind, read. cbv beta iota zeta.
  destruct (s_expiresAt _) as [e|]; [|left; by eexists].
  destruct (negb (e =? 0) && (t_now clk >? e)); [by right|left; by eexists].
Qed.

Lemma winter_reset env clk msg s :
  m_text msg = Some (J "🔄 Сбросить заявку") ->
  Winter.dispatch env clk msg s
  = (clearState (m_chat msg);;
     sendMessage (m_chat msg) (J "Заявка сброшена. Можете начать заново.")
       (Kb_main_winter (isAdminUserId env (m_from msg)))).
Proof.
  intros Ht. unfold Winter.dispatch.
  read_text Ht.
  eval_tests. reflexivity.
Qed.

Lemma winter_menu env clk msg s :
  m_text msg = Some (J "🏡 Главное меню") ->
  Winter.dispatch env clk msg s
  = (clearState (m_chat msg);;
     sendMessage (m_chat msg) welcomeText (Kb_main_winter (isAdminUserId env (m_from msg)))).
Proof.
  intros Ht. unfold Winter.dispatch, Winter.handleStart.
  read_text Ht.
  eval_tests. reflexivity.
Qed.

Lemma baseline_reset env clk msg s :
  m_text msg = Some (J "🔄 Сбросить заявку") ->
  Baseline.dispatch env clk msg s
  = (clearState (m_chat msg);;
     sendMessage (m_chat msg) (J "Заявка сброшена. Можете начать заново.") Kb_main).
Proof.
  intros Ht. unfold Baseline.dispatch.
  read_text Ht.
  eval_tests. reflexivity.
Qed.

Lemma baseline_menu env clk msg s :
  m_text msg = Some (J "🏡 Главное меню") ->
  Baseline.dispatch env clk msg s
  = (clearState (m_chat msg);; sendMessage (m_chat msg) welcomeText Kb_main).
Proof.
  intros Ht. unfold Baseline.dispatch.
  read_text Ht.
  eval_tests. reflexivity.
Qed.

Lemma drops_clear clk chatId (k : Session -> M unit) reply keyboard st :
  (forall s, k s = (clearState chatId;; sendMessage chatId reply keyboard)) ->
  drops chatId (session ← loadSession clk chatId; k session) st.
Proof.
  intros Hk. unfold drops, exec.
  assert (Hcs : forall st', trace (clearState chatId;; sendMessage chatId reply keyboard) st'
                 = [StateDelete (userKey chatId); SendMessage (Chat chatId) reply keyboard])
    by done.
  destruct (loadSession_cases clk chatId st) as [[s Hrun]|Hrun];
    rewrite (trace_bind_run _ _ _ _ _ Hrun), Hk, Hcs;
    cbn [app replay fold_left apply STATE BOOKINGS EVENTS last].
  - split_and!; eauto.
  - rewrite delete_delete_eq. split_and!; eauto.
Qed.

(** X14.  The reset button and the main menu button work in any state: in
    whatever step the session is, and whether it has expired or not, the
    delivery of either text deletes the session of the chat, writes no
    booking and no counter, and ends with a reply to the chat.  This holds
    for both workers. *)
Theorem reset_anywhere env clk msg st :
  m_text msg = Some (J "🔄 Сбросить заявку") \/ m_text msg = Some (J "🏡 Главное меню") ->
  drops (m_chat msg) (Winter.handleMessage env clk msg) st
  /\ drops (m_chat msg) (Baseline.handleMessage env clk msg) st.
Proof.
  intros [Ht|Ht]; split.
  - eapply drops_clear. intros s. by apply winter_reset.
  - eapply drops_clear. intros s. by apply baseline_reset.
  - eapply drops_clear. intros s. by apply winter_menu.
  - eapply drops_clear. intros s. by apply baseline_menu.
Qed.

Lemma reset_anywhere_witness :
  drops (m_chat (says "🔄 Сбросить заявку"))
    (Winter.handleMessage env0 noon (says "🔄 Сбросить заявку"))
    (waiting "ex_contact" 1735819800000)
  /\ drops (m_chat (says "🔄 Сбросить заявку"))
       (Baseline.handleMessage env0 noon (says "🔄 Сбросить заявку"))
       (waiting "ex_contact" 1735819800000).
Proof.
  exact (reset_anywhere env0 noon (says "🔄 Сбросить заявку")
           (waiting "ex_contact" 1735819800000) (or_introl eq_refl)).
Defined.

(** *** Entering an event *)

Lemma enter_trace env clk msg session0 ev (k : jstr * EventState -> M unit) st :
  (forall key state st', trace (k (key, state)) st' = enterEvent env clk msg session0 ev state) ->
  trace (r ← Winter.getEventState (Winter.ev_id ev); k r) st
  = firstRead st (J "event:" ++ Winter.ev_id ev)
    ++ enterEvent env clk msg session0 ev (seats st (J "event:" ++ Winter.ev_id ev)).
Proof.
  intros Hk. rewrite trace_bind, getEventState_trace, getEventState_result. by rewrite Hk.
Qed.

Lemma choose_dispatch env clk msg s st :
  s_step s = Some (J "ny_choose") ->
  Forall (fun ev =>
    m_text msg = Some (Winter.ev_label ev) ->
    trace (Winter.dispatch env clk msg s) st
    = firstRead st (J "event:" ++ Winter.ev_id ev)
      ++ enterEvent env clk msg s ev (seats st (J "event:" ++ Winter.ev_id ev)))
    Winter.winterEvents.
Proof.
  intros Hs. unfold Winter.winterEvents.
  repeat constructor; intros Ht; unfold Winter.dispatch; read_text Ht; eval_tests;
    cbn [andb orb]; rewrite (step_eq "ny_choose") by done;
    match goal with |- context [List.find ?f ?l] =>
      match goal with |- _ = firstRead _ (_ ++ Winter.ev_id ?ev) ++ _ =>
        replace (List.find f l) with (Some ev) by (vm_compute; reflexivity) end end;
    apply enter_trace; intros key state st'; unfold enterEvent;
    destruct (booked state >=? capacity state); reflexivity.
Qed.

Lemma deep_link_dispatch env clk msg s st :
  Forall (fun ev =>
    m_text msg = Some (J "/start " ++ Winter.ev_id ev) ->
    trace (Winter.dispatch env clk msg s) st
    = firstRead st (J "event:" ++ Winter.ev_id ev)
      ++ enterEvent env clk msg emptySession ev (seats st (J "event:" ++ Winter.ev_id ev)))
    Winter.winterEvents.
Proof.
  unfold Winter.winterEvents.
  repeat constructor; intros Ht; unfold Winter.dispatch, Winter.handleStart; read_text Ht;
    eval_tests; cbn [andb orb];
    match goal with |- _ = firstRead _ (_ ++ Winter.ev_id ?ev) ++ _ =>
      match goal with |- context [split 32%N ?t !! 1%nat] =>
        replace (split 32%N t !! 1%nat) with (Some (Winter.ev_id ev))
          by (vm_compute; reflexivity) end;
      replace (bool_decide (Some (Winter.ev_id ev) = Some (J "ny-menu"))) with false
        by (vm_compute; reflexivity);
      replace (truthy (Some (Winter.ev_id ev))) with true by (vm_compute; reflexivity);
      cbn [tpl default from_option id];
      eval_tests; cbn [andb];
      replace (Winter.findEvent (Winter.ev_id ev)) with (Some ev) by (vm_compute; reflexivity)
    end;
    apply enter_trace; intros key state st'; unfold enterEvent;
    destruct (booked state >=? capacity state); reflexivity.
Qed.

(** X15.  Choosing an event.  When the session waits for the choice and the
    text is the label of an event of the catalog, the worker reads the
    counter of that event (creating it when absent) and then: if no seat is
    free, it says that registration is closed and deletes the session;
    otherwise it records the event in the session, moves it to the name
    step and asks for the name.  No seat is taken. *)
Theorem choose_event env clk msg st s ev :
  STATE st !! userKey (m_chat msg) = Some s -> live clk s ->
  s_step s = Some (J "ny_choose") ->
  ev ∈ Winter.winterEvents ->
  m_text msg = Some (Winter.ev_label ev) ->
  trace (Winter.handleMessage env clk msg) st
  = firstRead st (J "event:" ++ Winter.ev_id ev)
    ++ enterEvent env clk msg s ev (seats st (J "event:" ++ Winter.ev_id ev)).
Proof.
  intros Hst Hlive Hs Hev Ht. unfold Winter.handleMessage.
  rewrite (trace_bind_run _ _ _ _ _ (loadSession_live _ _ _ _ Hst Hlive)).
  cbn [app replay fold_left].
  pose proof (choose_dispatch env clk msg s st Hs) as Hall.
  eapply Forall_forall in Hall; [|exact Hev]. by apply Hall.
Qed.

Lemma choose_event_witness :
  trace (Winter.handleMessage env0 noon (says "03.01 — Ёлка у Снежной королевы"))
    (waiting "ny_choose" 1735819800000)
  = firstRead (waiting "ny_choose" 1735819800000) (J "event:" ++ Winter.ev_id snowQueen)
    ++ enterEvent env0 noon (says "03.01 — Ёлка у Снежной королевы")
         (visitor "ny_choose" 1735819800000) snowQueen
         (seats (waiting "ny_choose" 1735819800000) (J "event:" ++ Winter.ev_id snowQueen)).
Proof.
  assert (H1 : STATE (waiting "ny_choose" 1735819800000)
                 !! userKey (m_chat (says "03.01 — Ёлка у Снежной королевы"))
               = Some (visitor "ny_choose" 1735819800000)) by apply lookup_insert_eq.
  assert (H2 : live noon (visitor "ny_choose" 1735819800000)) by (right; cbn; lia).
  assert (Hev : snowQueen ∈ Winter.winterEvents) by apply list_elem_of_here.
  assert (Ht : m_text (says "03.01 — Ёлка у Снежной королевы")
               = Some (Winter.ev_label snowQueen)) by (vm_compute; reflexivity).
  exact (choose_event env0 noon (says "03.01 — Ёлка у Снежной королевы")
           (waiting "ny_choose" 1735819800000) (visitor "ny_choose" 1735819800000) snowQueen
           H1 H2 eq_refl Hev Ht).
Defined.

Lemma seats_offEvents l st key : Forall quiet l -> seats (replay l st) key = seats st key.
Proof. intros H. unfold seats. by rewrite replay_quiet. Qed.

Lemma firstRead_offEvents l st key :
  Forall quiet l -> firstRead (replay l st) key = firstRead st key.
Proof. intros H. unfold firstRead. by rewrite replay_quiet. Qed.

Lemma loadSession_quiet clk chatId st : Forall quiet (trace (loadSession clk chatId) st).
Proof.
  unfold trace. destruct (loadSession_cases clk chatId st) as [[s ->]| ->]; repeat constructor.
Qed.

(** X16.  The deep link "/start <event id>" of an event of the catalog
    enters that event from any state: after the session is read (and
    deleted when expired), the worker does what it does when the event is
    chosen from the menu, starting from the empty session instead of the
    stored one. *)
Theorem deep_link_enters env clk msg st ev :
  ev ∈ Winter.winterEvents ->
  m_text msg = Some (J "/start " ++ Winter.ev_id ev) ->
  trace (Winter.handleMessage env clk msg) st
  = trace (loadSession clk (m_chat msg)) st
    ++ firstRead st (J "event:" ++ Winter.ev_id ev)
    ++ enterEvent env clk msg emptySession ev (seats st (J "event:" ++ Winter.ev_id ev)).
Proof.
  intros Hev Ht. unfold Winter.handleMessage. rewrite trace_bind. f_equal.
  pose proof (deep_link_dispatch env clk msg (loadSession clk (m_chat msg) st).1
                (exec (loadSession clk (m_chat msg)) st)) as Hall.
  eapply Forall_forall in Hall; [|exact Hev]. rewrite (Hall Ht).
  unfold exec. by rewrite firstRead_offEvents, seats_offEvents by apply loadSession_quiet.
Qed.

Lemma deep_link_enters_witness :
  trace (Winter.handleMessage env0 noon (says "/start ny-03")) (asked 1 2)
  = trace (loadSession noon (m_chat (says "/start ny-03"))) (asked 1 2)
    ++ firstRead (asked 1 2) (J "event:" ++ Winter.ev_id snowQueen)
    ++ enterEvent env0 noon (says "/start ny-03") emptySession snowQueen
         (seats (asked 1 2) (J "event:" ++ Winter.ev_id snowQueen)).
Proof.
  assert (Hev : snowQueen ∈ Winter.winterEvents) by apply list_elem_of_here.
  assert (Ht : m_text (says "/start ny-03") = Some (J "/start " ++ Winter.ev_id snowQueen))
    by (vm_compute; reflexivity).
  exact (deep_link_enters env0 noon (says "/start ny-03") (asked 1 2) snowQueen Hev Ht).
Defined.

(** ** Booking identifiers and the buttons *)

Lemma J_uint u : Forall numeric (J (NilEmpty.string_of_uint u)).
Proof.
  unfold J. induction u; simpl; try constructor; try done; by left.
Qed.

Lemma numeric_String_of_Z n : Forall numeric (String_of_Z n).
Proof.
  unfold String_of_Z, NilZero.string_of_int, NilZero.string_of_uint.
  destruct (Z.to_int n) as [u|u].
  - destruct u; try apply J_uint. unfold J; simpl. repeat constructor.
  - change (J (String "-" ?s)) with (45%N :: J s).
    constructor; [by right; left|].
    destruct u; try apply J_uint. unfold J; simpl. repeat constructor.
Qed.

Lemma numeric_pad w n : Forall numeric (pad w n).
Proof.
  unfold pad. apply Forall_app. split; [|apply numeric_String_of_Z].
  apply Forall_replicate. by left.
Qed.

Lemma numeric_dash : Forall numeric (J "-").
Proof. change (J "-") with [45%N]. constructor; [by right; left|constructor]. Qed.

Lemma numeric_plus : Forall numeric (J "+").
Proof. change (J "+") with [43%N]. constructor; [by right; right|constructor]. Qed.

Lemma numeric_isoDay ms : Forall numeric (isoDay ms).
Proof.
  unfold isoDay. cbv zeta. destruct (_ && _).
  - apply Forall_app; split; [apply numeric_pad|].
    apply Forall_app; split; [apply numeric_dash|].
    apply Forall_app; split; [apply numeric_pad|].
    apply Forall_app; split; [apply numeric_dash|apply numeric_pad].
  - apply Forall_take.
    apply Forall_app; split; [destruct (_ <? _); [apply numeric_dash|apply numeric_plus]|].
    apply Forall_app; split; [apply numeric_pad|].
    apply Forall_app; split; [apply numeric_dash|].
    apply Forall_app; split; [apply numeric_pad|].
    apply Forall_app; split; [apply numeric_dash|apply numeric_pad].
Qed.

Lemma bookingId_chars clk data :
  Forall (fun c => c ∈ or_else (d_date (r_data data)) (J "na")
                   \/ c ∈ J "bk-+" \/ is_digit c = true)
    (Winter.generateBookingId clk data).
Proof.
  set (date := or_else (d_date (r_data data)) (J "na")).
  assert (Hnum : forall l, Forall numeric l ->
            Forall (fun c => c ∈ date \/ c ∈ J "bk-+" \/ is_digit c = true) l).
  { intros l Hl. eapply Forall_impl; [exact Hl|]. intros c [Hc|[-> | ->]].
    - by right; right.
    - right; left. change (J "bk-+") with [98%N; 107%N; 45%N; 43%N].
      rewrite !elem_of_cons. auto.
    - right; left. change (J "bk-+") with [98%N; 107%N; 45%N; 43%N].
      rewrite !elem_of_cons. auto. }
  unfold Winter.generateBookingId. cbv zeta. fold date.
  apply Forall_app; split.
  { apply Forall_forall. intros c Hc. right; left.
    change (J "bk-") with [98%N; 107%N; 45%N] in Hc.
    change (J "bk-+") with [98%N; 107%N; 45%N; 43%N].
    rewrite !elem_of_cons in *. tauto. }
  apply Forall_app; split; [apply Forall_forall; intros c Hc; by left|].
  apply Forall_app; split; [apply Hnum, numeric_dash|].
  apply Forall_app; split; [apply Hnum, numeric_isoDay|].
  apply Forall_app; split; [apply Hnum, numeric_dash|apply Hnum, numeric_String_of_Z].
Qed.

Lemma bookingId_colon clk data :
  58%N ∉ or_else (d_date (r_data data)) (J "na") -> 58%N ∉ Winter.generateBookingId clk data.
Proof.
  intros Hd Hin. pose proof (bookingId_chars clk data) as Hall.
  eapply Forall_forall in Hall; [|exact Hin].
  destruct Hall as [?|[H|H]]; [done| |done].
  change (J "bk-+") with [98%N; 107%N; 45%N; 43%N] in H.
  repeat (apply elem_of_cons in H as [H|H]; [discriminate H|]). by apply elem_of_nil in H.
Qed.

(** X17.  The alphabet of a booking id.  At every clock whose readings are
    time values, every character of the id is a character of the date
    answer (or of "na" when there is none), a character of "bk-+" or a
    digit: the day is printed with digits and hyphens, and with the sign of
    a year outside 0000 to 9999; the millisecond with digits.  Apart from
    the date answer, which the visitor types, no character of an id can be
    the colon that separates a button's action from the id. *)
Theorem booking_id_alphabet clk data :
  timeValue (t_day clk) -> timeValue (t_id clk) ->
  Forall (fun c => c ∈ or_else (d_date (r_data data)) (J "na")
                   \/ c ∈ J "bk-+" \/ is_digit c = true)
    (Winter.generateBookingId clk data).
Proof. intros _ _. apply bookingId_chars. Qed.

Lemma booking_id_alphabet_witness :
  Forall (fun c => c ∈ or_else (d_date (r_data (party "2"))) (J "na")
                   \/ c ∈ J "bk-+" \/ is_digit c = true)
    (Winter.generateBookingId noon (party "2")).
Proof.
  assert (H1 : timeValue (t_day noon)) by (vm_compute; discriminate).
  assert (H2 : timeValue (t_id noon)) by (vm_compute; discriminate).
  exact (booking_id_alphabet noon (party "2") H1 H2).
Defined.

(** The day of a year beyond 9999: the sign, six digits of the year and the
    month, as the first ten characters of "+010000-01-01T00:00:00.000Z". *)
Example isoDay_years :
  isoDay 0 = J "1970-01-01"
  /\ isoDay 253402300799999 = J "9999-12-31"
  /\ isoDay 253402300800000 = J "+010000-01"
  /\ isoDay (-62167219200000) = J "0000-01-01"
  /\ isoDay (-62167219200001) = J "-000001-12"
  /\ isoDay 8640000000000000 = J "+275760-09"
  /\ isoDay (-8640000000000000) = J "-271821-04".
Proof. vm_compute. done. Qed.

Lemma createBooking_run clk data st :
  Winter.createBooking clk data st =
    (newBooking clk data,
     [BookingsPut (J "booking:" ++ Winter.generateBookingId clk data) (newBooking clk data)]).
Proof.
  unfold Winter.createBooking, saveBooking, newBooking. cbn [b_id].
  assert (Hid : exists c r, Winter.generateBookingId clk data = c :: r).
  { unfold Winter.generateBookingId. change (J "bk-") with [98%N; 107%N; 45%N].
    cbn [app]. eauto. }
  destruct Hid as (c & r & Hid). rewrite Hid. reflexivity.
Qed.

Lemma createBooking_result clk data st :
  (Winter.createBooking clk data st).1 = newBooking clk data.
Proof. by rewrite createBooking_run. Qed.

Lemma createBooking_exec clk data st :
  exec (Winter.createBooking clk data) st
  = apply st (BookingsPut (J "booking:" ++ Winter.generateBookingId clk data)
                (newBooking clk data)).
Proof. unfold exec, trace. by rewrite createBooking_run. Qed.

(** X18.  Round trip of a request.  When the date answer holds no colon,
    the id of the created booking holds none, and the booking [createBooking]
    stores (with status "new") is the one that the confirm and the cancel
    button of its notification find. *)
Theorem created_booking_reachable clk data st cbId from :
  58%N ∉ or_else (d_date (r_data data)) (J "na") ->
  let booking := (Winter.createBooking clk data st).1 in
  let st1 := exec (Winter.createBooking clk data) st in
  b_status booking = J "new"
  /\ (58%N ∉ b_id booking)
  /\ getBooking (Winter.cbBookingId (press cbId from (confirmData (b_id booking)))) st1
     = (Some booking, [])
  /\ getBooking (Winter.cbBookingId (press cbId from (cancelData (b_id booking)))) st1
     = (Some booking, []).
Proof.
  intros Hd booking st1. subst booking st1.
  rewrite createBooking_result, createBooking_exec. cbn [newBooking b_id b_status].
  assert (Hid : 58%N ∉ Winter.generateBookingId clk data) by (by apply bookingId_colon).
  destruct (pressed cbId from _ [] Hid) as (_ & H1 & _ & H2 & _).
  rewrite H1, H2. unfold getBooking, read.
  cbn [tpl default from_option id BOOKINGS apply].
  by rewrite lookup_insert_eq.
Qed.

Lemma created_booking_reachable_witness :
  let booking := (Winter.createBooking noon (party "2") noStore).1 in
  let st1 := exec (Winter.createBooking noon (party "2")) noStore in
  b_status booking = J "new"
  /\ (58%N ∉ b_id booking)
  /\ getBooking (Winter.cbBookingId (press (J "q") (Some 777) (confirmData (b_id booking)))) st1
     = (Some booking, [])
  /\ getBooking (Winter.cbBookingId (press (J "q") (Some 777) (cancelData (b_id booking)))) st1
     = (Some booking, []).
Proof.
  assert (Hd : 58%N ∉ or_else (d_date (r_data (party "2"))) (J "na"))
    by (apply (bool_decide_unpack _); vm_compute; exact I).
  exact (created_booking_reachable noon (party "2") noStore (J "q") (Some 777) Hd).
Defined.

Lemma app_cons_ne {A} (l r : list A) x : l ++ x :: r <> l.
Proof.
  intros H. apply (f_equal length) in H. rewrite length_app in H. simpl in H. lia.
Qed.

(** X19.  A date answer with a colon makes the request unreachable.  The
    date of an excursion is free text; when it holds a colon (as in
    "12:07"), the booking is stored under its full id, but the buttons of
    its notification address the id cut at the first colon: unless another
    record sits under that shorter key, confirm and cancel both answer
    "Заявка не найдена." and the request can be neither confirmed nor
    declined. *)
Theorem colon_date_unreachable clk data st cbId from a rest :
  or_else (d_date (r_data data)) (J "na") = a ++ 58%N :: rest ->
  58%N ∉ a ->
  BOOKINGS st !! (J "booking:bk-" ++ a) = None ->
  let booking := (Winter.createBooking clk data st).1 in
  let st1 := exec (Winter.createBooking clk data) st in
  BOOKINGS st1 !! (J "booking:" ++ b_id booking) = Some booking
  /\ trace (Winter.handleAdminBookingAction (press cbId from (confirmData (b_id booking)))) st1
     = [AnswerCallbackQuery cbId (J "Заявка не найдена.")]
  /\ trace (Winter.handleAdminBookingAction (press cbId from (cancelData (b_id booking)))) st1
     = [AnswerCallbackQuery cbId (J "Заявка не найдена.")].
Proof.
  intros Hd Ha Hfree booking st1. subst booking st1.
  rewrite createBooking_result, createBooking_exec. cbn [newBooking b_id].
  assert (Hid : Winter.generateBookingId clk data
                = (J "bk-" ++ a) ++ 58%N :: rest ++ J "-" ++ isoDay (t_day clk) ++ J "-"
                  ++ String_of_Z (t_id clk)).
  { unfold Winter.generateBookingId. cbv zeta. rewrite Hd.
    rewrite <- !app_assoc. reflexivity. }
  assert (Hbk : 58%N ∉ J "bk-" ++ a).
  { change (J "bk-") with [98%N; 107%N; 45%N]. cbn [app].
    rewrite !not_elem_of_cons. done. }
  split; [cbn [BOOKINGS apply]; by rewrite lookup_insert_eq|].
  destruct (pressed cbId from _
              (rest ++ J "-" ++ isoDay (t_day clk) ++ J "-" ++ String_of_Z (t_id clk)) Hbk)
    as (_ & _ & _ & _ & H1 & H2).
  rewrite <- Hid in H1, H2.
  assert (Hkey : forall m : gmap jstr Booking, forall b,
            m !! (J "booking:bk-" ++ a) = None ->
            <[J "booking:" ++ Winter.generateBookingId clk data := b]> m
              !! (J "booking:" ++ J "bk-" ++ a) = None).
  { intros m b Hm. rewrite lookup_insert_ne; [exact Hm|].
    rewrite Hid. intros Heq. apply app_inv_head in Heq.
    by apply app_cons_ne in Heq. }
  split; apply notFound_trace; unfold bookingKey; [rewrite H1|rewrite H2];
    cbn [tpl default from_option id BOOKINGS apply]; by apply Hkey.
Qed.

Lemma colon_date_unreachable_witness :
  let booking := (Winter.createBooking noon (excursion "12:07") noStore).1 in
  let st1 := exec (Winter.createBooking noon (excursion "12:07")) noStore in
  BOOKINGS st1 !! (J "booking:" ++ b_id booking) = Some booking
  /\ trace (Winter.handleAdminBookingAction
              (press (J "q") (Some 777) (confirmData (b_id booking)))) st1
     = [AnswerCallbackQuery (J "q") (J "Заявка не найдена.")]
  /\ trace (Winter.handleAdminBookingAction
              (press (J "q") (Some 777) (cancelData (b_id booking)))) st1
     = [AnswerCallbackQuery (J "q") (J "Заявка не найдена.")].
Proof.
  assert (Hd : or_else (d_date (r_data (excursion "12:07"))) (J "na")
               = J "12" ++ 58%N :: J "07") by (vm_compute; reflexivity).
  assert (Ha : 58%N ∉ J "12") by (apply (bool_decide_unpack _); vm_compute; exact I).
  assert (Hfree : BOOKINGS noStore !! (J "booking:bk-" ++ J "12") = None)
    by apply lookup_empty.
  exact (colon_date_unreachable noon (excursion "12:07") noStore (J "q") (Some 777)
           (J "12") (J "07") Hd Ha Hfree).
Defined.

(** ** The events flow *)

Lemma winter_events_button env clk msg s :
  m_text msg = Some (J "❄ Новогодние мероприятия") ->
  Winter.dispatch env clk msg s = Winter.startNyMenu clk (m_chat msg) (m_chat msg).
Proof.
  intros Ht. unfold Winter.dispatch.
  read_text Ht.
  eval_tests. reflexivity.
Qed.

Lemma winter_events_link env clk msg s :
  m_text msg = Some (J "/start ny-menu") ->
  Winter.dispatch env clk msg s = Winter.startNyMenu clk (m_chat msg) (m_chat msg).
Proof.
  intros Ht. unfold Winter.dispatch, Winter.handleStart.
  read_text Ht.
  eval_tests. cbn [andb orb].
  replace (bool_decide (split 32%N (J "/start ny-menu") !! 1%nat = Some (J "ny-menu")))
    with true by (vm_compute; reflexivity).
  reflexivity.
Qed.

(** X21.  The events menu opens from any state: the button
    "❄ Новогодние мероприятия" and the deep link "/start ny-menu" replace
    whatever session the chat had (expired or not) by a new one that waits
    for the choice of an event, write no booking and no counter, and end
    with the list of events. *)
Theorem events_menu_anywhere env clk msg st :
  m_text msg = Some (J "❄ Новогодние мероприятия") \/ m_text msg = Some (J "/start ny-menu") ->
  let h := Winter.handleMessage env clk msg in
  STATE (exec h st)
  = <[userKey (m_chat msg) :=
        with_expiresAt (t_set clk + 600000) (with_step (J "ny_choose") emptySession)]>
      (STATE st)
  /\ BOOKINGS (exec h st) = BOOKINGS st
  /\ EVENTS (exec h st) = EVENTS st
  /\ last (trace h st)
     = Some (SendMessage (Chat (m_chat msg)) (J "Выберите дату и новогоднее мероприятие:")
               Kb_winter).
Proof.
  intros Ht h.
  assert (Hd : forall s, Winter.dispatch env clk msg s
                         = Winter.startNyMenu clk (m_chat msg) (m_chat msg)).
  { intros s. destruct Ht as [Ht|Ht]; [by apply winter_events_button|by apply winter_events_link]. }
  subst h. unfold exec, Winter.handleMessage.
  destruct (loadSession_cases clk (m_chat msg) st) as [[s Hrun]|Hrun];
    rewrite (trace_bind_run _ _ _ _ _ Hrun), Hd;
    cbn [app replay fold_left apply STATE BOOKINGS EVENTS last].
  - done.
  - split_and!; try done. apply insert_delete_eq.
Qed.

Lemma events_menu_anywhere_witness :
  let h := Winter.handleMessage env0 noon (says "/start ny-menu") in
  STATE (exec h (waiting "ex_date" 1735819800000))
  = <[userKey (m_chat (says "/start ny-menu")) :=
        with_expiresAt (t_set noon + 600000) (with_step (J "ny_choose") emptySession)]>
      (STATE (waiting "ex_date" 1735819800000))
  /\ BOOKINGS (exec h (waiting "ex_date" 1735819800000))
     = BOOKINGS (waiting "ex_date" 1735819800000)
  /\ EVENTS (exec h (waiting "ex_date" 1735819800000))
     = EVENTS (waiting "ex_date" 1735819800000)
  /\ last (trace h (waiting "ex_date" 1735819800000))
     = Some (SendMessage (Chat (m_chat (says "/start ny-menu")))
               (J "Выберите дату и новогоднее мероприятие:") Kb_winter).
Proof.
  exact (events_menu_anywhere env0 noon (says "/start ny-menu")
           (waiting "ex_date" 1735819800000) (or_intror eq_refl)).
Defined.

Lemma text_of_note chatId from username text :
  or_else (m_text (note chatId from username text)) [] = text.
Proof. by destruct text. Qed.

Ltac plain_tac Hg :=
  unfold winterCommand in Hg;
  repeat (apply orb_false_elim in Hg as [Hg ?]);
  unfold Winter.dispatch;
  repeat match goal with H : _ = false |- _ => rewrite H; clear H end;
  cbn [andb orb].

Lemma dispatch_ny_name env clk msg s :
  winterCommand (or_else (m_text msg) []) = false ->
  s_step s = Some (J "ny_name") ->
  Winter.dispatch env clk msg s
  = (setState clk (m_chat msg)
       (with_step (J "ny_people") (with_name (or_else (m_text msg) []) s));;
     sendMessage (m_chat msg) (J "Сколько гостей планируете привезти?") Kb_remove).
Proof.
  intros Hg Hs. plain_tac Hg.
  rewrite (step_ne "ny_name" "ny_choose") by (done || (vm_compute; discriminate)).
  by rewrite (step_eq "ny_name").
Qed.

Lemma dispatch_ny_people env clk msg s :
  winterCommand (or_else (m_text msg) []) = false ->
  s_step s = Some (J "ny_people") ->
  Winter.dispatch env clk msg s
  = (setState clk (m_chat msg)
       (with_step (J "ny_contact") (with_people (or_else (m_text msg) []) s));;
     sendMessage (m_chat msg) (J "Оставьте, пожалуйста, контакт (телефон или Telegram):")
       Kb_remove).
Proof.
  intros Hg Hs. plain_tac Hg.
  rewrite (step_ne "ny_people" "ny_choose") by (done || (vm_compute; discriminate)).
  rewrite (step_ne "ny_people" "ny_name") by (done || (vm_compute; discriminate)).
  by rewrite (step_eq "ny_people").
Qed.

Lemma dispatch_ny_contact env clk msg s :
  winterCommand (or_else (m_text msg) []) = false ->
  s_step s = Some (J "ny_contact") ->
  Winter.dispatch env clk msg s
  = Winter.nyContactStep env clk msg (or_else (m_text msg) []) s
      (Kb_main_winter (isAdminUserId env (m_from msg))).
Proof.
  intros Hg Hs. plain_tac Hg.
  rewrite (step_ne "ny_contact" "ny_choose") by (done || (vm_compute; discriminate)).
  rewrite (step_ne "ny_contact" "ny_name") by (done || (vm_compute; discriminate)).
  rewrite (step_ne "ny_contact" "ny_people") by (done || (vm_compute; discriminate)).
  by rewrite (step_eq "ny_contact").
Qed.

(** A delivery that finds the live session [s] and stores [s'] leaves the
    store with that one write. *)
Lemma stored_exec env clk msg st s s' reply keyboard :
  STATE st !! userKey (m_chat msg) = Some s -> live clk s ->
  Winter.dispatch env clk msg s
  = (setState clk (m_chat msg) s';; sendMessage (m_chat msg) reply keyboard) ->
  exec (Winter.handleMessage env clk msg) st
  = apply st (StatePut (userKey (m_chat msg)) (with_expiresAt (t_set clk + 600000) s')).
Proof.
  intros Hst Hlive Hd. unfold exec, Winter.handleMessage.
  rewrite (trace_bind_run _ _ _ _ _ (loadSession_live _ _ _ _ Hst Hlive)), Hd.
  reflexivity.
Qed.

Lemma nyContactStep_exec env clk msg text s keyboard st :
  let request := {|
    r_type := J "ny_event"; r_chatId := m_chat msg;
    r_nyEventId := s_nyEventId s;
    r_people := parseInt_or0 (or_else (s_people s) (J "0"));
    r_data := {|
      d_name := s_name s; d_date := s_nyEventDate s; d_time := None;
      d_people := s_people s; d_contact := Some text;
      d_nyEventTitle := s_nyEventTitle s;
      d_username := Some (if truthy (m_username msg) then J "@" ++ tpl (m_username msg)
                          else J "нет") |} |} in
  let st' := exec (Winter.nyContactStep env clk msg text s keyboard) st in
  STATE st' = delete (userKey (m_chat msg)) (STATE st)
  /\ BOOKINGS st'
     = <[J "booking:" ++ Winter.generateBookingId clk request := newBooking clk request]>
         (BOOKINGS st)
  /\ EVENTS st' = EVENTS st.
Proof.
  intros request st'. subst st'. unfold exec, Winter.nyContactStep.
  cbn [s_nyEventId s_people s_name s_nyEventDate s_contact s_nyEventTitle with_contact].
  fold request.
  rewrite (trace_bind_run _ _ _ _ _ (createBooking_run clk request st)).
  cbn [app replay fold_left]. unfold notifyAdmin.
  destruct (truthy (ADMIN_CHAT_ID env)); done.
Qed.

Lemma choose_free env clk msg st s ev :
  STATE st !! userKey (m_chat msg) = Some s -> live clk s ->
  s_step s = Some (J "ny_choose") ->
  ev ∈ Winter.winterEvents ->
  m_text msg = Some (Winter.ev_label ev) ->
  booked (seats st (J "event:" ++ Winter.ev_id ev))
    < capacity (seats st (J "event:" ++ Winter.ev_id ev)) ->
  let st' := exec (Winter.handleMessage env clk msg) st in
  STATE st' = <[userKey (m_chat msg) :=
                  with_expiresAt (t_set clk + 600000)
                    (with_nyEvent (Winter.ev_id ev) (Winter.ev_title ev) (Winter.ev_date ev)
                       (with_step (J "ny_name") s))]> (STATE st)
  /\ BOOKINGS st' = BOOKINGS st.
Proof.
  intros Hst Hlive Hs Hev Ht Hfree st'. subst st'. unfold exec, Winter.handleMessage.
  rewrite (trace_bind_run _ _ _ _ _ (loadSession_live _ _ _ _ Hst Hlive)).
  cbn [app replay fold_left].
  pose proof (choose_dispatch env clk msg s st Hs) as Hall.
  eapply Forall_forall in Hall; [|exact Hev]. rewrite (Hall Ht).
  unfold enterEvent. replace (_ >=? _) with false by lia.
  rewrite replay_app. cbn [replay fold_left apply STATE BOOKINGS].
  unfold firstRead. by destruct (EVENTS st !! _).
Qed.

Lemma catalog_ids : Forall (fun ev => truthy (Some (Winter.ev_id ev)) = true) Winter.winterEvents.
Proof. repeat constructor. Qed.

(** X20.  The events flow, end to end.  From a live session that waits for
    the choice, the label of an event with a free seat, then a name, a party
    and a contact (any texts that are no commands), each delivered before
    the session of the previous one expires, leave exactly one new booking:
    the request of that chat for that event, bound to the event's counter,
    with status "new", stored under its own id.  The session is gone, and no
    seat is taken: every counter has the value it had. *)
Theorem events_flow env st chatId from username s ev clk1 clk2 clk3 clk4
    name people contact key :
  STATE st !! userKey chatId = Some s -> live clk1 s ->
  s_step s = Some (J "ny_choose") ->
  ev ∈ Winter.winterEvents ->
  booked (seats st (J "event:" ++ Winter.ev_id ev))
    < capacity (seats st (J "event:" ++ Winter.ev_id ev)) ->
  winterCommand name = false -> winterCommand people = false ->
  winterCommand contact = false ->
  t_now clk2 <= t_set clk1 + 600000 ->
  t_now clk3 <= t_set clk2 + 600000 ->
  t_now clk4 <= t_set clk3 + 600000 ->
  let says text := note chatId from username text in
  let st4 :=
    exec (Winter.handleMessage env clk4 (says contact))
      (exec (Winter.handleMessage env clk3 (says people))
         (exec (Winter.handleMessage env clk2 (says name))
            (exec (Winter.handleMessage env clk1 (says (Winter.ev_label ev))) st))) in
  let request := eventRequest chatId username ev name people contact in
  BOOKINGS st4
  = <[J "booking:" ++ Winter.generateBookingId clk4 request := newBooking clk4 request]>
      (BOOKINGS st)
  /\ b_status (newBooking clk4 request) = J "new"
  /\ b_nyEventId (newBooking clk4 request) = Some (Winter.ev_id ev)
  /\ Winter.capacityBound (newBooking clk4 request) = true
  /\ STATE st4 = delete (userKey chatId) (STATE st)
  /\ seats st4 key = seats st key.
Proof.
  intros Hst Hlive Hs Hev Hfree Hn Hp Hc H12 H23 H34. cbv beta zeta.
  set (says := note chatId from username).
  set (request := eventRequest chatId username ev name people contact).
  set (st1 := exec (Winter.handleMessage env clk1 (says (Winter.ev_label ev))) st).
  set (st2 := exec (Winter.handleMessage env clk2 (says name)) st1).
  set (st3 := exec (Winter.handleMessage env clk3 (says people)) st2).
  set (st4 := exec (Winter.handleMessage env clk4 (says contact)) st3).
  set (s1 := with_expiresAt (t_set clk1 + 600000)
               (with_nyEvent (Winter.ev_id ev) (Winter.ev_title ev) (Winter.ev_date ev)
                  (with_step (J "ny_name") s))).
  set (s2 := with_expiresAt (t_set clk2 + 600000)
               (with_step (J "ny_people") (with_name name s1))).
  set (s3 := with_expiresAt (t_set clk3 + 600000)
               (with_step (J "ny_contact") (with_people people s2))).
  destruct (choose_free env clk1 (says (Winter.ev_label ev)) st s ev Hst Hlive Hs Hev eq_refl
              Hfree) as [HS1 HB1].
  fold st1 s1 in HS1, HB1. change (m_chat (says (Winter.ev_label ev))) with chatId in HS1.
  assert (Hd2 : Winter.dispatch env clk2 (says name) s1
                = (setState clk2 chatId (with_step (J "ny_people") (with_name name s1));;
                   sendMessage chatId (J "Сколько гостей планируете привезти?") Kb_remove)).
  { rewrite dispatch_ny_name; unfold says; rewrite ?text_of_note;
      [reflexivity|exact Hn|reflexivity]. }
  assert (E2 : st2 = apply st1 (StatePut (userKey chatId) s2)).
  { subst st2. eapply (stored_exec env clk2 (says name) st1 s1); [|by right|exact Hd2].
    change (m_chat (says name)) with chatId. rewrite HS1. apply lookup_insert_eq. }
  assert (Hd3 : Winter.dispatch env clk3 (says people) s2
                = (setState clk3 chatId (with_step (J "ny_contact") (with_people people s2));;
                   sendMessage chatId
                     (J "Оставьте, пожалуйста, контакт (телефон или Telegram):") Kb_remove)).
  { rewrite dispatch_ny_people; unfold says; rewrite ?text_of_note;
      [reflexivity|exact Hp|reflexivity]. }
  assert (E3 : st3 = apply st2 (StatePut (userKey chatId) s3)).
  { subst st3. eapply (stored_exec env clk3 (says people) st2 s2); [|by right|exact Hd3].
    change (m_chat (says people)) with chatId. rewrite E2. apply lookup_insert_eq. }
  assert (E4 : st4 = exec (Winter.nyContactStep env clk4 (says contact) contact s3
                             (Kb_main_winter (isAdminUserId env from))) st3).
  { subst st4. unfold exec at 1, Winter.handleMessage.
    rewrite (trace_bind_run _ _ _ s3 []).
    - cbn [app replay fold_left].
      rewrite dispatch_ny_contact; unfold says; rewrite ?text_of_note;
        [reflexivity|exact Hc|reflexivity].
    - apply loadSession_live; [|by right].
      change (m_chat (says contact)) with chatId. rewrite E3. apply lookup_insert_eq. }
  destruct (nyContactStep_exec env clk4 (says contact) contact s3
              (Kb_main_winter (isAdminUserId env from)) st3) as (HS4 & HB4 & _).
  rewrite <- E4 in HS4, HB4.
  assert (Hid : truthy (Some (Winter.ev_id ev)) = true).
  { pose proof catalog_ids as Hall. eapply Forall_forall in Hall; [exact Hall|exact Hev]. }
  split_and!.
  - rewrite HB4, E3, E2. cbn [apply BOOKINGS]. rewrite HB1. reflexivity.
  - reflexivity.
  - cbn [newBooking b_nyEventId request eventRequest r_nyEventId]. by rewrite Hid.
  - unfold Winter.capacityBound.
    cbn [newBooking b_type b_nyEventId request eventRequest r_type r_nyEventId or_else].
    rewrite Hid. cbn [truthy]. pose proof Hid as Hid'. unfold truthy in Hid'.
    destruct (Winter.ev_id ev); [discriminate Hid'|].
    rewrite andb_true_r. apply bool_decide_eq_true_2. reflexivity.
  - rewrite HS4, E3, E2. cbn [apply STATE]. change (m_chat (says contact)) with chatId.
    rewrite HS1. by rewrite !delete_insert_eq.
  - subst st4 st3 st2 st1. by rewrite !lazy_seats by apply lazy_winter_message.
Qed.

Lemma events_flow_witness :
  let says text := note 42 (Some 42) (Some (J "anna_farm")) text in
  let st4 :=
    exec (Winter.handleMessage env0 (minutes 3) (says (J "@anna_farm")))
      (exec (Winter.handleMessage env0 (minutes 2) (says (J "2")))
         (exec (Winter.handleMessage env0 (minutes 1) (says (J "Анна")))
            (exec (Winter.handleMessage env0 noon (says (Winter.ev_label snowQueen)))
               (waiting "ny_choose" 1735819800000)))) in
  let request :=
    eventRequest 42 (Some (J "anna_farm")) snowQueen (J "Анна") (J "2") (J "@anna_farm") in
  BOOKINGS st4
  = <[J "booking:" ++ Winter.generateBookingId (minutes 3) request
      := newBooking (minutes 3) request]>
      (BOOKINGS (waiting "ny_choose" 1735819800000))
  /\ b_status (newBooking (minutes 3) request) = J "new"
  /\ b_nyEventId (newBooking (minutes 3) request) = Some (Winter.ev_id snowQueen)
  /\ Winter.capacityBound (newBooking (minutes 3) request) = true
  /\ STATE st4 = delete (userKey 42) (STATE (waiting "ny_choose" 1735819800000))
  /\ seats st4 (J "event:ny-03") = seats (waiting "ny_choose" 1735819800000) (J "event:ny-03").
Proof.
  assert (H1 : STATE (waiting "ny_choose" 1735819800000) !! userKey 42
               = Some (visitor "ny_choose" 1735819800000)) by apply lookup_insert_eq.
  assert (H2 : live noon (visitor "ny_choose" 1735819800000)) by (right; cbn; lia).
  assert (Hev : snowQueen ∈ Winter.winterEvents) by apply list_elem_of_here.
  assert (Hfree : booked (seats (waiting "ny_choose" 1735819800000)
                            (J "event:" ++ Winter.ev_id snowQueen))
                  < capacity (seats (waiting "ny_choose" 1735819800000)
                                (J "event:" ++ Winter.ev_id snowQueen)))
    by (vm_compute; reflexivity).
  assert (Hn : winterCommand (J "Анна") = false) by (vm_compute; reflexivity).
  assert (Hp : winterCommand (J "2") = false) by (vm_compute; reflexivity).
  assert (Hc : winterCommand (J "@anna_farm") = false) by (vm_compute; reflexivity).
  assert (H12 : t_now (minutes 1) <= t_set noon + 600000) by (vm_compute; discriminate).
  assert (H23 : t_now (minutes 2) <= t_set (minutes 1) + 600000) by (vm_compute; discriminate).
  assert (H34 : t_now (minutes 3) <= t_set (minutes 2) + 600000) by (vm_compute; discriminate).
  exact (events_flow env0 (waiting "ny_choose" 1735819800000) 42 (Some 42)
           (Some (J "anna_farm")) (visitor "ny_choose" 1735819800000) snowQueen
           noon (minutes 1) (minutes 2) (minutes 3) (J "Анна") (J "2") (J "@anna_farm")
           (J "event:ny-03") H1 H2 eq_refl Hev Hfree Hn Hp Hc H12 H23 H34).
Defined.

(** ** The information blocks *)

Lemma info_dispatch env clk msg s :
  Forall (fun text =>
    m_text msg = Some text ->
    exists reply,
      Winter.dispatch env clk msg s
      = sendMessage (m_chat msg) reply (Kb_main_winter (isAdminUserId env (m_from msg)))
      /\ Baseline.dispatch env clk msg s = sendMessage (m_chat msg) reply Kb_main)
    infoTexts.
Proof.
  unfold infoTexts.
  repeat constructor; intros Ht; unfold Winter.dispatch, Baseline.dispatch; read_text Ht;
    eval_tests; cbn [andb orb]; eexists; split; reflexivity.
Qed.

(** X22.  The information blocks do not interrupt a flow: with a live
    session at whatever step, the text of one of the four information
    buttons is answered by one message (the same text in both workers) and
    nothing is written, so the session keeps its step, its answers and its
    expiry. *)
Theorem info_keeps_flow env clk msg st s text :
  STATE st !! userKey (m_chat msg) = Some s -> live clk s ->
  m_text msg = Some text -> text ∈ infoTexts ->
  exists reply,
    trace (Winter.handleMessage env clk msg) st
    = [SendMessage (Chat (m_chat msg)) reply (Kb_main_winter (isAdminUserId env (m_from msg)))]
    /\ trace (Baseline.handleMessage env clk msg) st
       = [SendMessage (Chat (m_chat msg)) reply Kb_main]
    /\ exec (Winter.handleMessage env clk msg) st = st
    /\ exec (Baseline.handleMessage env clk msg) st = st.
Proof.
  intros Hst Hlive Ht Hin.
  pose proof (info_dispatch env clk msg s) as Hall.
  eapply Forall_forall in Hall; [|exact Hin].
  destruct (Hall Ht) as (reply & Hw & Hb). exists reply.
  assert (H1 : trace (Winter.handleMessage env clk msg) st
               = [SendMessage (Chat (m_chat msg)) reply
                    (Kb_main_winter (isAdminUserId env (m_from msg)))]).
  { unfold Winter.handleMessage.
    rewrite (trace_bind_run _ _ _ _ _ (loadSession_live _ _ _ _ Hst Hlive)), Hw.
    reflexivity. }
  assert (H2 : trace (Baseline.handleMessage env clk msg) st
               = [SendMessage (Chat (m_chat msg)) reply Kb_main]).
  { unfold Baseline.handleMessage.
    rewrite (trace_bind_run _ _ _ _ _ (loadSession_live _ _ _ _ Hst Hlive)), Hb.
    reflexivity. }
  split_and!; [exact H1|exact H2| |]; unfold exec; [rewrite H1|rewrite H2]; reflexivity.
Qed.

Lemma info_keeps_flow_witness :
  exists reply,
    trace (Winter.handleMessage env0 noon (says "📅 Расписание")) (waiting "ex_date" 1735819800000)
    = [SendMessage (Chat (m_chat (says "📅 Расписание"))) reply
         (Kb_main_winter (isAdminUserId env0 (m_from (says "📅 Расписание"))))]
    /\ trace (Baseline.handleMessage env0 noon (says "📅 Расписание"))
         (waiting "ex_date" 1735819800000)
       = [SendMessage (Chat (m_chat (says "📅 Расписание"))) reply Kb_main]
    /\ exec (Winter.handleMessage env0 noon (says "📅 Расписание"))
         (waiting "ex_date" 1735819800000) = waiting "ex_date" 1735819800000
    /\ exec (Baseline.handleMessage env0 noon (says "📅 Расписание"))
         (waiting "ex_date" 1735819800000) = waiting "ex_date" 1735819800000.
Proof.
  assert (H1 : STATE (waiting "ex_date" 1735819800000) !! userKey (m_chat (says "📅 Расписание"))
               = Some (visitor "ex_date" 1735819800000)) by apply lookup_insert_eq.
  assert (H2 : live noon (visitor "ex_date" 1735819800000)) by (right; cbn; lia).
  assert (Hin : J "📅 Расписание" ∈ infoTexts)
    by (apply list_elem_of_further, list_elem_of_here).
  exact (info_keeps_flow env0 noon (says "📅 Расписание") (waiting "ex_date" 1735819800000)
           (visitor "ex_date" 1735819800000) (J "📅 Расписание") H1 H2 eq_refl Hin).
Defined.
